(** * llmfinrep: document-to-structured-data pipeline

    A shallow embedding of the Python sources

      - [app/utils/text_utils.py]
      - [app/services/json_extractor.py]
      - [app/services/pdf_extractor.py]
      - [app/services/image_extractor.py]
      - [app/services/excel_extractor.py]
      - [app/services/docx_extractor.py]
      - [app/services/extractor.py]
      - [app/services/llm_client.py]
      - [app/routers/analyze.py]
      - [app/config.py], [app/auth.py], [app/main.py]

    together with the properties of the specification that concern them.

    Conventions.  A Python [str] is a sequence of Unicode code points and is
    modelled as [list N]; [len], slicing, [find]/[rfind] and [strip] therefore
    count code points, as in Python.  Python [int] is [Z].  Python [float] is
    IEEE-754 binary64, modelled by the Standard Library's [spec_float] with
    precision 53 and maximal exponent 1024.  Exceptions are explicit: a
    fallible function returns an [outcome].  What the code calls outside the
    repository (the JSON decoder, the PDF and OCR engines, the spreadsheet
    and word readers, the prompt files, the LLM backend, the calculation
    engine) is a parameter of the function that calls it.  So is the room
    the interpreter has left on its call stack, which bounds the one
    recursion of the sources. *)

From Stdlib Require Import ZArith NArith List Bool Lia.
From Stdlib Require Import Strings.String Strings.Ascii Strings.Byte.
From Stdlib Require Import Sorting.Sorted Sorting.Permutation.
From Stdlib Require Import Floats.SpecFloat.
Import ListNotations.

Set Implicit Arguments.
Local Open Scope Z_scope.

(* ===================================================================== *)
(** * Python strings *)
(* ===================================================================== *)

Definition codepoint := N.
Definition pystr := list codepoint.

(** ** Source literals

    The Python sources are UTF-8 files with Cyrillic literals.  A literal is
    written here as a Rocq string (its UTF-8 bytes) and decoded to code
    points by [py]. *)

Fixpoint utf8_decode (fuel : nat) (bs : list N) : pystr :=
  match fuel with
  | O => []
  | S fuel' =>
    match bs with
    | [] => []
    | b0 :: r0 =>
      if (b0 <? 128)%N then b0 :: utf8_decode fuel' r0
      else if (b0 <? 224)%N then
        match r0 with
        | b1 :: r1 =>
            (((b0 - 192) * 64) + (b1 - 128))%N :: utf8_decode fuel' r1
        | _ => []
        end
      else if (b0 <? 240)%N then
        match r0 with
        | b1 :: b2 :: r2 =>
            (((b0 - 224) * 4096) + ((b1 - 128) * 64) + (b2 - 128))%N
              :: utf8_decode fuel' r2
        | _ => []
        end
      else
        match r0 with
        | b1 :: b2 :: b3 :: r3 =>
            (((b0 - 240) * 262144) + ((b1 - 128) * 4096)
             + ((b2 - 128) * 64) + (b3 - 128))%N
              :: utf8_decode fuel' r3
        | _ => []
        end
    end
  end.

Definition py (s : string) : pystr :=
  let bs := List.map Byte.to_N (list_byte_of_string s) in
  utf8_decode (List.length bs) bs.

(** ** Character classes *)

(** [str.isspace()] on one code point; the same predicate is the regular
    expression class [\s] on [str] patterns and the set removed by
    [str.strip()]. *)
Definition is_space (c : codepoint) : bool :=
  ((9 <=? c) && (c <=? 13)
   || (28 <=? c) && (c <=? 32)
   || (c =? 133) || (c =? 160) || (c =? 5760)
   || (8192 <=? c) && (c <=? 8202)
   || (c =? 8232) || (c =? 8233) || (c =? 8239) || (c =? 8287)
   || (c =? 12288))%N.

Definition NL : codepoint := 10%N.
Definition SP : codepoint := 32%N.

Definition is_newline (c : codepoint) : bool := (c =? NL)%N.

(** The class [[^\S\n]]: whitespace other than the newline. *)
Definition is_hspace (c : codepoint) : bool :=
  is_space c && negb (is_newline c).

(** Tables of the Unicode character database that the code consults through
    [str.lower], [str.isdigit] and [float]; the ASCII range is written out
    in the definitions below, the rest is taken from the database.
    [str.lower] is taken one code point at a time: its only rule that looks
    at the context, for the final sigma, chooses between two Greek letters
    and touches no comparison the code makes. *)
Class UnicodeData := {
  (** [c.lower()] for a code point [c >= 128] *)
  unicode_lower : codepoint -> pystr;
  (** [c.isdigit()] for a code point [c >= 128] *)
  unicode_isdigit : codepoint -> bool;
  (** the decimal value of a code point [c >= 128] of category Nd *)
  unicode_decimal : codepoint -> option N
}.

(** ** Sequence operations *)

Definition len (s : pystr) : Z := Z.of_nat (List.length s).

(** [s[:n]] *)
Definition slice_to (s : pystr) (n : Z) : pystr :=
  if n <? 0 then firstn (Z.to_nat (len s + n)) s
  else firstn (Z.to_nat n) s.

(** [s[n:]] *)
Definition slice_from (s : pystr) (n : Z) : pystr :=
  if n <? 0 then skipn (Z.to_nat (len s + n)) s
  else skipn (Z.to_nat n) s.

(** [s[a:b]] for [0 <= a] *)
Definition slice (s : pystr) (a b : Z) : pystr :=
  slice_from (slice_to s b) a.

Fixpoint drop_while (p : codepoint -> bool) (s : pystr) : pystr :=
  match s with
  | [] => []
  | c :: r => if p c then drop_while p r else s
  end.

Fixpoint take_while (p : codepoint -> bool) (s : pystr) : pystr :=
  match s with
  | [] => []
  | c :: r => if p c then c :: take_while p r else []
  end.

Definition lstrip (s : pystr) : pystr := drop_while is_space s.
Definition rstrip (s : pystr) : pystr := rev (drop_while is_space (rev s)).
(** [s.strip()] *)
Definition strip (s : pystr) : pystr := rstrip (lstrip s).

Fixpoint starts_with (p s : pystr) : bool :=
  match p, s with
  | [], _ => true
  | _ :: _, [] => false
  | a :: p', b :: s' => (a =? b)%N && starts_with p' s'
  end.

Fixpoint pystr_eqb (a b : pystr) : bool :=
  match a, b with
  | [], [] => true
  | x :: a', y :: b' => (x =? y)%N && pystr_eqb a' b'
  | _, _ => false
  end.

(** [s.find(c)] for a one-character needle: the least index, or [-1]. *)
Fixpoint find_char (c : codepoint) (s : pystr) : Z :=
  match s with
  | [] => -1
  | x :: r =>
      if (x =? c)%N then 0
      else let i := find_char c r in if i <? 0 then -1 else i + 1
  end.

(** [s.rfind(c)] for a one-character needle: the greatest index, or [-1]. *)
Fixpoint rfind_char (c : codepoint) (s : pystr) : Z :=
  match s with
  | [] => -1
  | x :: r =>
      let i := rfind_char c r in
      if 0 <=? i then i + 1
      else if (x =? c)%N then 0 else -1
  end.

(** [sep.join(parts)] *)
Fixpoint join (sep : pystr) (parts : list pystr) : pystr :=
  match parts with
  | [] => []
  | [p] => p
  | p :: rest => p ++ sep ++ join sep rest
  end.

(** [sorted(l)] on strings: insertion sort by code-point order *)

Fixpoint pystr_leb (a b : pystr) : bool :=
  match a, b with
  | [], _ => true
  | _ :: _, [] => false
  | x :: a', y :: b' =>
      if (x <? y)%N then true
      else if (y <? x)%N then false
      else pystr_leb a' b'
  end.

Fixpoint insert_sorted (x : pystr) (l : list pystr) : list pystr :=
  match l with
  | [] => [x]
  | y :: r => if pystr_leb x y then x :: l else y :: insert_sorted x r
  end.

Definition sorted (l : list pystr) : list pystr :=
  fold_right insert_sorted [] l.

(** [s.replace(old, new)] for a one-character [old] *)
Definition replace_char (old : codepoint) (new : pystr) (s : pystr) : pystr :=
  flat_map (fun c => if (c =? old)%N then new else [c]) s.

(** [str(n)] for an [int] *)
Fixpoint pos_digits (fuel : nat) (n : Z) (acc : pystr) : pystr :=
  match fuel with
  | O => acc
  | S fuel' =>
      let acc' := (Z.to_N (48 + n mod 10)) :: acc in
      if n <? 10 then acc' else pos_digits fuel' (n / 10) acc'
  end.

Definition str_of_int (n : Z) : pystr :=
  if n <? 0 then 45%N :: pos_digits (S (Z.to_nat (Z.log2 (- n)))) (- n) []
  else pos_digits (S (Z.to_nat (Z.log2 n))) n [].

(* ===================================================================== *)
(** * app/utils/text_utils.py *)
(* ===================================================================== *)

Module text_utils.

(** [re.sub(pattern, repl, text)] for a pattern [[cls]{min,}] ([min >= 1]):
    scanning from the left, a maximal run of at least [min] characters of
    the class is replaced by [repl]; a character that starts no match is
    copied.  A run shorter than [min] cannot match at any of its positions,
    so it is copied whole. *)
Fixpoint re_sub_runs_from (fuel : nat) (cls : codepoint -> bool) (min : nat)
    (repl : pystr) (text : pystr) : pystr :=
  match fuel with
  | O => text
  | S fuel' =>
    match text with
    | [] => []
    | c :: rest =>
        let run := take_while cls text in
        if (min <=? List.length run)%nat && (1 <=? List.length run)%nat then
          repl ++ re_sub_runs_from fuel' cls min repl (drop_while cls text)
        else
          c :: re_sub_runs_from fuel' cls min repl rest
    end
  end.

Definition re_sub_runs cls min repl text : pystr :=
  re_sub_runs_from (List.length text) cls min repl text.

(** [clean_text(text)] *)
Definition clean_text (text : pystr) : pystr :=
  (* re.sub(r"[^\S\n]+", " ", text) *)
  let text := re_sub_runs is_hspace 1 [SP] text in
  (* re.sub(r"\n{3,}", "\n\n", text) *)
  let text := re_sub_runs is_newline 3 [NL; NL] text in
  strip text.

(** [estimate_tokens(text)]: [int(len(text) / 3.5)].  The quotient is a
    binary64 division; for every length below [2^50] its integer part is
    the integer quotient of [2 * len] by [7], which is what is written
    here. *)
Definition estimate_tokens (text : pystr) : Z :=
  match text with
  | [] => 0
  | _ => (2 * len text) / 7
  end.

(** The truncation notice, an f-string over the two token counts. *)
Definition warning (current_tokens max_tokens : Z) : pystr :=
  [NL; NL]
  ++ py "[УВАГА: Текст було скорочено через перевищення ліміту токенів. "
  ++ py "Оригінальний розмір: ~" ++ str_of_int current_tokens
  ++ py " токенів, "
  ++ py "ліміт: " ++ str_of_int max_tokens ++ py " токенів.]".

(** [truncate_text(text, max_tokens)].

    [int(max_tokens * 3.5)] truncates toward zero, hence [Z.quot].  The test
    [last_newline > target_chars * 0.8] compares an [int] with a binary64
    product; for [|target_chars| < 2^50] it holds exactly when
    [5 * last_newline > 4 * target_chars]. *)
Definition truncate_text (text : pystr) (max_tokens : Z) : pystr * bool :=
  let current_tokens := estimate_tokens text in
  if current_tokens <=? max_tokens then (text, false)
  else
    let target_chars := Z.quot (7 * max_tokens) 2 in
    let truncated := slice_to text target_chars in
    let last_newline := rfind_char NL truncated in
    let truncated :=
      if 4 * target_chars <? 5 * last_newline
      then slice_to truncated last_newline
      else truncated in
    (truncated ++ warning current_tokens max_tokens, true).

(** [combine_extracted_texts(file_texts)]; the dict is given by its items
    in iteration (insertion) order. *)
Definition combine_extracted_texts (file_texts : list (pystr * pystr)) : pystr :=
  let parts :=
    List.map (fun '(filename, text) =>
                py "=== FILE: " ++ filename ++ py " ===" ++ [NL] ++ text)
             file_texts in
  join [NL; NL] parts.

End text_utils.


(* ===================================================================== *)
(** * Python values, exceptions and floats *)
(* ===================================================================== *)

(** The detail payload of a [fastapi.HTTPException]. *)
Inductive http_detail :=
| DetailText (msg : pystr)
| DetailFailedFiles (message : pystr) (failed_files : list (pystr * pystr))
| DetailParse (message : pystr) (raw_response_preview : pystr).

(** The exceptions, by class and [str(e)].  [OtherException] stands for an
    exception of a class that is none of the others and no subclass of
    one of them. *)
Inductive exn :=
| ExtractionError (msg : pystr)
| JSONDecodeError (msg : pystr)
| OverflowError (msg : pystr)
| ValueError (msg : pystr)
| RuntimeError (msg : pystr)
| RecursionError (msg : pystr)
| HTTPException (status_code : Z) (detail : http_detail)
| OtherException (msg : pystr).

(** [isinstance(e, RuntimeError)], what [except RuntimeError] tests:
    [RecursionError] is a subclass of [RuntimeError]. *)
Definition is_RuntimeError (e : exn) : bool :=
  match e with
  | RuntimeError _ | RecursionError _ => true
  | _ => false
  end.

Inductive outcome (A : Type) :=
| Ok (a : A)
| Raise (e : exn).
Arguments Ok {A} a.
Arguments Raise {A} e.

(** Sequencing: a raised exception skips the rest. *)
Class Monad (m : Type -> Type) := {
  ret : forall {A}, A -> m A;
  bind : forall {A B}, m A -> (A -> m B) -> m B
}.

Notation "x <- m ;; k" := (bind m (fun x => k))
  (at level 61, m at next level, right associativity).
Notation "' pat <- m ;; k" :=
  (bind m (fun x => match x with pat => k end))
  (at level 61, pat pattern, m at next level, right associativity).

#[export] Instance outcome_monad : Monad outcome := {
  ret A a := Ok a;
  bind A B m k :=
    match m with
    | Ok a => k a
    | Raise e => Raise e
    end
}.

(** [str(e)] for an exception carrying a message *)
Definition exn_str (e : exn) : pystr :=
  match e with
  | ExtractionError m | JSONDecodeError m | OverflowError m
  | ValueError m | RuntimeError m | RecursionError m | OtherException m => m
  | HTTPException _ _ => []
  end.

(** ** The call stack

    CPython refuses a call of a Python function that would take the stack
    beyond the recursion limit, and raises [RecursionError].  The sources
    have one recursive function, [_to_float], which calls itself once for
    every pair of parentheses around a value, and which calls [re.match],
    a Python function, before it does.  [recursion_budget] is the number
    of nested calls of [_to_float], below the outermost one, in which the
    interpreter still has the stack for [re.match]; the outermost call is
    taken to have it. *)
Class Interpreter := {
  recursion_budget : nat
}.

Definition float := spec_float.
Definition prec : Z := 53.
Definition emax : Z := 1024.

(** The values [json.loads] produces.  A dict is given by its items in
    insertion order, with pairwise distinct keys. *)
Unset Elimination Schemes.
Inductive pyval :=
| PNone
| PBool (b : bool)
| PInt (n : Z)
| PFloat (x : float)
| PStr (s : pystr)
| PList (l : list pyval)
| PDict (items : list (pystr * pyval)).
Set Elimination Schemes.

(** [type(v).__name__] *)
Definition type_name (v : pyval) : pystr :=
  match v with
  | PNone => py "NoneType"
  | PBool _ => py "bool"
  | PInt _ => py "int"
  | PFloat _ => py "float"
  | PStr _ => py "str"
  | PList _ => py "list"
  | PDict _ => py "dict"
  end.

(** ** Dicts: items in insertion order *)

Section Dict.
Variable V : Type.

Fixpoint dict_get (d : list (pystr * V)) (k : pystr) : option V :=
  match d with
  | [] => None
  | (k', v) :: r => if pystr_eqb k' k then Some v else dict_get r k
  end.

Definition dict_has (d : list (pystr * V)) (k : pystr) : bool :=
  match dict_get d k with Some _ => true | None => false end.

(** [d[k] = v]: an existing key keeps its position, a new one goes last. *)
Fixpoint dict_set (d : list (pystr * V)) (k : pystr) (v : V)
  : list (pystr * V) :=
  match d with
  | [] => [(k, v)]
  | (k', v') :: r =>
      if pystr_eqb k' k then (k', v) :: r else (k', v') :: dict_set r k v
  end.

(** [d.setdefault(k, v)] *)
Definition dict_setdefault (d : list (pystr * V)) (k : pystr) (v : V)
  : list (pystr * V) :=
  if dict_has d k then d else dict_set d k v.

(** [list(d.keys())] *)
Definition dict_keys (d : list (pystr * V)) : list pystr := List.map fst d.
End Dict.

(** ** [float] *)

Definition is_ascii_digit (c : codepoint) : bool :=
  ((48 <=? c) && (c <=? 57))%N.

Definition ascii_lower (c : codepoint) : codepoint :=
  if ((65 <=? c) && (c <=? 90))%N then (c + 32)%N else c.

(** The binary64 nearest to [(-1)^neg * m * 10^e] (ties to even); overflow
    gives an infinity, underflow a zero. *)
Definition float_of_decimal (neg : bool) (m : N) (e : Z) : float :=
  match m with
  | N0 => S754_zero neg
  | Npos p =>
      if 0 <=? e then
        binary_normalize prec emax
          ((if neg then Z.neg p else Z.pos p) * 10 ^ e) 0 neg
      else
        SFdiv prec emax (S754_finite neg p 0)
              (S754_finite false (Z.to_pos (10 ^ (- e))) 0)
  end.

(** [float(n)] for an [int]: correctly rounded, [OverflowError] beyond the
    binary64 range. *)
Definition float_of_int (n : Z) : outcome float :=
  match binary_normalize prec emax n 0 false with
  | S754_infinity _ => Raise (OverflowError (py "int too large to convert to float"))
  | x => Ok x
  end.

Fixpoint span_digits (s : pystr) : list N * pystr :=
  match s with
  | c :: r =>
      if is_ascii_digit c then
        let '(ds, rest) := span_digits r in ((c - 48)%N :: ds, rest)
      else ([], s)
  | [] => ([], [])
  end.

Definition digits_value (ds : list N) : N :=
  fold_left (fun acc d => (10 * acc + d)%N) ds 0%N.

(** An optional sign: [(negative, rest)] *)
Definition take_sign (s : pystr) : bool * pystr :=
  match s with
  | 43%N :: r => (false, r)
  | 45%N :: r => (true, r)
  | _ => (false, s)
  end.

(** Underscores in a numeric literal may only stand between two digits;
    the literal without them, or [None]. *)
Fixpoint strip_underscores (prev : codepoint) (s : pystr) : option pystr :=
  match s with
  | [] => if (prev =? 95)%N then None else Some []
  | c :: r =>
      if (c =? 95)%N then
        if is_ascii_digit prev then strip_underscores c r else None
      else if (prev =? 95)%N && negb (is_ascii_digit c) then None
      else option_map (cons c) (strip_underscores c r)
  end.

(** The C-locale [isspace] used by [float] to trim its argument. *)
Definition is_c_space (c : codepoint) : bool :=
  ((9 <=? c) && (c <=? 13) || (c =? 32))%N.

Section Float.
Context {ucd : UnicodeData}.
Context {stack : Interpreter}.

(** Non-ASCII decimal digits become ASCII digits, non-ASCII whitespace a
    space, any other non-ASCII code point a question mark. *)
Definition transform_decimal_and_space (s : pystr) : pystr :=
  List.map (fun c =>
    if (c <? 128)%N then c
    else if is_space c then SP
    else match unicode_decimal c with
         | Some d => (48 + d)%N
         | None => 63%N
         end) s.

(** The unsigned finite literal [digits [. digits] [(e|E) [sign] digits]]
    with at least one digit before the exponent. *)
Definition parse_float_number (neg : bool) (s : pystr) : option float :=
  let '(ip, r1) := span_digits s in
  let '(fp, r2) :=
    match r1 with
    | 46%N :: r => span_digits r
    | _ => ([], r1)
    end in
  match ip, fp with
  | [], [] => None
  | _, _ =>
    let m := digits_value (ip ++ fp) in
    let scale := - Z.of_nat (List.length fp) in
    match r2 with
    | [] => Some (float_of_decimal neg m scale)
    | c :: r3 =>
      if (ascii_lower c =? 101)%N then
        let '(eneg, r4) := take_sign r3 in
        match span_digits r4 with
        | (d :: ds, []) =>
            let ex := Z.of_N (digits_value (d :: ds)) in
            Some (float_of_decimal neg m
                    (scale + (if eneg then - ex else ex)))
        | _ => None
        end
      else None
    end
  end.

(** [float(s)] for a [str]; [None] stands for [ValueError]. *)
Definition float_of_str (s : pystr) : option float :=
  let s := transform_decimal_and_space s in
  let s := rev (drop_while is_c_space (rev (drop_while is_c_space s))) in
  match strip_underscores 0%N s with
  | None => None
  | Some s =>
    let '(neg, body) := take_sign s in
    let low := List.map ascii_lower body in
    if pystr_eqb low (py "inf") || pystr_eqb low (py "infinity")
    then Some (S754_infinity neg)
    else if pystr_eqb low (py "nan") then Some S754_nan
    else parse_float_number neg body
  end.
End Float.

(** [-x] *)
Definition float_neg (x : float) : float := SFopp x.

(** ** [str.lower] and [str.isdigit] *)

Section Unicode.
Context {ucd : UnicodeData}.
Context {stack : Interpreter}.

Definition lower (s : pystr) : pystr :=
  flat_map (fun c =>
    if ((65 <=? c) && (c <=? 90))%N then [(c + 32)%N]
    else if (c <? 128)%N then [c]
    else unicode_lower c) s.

Definition isdigit (s : pystr) : bool :=
  match s with
  | [] => false
  | _ => forallb (fun c => if (c <? 128)%N then is_ascii_digit c
                           else unicode_isdigit c) s
  end.
End Unicode.

(* ===================================================================== *)
(** * app/services/json_extractor.py *)
(* ===================================================================== *)

Module json_extractor.

(** [REQUIRED_KEYS], a set; listed in the order of the source literal. *)
Definition REQUIRED_KEYS : list pystr :=
  [py "balance_start"; py "balance_end"; py "income_current"].

(** ** The fence pattern

    [re.search(r"```(?:json)?\s*\n?(.*?)\n?```", text, re.DOTALL)], one
    function per piece of the pattern, each trying its alternatives in the
    order of the backtracking matcher and returning group 1. *)

Definition FENCE : pystr := py "```".

(** [(.*?)\n?```]: the shortest group after which an optional newline and
    the closing fence follow. *)
Fixpoint match_group (r : pystr) : option pystr :=
  if starts_with (NL :: FENCE) r || starts_with FENCE r then Some []
  else match r with
       | [] => None
       | c :: r' => option_map (cons c) (match_group r')
       end.

(** [\n?] (greedy), then the group *)
Definition match_newline (r : pystr) : option pystr :=
  match r with
  | c :: r' =>
      if is_newline c then
        match match_group r' with
        | Some g => Some g
        | None => match_group r
        end
      else match_group r
  | [] => match_group r
  end.

(** [\s*] (greedy: the longest run first, then shorter ones) *)
Fixpoint match_spaces (r : pystr) : option pystr :=
  match r with
  | c :: r' =>
      if is_space c then
        match match_spaces r' with
        | Some g => Some g
        | None => match_newline r
        end
      else match_newline r
  | [] => match_newline r
  end.

(** [(?:json)?] (greedy) *)
Definition match_tag (r : pystr) : option pystr :=
  if starts_with (py "json") r then
    match match_spaces (skipn 4 r) with
    | Some g => Some g
    | None => match_spaces r
    end
  else match_spaces r.

(** The search: the leftmost position at which the pattern matches. *)
Fixpoint fence_search (text : pystr) : option pystr :=
  match (if starts_with FENCE text then match_tag (skipn 3 text) else None) with
  | Some g => Some g
  | None =>
      match text with
      | [] => None
      | _ :: r => fence_search r
      end
  end.

(** ** Brace matching *)

Definition LBRACE : codepoint := 123%N.
Definition RBRACE : codepoint := 125%N.

(** The loop [for i in range(first_brace, len(text))] over the characters
    [rest = text[i:]]: the index of the brace that brings the depth back to
    zero, if any. *)
Fixpoint scan_braces (rest : pystr) (depth : Z) (i : Z) : option Z :=
  match rest with
  | [] => None
  | c :: r =>
      if (c =? LBRACE)%N then scan_braces r (depth + 1) (i + 1)
      else if (c =? RBRACE)%N then
        let depth := depth - 1 in
        if depth =? 0 then Some i else scan_braces r depth (i + 1)
      else scan_braces r depth (i + 1)
  end.

(** [_extract_json_block(text)] *)
Definition _extract_json_block (text : pystr) : outcome pystr :=
  let text := strip text in
  match fence_search text with
  | Some group1 => Ok (strip group1)
  | None =>
      let first_brace := find_char LBRACE text in
      if first_brace =? -1 then
        Raise (ExtractionError (py "JSON-об'єкт не знайдено у відповіді LLM"))
      else
        match scan_braces (slice_from text first_brace) 0 first_brace with
        | Some i => Ok (slice text first_brace (i + 1))
        | None => Ok (slice_from text first_brace)
        end
  end.

Section Normalize.
Context {ucd : UnicodeData}.
Context {stack : Interpreter}.

(** [re.match(r"^\((.+)\)$", s)] on a stripped [s]: group 1.  The dot
    does not match a newline. *)
Definition paren_match (s : pystr) : option pystr :=
  match s with
  | c :: r =>
      match rev r with
      | d :: ri =>
          let inner := rev ri in
          if (c =? 40)%N && (d =? 41)%N
             && (1 <=? List.length inner)%nat
             && negb (existsb is_newline inner)
          then Some inner
          else None
      | [] => None
      end
  | [] => None
  end.

(** The [str] branch of [_to_float].  [budget] counts the calls of
    [_to_float], this one included, that can still call [re.match]; the
    recursion is on it.  A value without text returns before [re.match]
    is called. *)
Fixpoint _to_float_str (budget : nat) (val : pystr) : outcome (option float) :=
  let s := strip val in
  if pystr_eqb s [] || pystr_eqb s (py "-")
     || pystr_eqb (lower s) (py "null") || pystr_eqb (lower s) (py "none")
  then Ok None
  else
    match budget with
    | O => Raise (RecursionError (py "maximum recursion depth exceeded"))
    | S budget' =>
      match paren_match s with
      | Some inner =>
          inner <- _to_float_str budget' inner ;;
          Ok (match inner with
              | Some x => Some (float_neg x)
              | None => None
              end)
      | None =>
          let s := replace_char 160%N []
                     (replace_char SP [] (replace_char 44%N (py ".") s)) in
          Ok (float_of_str s)
      end
    end.

(** [_to_float(val)] *)
Definition _to_float (val : pyval) : outcome (option float) :=
  match val with
  | PBool b => x <- float_of_int (if b then 1 else 0) ;; Ok (Some x)
  | PInt n => x <- float_of_int n ;; Ok (Some x)
  | PFloat x => Ok (Some x)
  | PStr s => _to_float_str (S recursion_budget) s
  | _ => Ok None
  end.

(** [re.sub(r"^р\.?", "", k)] *)
Definition strip_row_prefix (k : pystr) : pystr :=
  match k with
  | 1088%N :: 46%N :: r => r
  | 1088%N :: r => r
  | _ => k
  end.

(** [_normalize_section(section)]: the loop over [section.items()],
    threading [result]. *)
Fixpoint _normalize_section_loop (items : list (pystr * pyval))
    (result : list (pystr * float)) : outcome (list (pystr * float)) :=
  match items with
  | [] => Ok result
  | (key, val) :: rest =>
      let k := strip key in
      let k := strip (strip_row_prefix k) in
      if negb (isdigit k) then _normalize_section_loop rest result
      else
        numeric <- _to_float val ;;
        match numeric with
        | Some x => _normalize_section_loop rest (dict_set result k x)
        | None => _normalize_section_loop rest result
        end
  end.

Definition _normalize_section (section : list (pystr * pyval))
  : outcome (list (pystr * float)) :=
  _normalize_section_loop section [].

(** [json.loads]: the decoder of the standard library. *)
Variable json_loads : pystr -> outcome pyval.

Definition float_section (d : list (pystr * float)) : pyval :=
  PDict (List.map (fun '(k, x) => (k, PFloat x)) d).

(** Step 4 of [parse_llm_json], for one key *)
Definition normalize_key (data : list (pystr * pyval)) (key : pystr)
  : outcome (list (pystr * pyval)) :=
  let section :=
    match dict_get data key with Some v => v | None => PDict [] end in
  match section with
  | PDict items =>
      d <- _normalize_section items ;;
      Ok (dict_set data key (float_section d))
  | _ =>
      Raise (ExtractionError
               (py "Ключ '" ++ key ++ py "' має бути об'єктом, отримано: "
                ++ type_name section))
  end.

(** [parse_llm_json(raw_response)] *)
Definition parse_llm_json (raw_response : pystr)
  : outcome (list (pystr * pyval)) :=
  if pystr_eqb raw_response [] || pystr_eqb (strip raw_response) [] then
    Raise (ExtractionError (py "LLM повернув порожню відповідь"))
  else
    (* Step 1 *)
    json_str <- _extract_json_block raw_response ;;
    (* Step 2 *)
    match json_loads json_str with
    | Raise (JSONDecodeError e) =>
        Raise (ExtractionError (py "Не вдалося розпарсити JSON: " ++ e))
    | Raise e => Raise e
    | Ok (PDict data) =>
        (* Step 3 *)
        let missing :=
          filter (fun k => negb (dict_has data k)) REQUIRED_KEYS in
        match missing with
        | _ :: _ =>
            Raise (ExtractionError
                     (py "Відсутні обов'язкові ключі: "
                      ++ join (py ", ") (sorted missing)))
        | [] =>
            (* Step 4 *)
            data <- normalize_key data (py "balance_start") ;;
            data <- normalize_key data (py "balance_end") ;;
            data <- normalize_key data (py "income_current") ;;
            (* Step 5 *)
            let data := dict_setdefault data (py "company_name")
                          (PStr (py "Невідома компанія")) in
            let data := dict_setdefault data (py "period")
                          (PStr (py "—")) in
            Ok data
        end
    | Ok v =>
        Raise (ExtractionError
                 (py "Очікувався JSON-об'єкт, отримано: " ++ type_name v))
    end.
End Normalize.

End json_extractor.

(* ===================================================================== *)
(** * The [json] decoder of the Python standard library

    [json.loads] is a parameter of [parse_llm_json] above, and the general
    theorems hold for every decoder.  The decoder below follows
    [json.decoder] and [json.scanner] and is the instance at which concrete
    responses are evaluated.  Of a [JSONDecodeError] message it keeps the
    constant part, without the position. *)
(* ===================================================================== *)

Module json.

Definition is_json_space (c : codepoint) : bool :=
  ((c =? 32) || (c =? 9) || (c =? 10) || (c =? 13))%N.

Definition skip_ws (s : pystr) : pystr := drop_while is_json_space s.

Definition err {A} (msg : string) : outcome A := Raise (JSONDecodeError (py msg)).

Definition hex_value (c : codepoint) : option N :=
  if is_ascii_digit c then Some (c - 48)%N
  else if ((97 <=? c) && (c <=? 102))%N then Some (c - 87)%N
  else if ((65 <=? c) && (c <=? 70))%N then Some (c - 55)%N
  else None.

(** Four hexadecimal digits *)
Definition hex4 (s : pystr) : option (N * pystr) :=
  match s with
  | a :: b :: c :: d :: r =>
      match hex_value a, hex_value b, hex_value c, hex_value d with
      | Some x, Some y, Some z, Some w =>
          Some ((x * 4096 + y * 256 + z * 16 + w)%N, r)
      | _, _, _, _ => None
      end
  | _ => None
  end.

(** [py_scanstring] in strict mode, after the opening quote *)
Fixpoint scanstring (fuel : nat) (s : pystr) : outcome (pystr * pystr) :=
  match fuel with
  | O => err "Unterminated string starting at"
  | S fuel' =>
    match s with
    | [] => err "Unterminated string starting at"
    | 34%N :: r => Ok ([], r)
    | 92%N :: r =>
        match r with
        | [] => err "Unterminated string starting at"
        | 117%N :: r1 =>
            match hex4 r1 with
            | None => err "Invalid \uXXXX escape"
            | Some (u, r2) =>
                let '(cp, r3) :=
                  if ((55296 <=? u) && (u <=? 56319))%N then
                    match r2 with
                    | 92%N :: 117%N :: r2' =>
                        match hex4 r2' with
                        | Some (u2, r2'') =>
                            if ((56320 <=? u2) && (u2 <=? 57343))%N
                            then ((65536 + (u - 55296) * 1024
                                   + (u2 - 56320))%N, r2'')
                            else (u, r2)
                        | None => (u, r2)
                        end
                    | _ => (u, r2)
                    end
                  else (u, r2) in
                '(str, rest) <- scanstring fuel' r3 ;; Ok (cp :: str, rest)
            end
        | e :: r1 =>
            let unescaped :=
              match e with
              | 34%N => Some 34%N
              | 92%N => Some 92%N
              | 47%N => Some 47%N
              | 98%N => Some 8%N
              | 102%N => Some 12%N
              | 110%N => Some 10%N
              | 114%N => Some 13%N
              | 116%N => Some 9%N
              | _ => None
              end in
            match unescaped with
            | Some c =>
                '(str, rest) <- scanstring fuel' r1 ;; Ok (c :: str, rest)
            | None => err "Invalid \escape"
            end
        end
    | c :: r =>
        if (c <? 32)%N then err "Invalid control character at"
        else '(str, rest) <- scanstring fuel' r ;; Ok (c :: str, rest)
    end
  end.

Definition digits_str (ds : list N) : pystr := List.map (fun d => (48 + d)%N) ds.

(** [NUMBER_RE.match]: an integer part (an optional minus sign, then a
    single zero or a digit string without leading zero), an optional
    fraction (a dot and at least one digit) and an optional exponent ([e] or
    [E], an optional sign, at least one digit); then [int] of the integer
    part when there is neither fraction nor exponent, else [float] of the
    whole match. *)
Definition scan_number {ucd : UnicodeData} (s : pystr)
  : option (pyval * pystr) :=
  let '(neg, r0) :=
    match s with 45%N :: r => (true, r) | _ => (false, s) end in
  let integer : option (list N * pystr) :=
    match r0 with
    | 48%N :: r => Some ([0%N], r)
    | c :: _ => if is_ascii_digit c then Some (span_digits r0) else None
    | [] => None
    end in
  match integer with
  | None => None
  | Some (ip, r1) =>
    let '(frac, r2) :=
      match r1 with
      | 46%N :: r =>
          match span_digits r with
          | (d :: ds, r') => (Some (d :: ds), r')
          | _ => (None, r1)
          end
      | _ => (None, r1)
      end in
    let '(exp, r3) :=
      match r2 with
      | c :: r =>
          if (ascii_lower c =? 101)%N then
            let '(sgn, r') :=
              match r with
              | 43%N :: t => ([43%N], t)
              | 45%N :: t => ([45%N], t)
              | _ => ([], r)
              end in
            match span_digits r' with
            | (d :: ds, r'') => (Some (c :: sgn ++ digits_str (d :: ds)), r'')
            | _ => (None, r2)
            end
          else (None, r2)
      | [] => (None, r2)
      end in
    match frac, exp with
    | None, None =>
        let n := Z.of_N (digits_value ip) in
        Some (PInt (if neg then - n else n), r3)
    | _, _ =>
        let text :=
          (if neg then [45%N] else []) ++ digits_str ip
          ++ match frac with Some f => 46%N :: digits_str f | None => [] end
          ++ match exp with Some e => e | None => [] end in
        match float_of_str text with
        | Some x => Some (PFloat x, r3)
        | None => None
        end
    end
  end.

Section Decoder.
Context {ucd : UnicodeData}.
Context {stack : Interpreter}.

(** [scan_once], with [JSONObject] and [JSONArray] after their first
    member inlined as the two loops. *)
Fixpoint scan_once (fuel : nat) (s : pystr) : outcome (pyval * pystr) :=
  match fuel with
  | O => Raise (RecursionError (py "maximum recursion depth exceeded"))
  | S fuel' =>
    let object_loop :=
      fix object_loop (n : nat) (pairs : list (pystr * pyval)) (s : pystr)
        : outcome (pyval * pystr) :=
        match n with
        | O => Raise (RecursionError (py "maximum recursion depth exceeded"))
        | S n' =>
          (* [s] starts after the opening quote of a key *)
          '(key, r) <- scanstring (S (List.length s)) s ;;
          match skip_ws r with
          | 58%N :: r1 =>
              '(value, r2) <- scan_once fuel' (skip_ws r1) ;;
              let pairs := dict_set pairs key value in
              match skip_ws r2 with
              | 125%N :: r3 => Ok (PDict pairs, r3)
              | 44%N :: r3 =>
                  match skip_ws r3 with
                  | 34%N :: r4 => object_loop n' pairs r4
                  | _ => err "Expecting property name enclosed in double quotes"
                  end
              | _ => err "Expecting ',' delimiter"
              end
          | _ => err "Expecting ':' delimiter"
          end
        end in
    let array_loop :=
      fix array_loop (n : nat) (values : list pyval) (s : pystr)
        : outcome (pyval * pystr) :=
        match n with
        | O => Raise (RecursionError (py "maximum recursion depth exceeded"))
        | S n' =>
          '(value, r) <- scan_once fuel' s ;;
          let values := values ++ [value] in
          match skip_ws r with
          | 93%N :: r1 => Ok (PList values, r1)
          | 44%N :: r1 => array_loop n' values (skip_ws r1)
          | _ => err "Expecting ',' delimiter"
          end
        end in
    match s with
    | 34%N :: r =>
        '(str, rest) <- scanstring (S (List.length r)) r ;; Ok (PStr str, rest)
    | 123%N :: r =>
        match skip_ws r with
        | 125%N :: r1 => Ok (PDict [], r1)
        | 34%N :: r1 => object_loop (S (List.length r1)) [] r1
        | _ => err "Expecting property name enclosed in double quotes"
        end
    | 91%N :: r =>
        match skip_ws r with
        | 93%N :: r1 => Ok (PList [], r1)
        | r1 => array_loop (S (List.length r1)) [] r1
        end
    | _ =>
        if starts_with (py "null") s then Ok (PNone, skipn 4 s)
        else if starts_with (py "true") s then Ok (PBool true, skipn 4 s)
        else if starts_with (py "false") s then Ok (PBool false, skipn 5 s)
        else
          match scan_number s with
          | Some res => Ok res
          | None =>
              if starts_with (py "NaN") s then Ok (PFloat S754_nan, skipn 3 s)
              else if starts_with (py "Infinity") s
              then Ok (PFloat (S754_infinity false), skipn 8 s)
              else if starts_with (py "-Infinity") s
              then Ok (PFloat (S754_infinity true), skipn 9 s)
              else err "Expecting value"
          end
    end
  end.

(** [json.loads(s)] *)
Definition loads (s : pystr) : outcome pyval :=
  '(obj, rest) <- scan_once (S (List.length s)) (skip_ws s) ;;
  match skip_ws rest with
  | [] => Ok obj
  | _ => err "Extra data"
  end.
End Decoder.

End json.

(* ===================================================================== *)
(** * Effects

    The extractors and the endpoint call out to the OCR engine, the
    uploaded files, the prompt files, the calculation engine and the LLM
    backend.  A computation returns the sequence of these calls, in order,
    next to its result. *)
(* ===================================================================== *)

Definition bytes := list Byte.byte.

Inductive event :=
| EvRead (index : nat)                          (* await f.read() *)
| EvExtract (filename : pystr)                  (* extract_text(filename, _) *)
| EvOcr (image_bytes : bytes)                   (* ocr_func(img_bytes) *)
| EvLoadPrompt (path : pystr)                   (* _load_prompt(path) *)
| EvQueryJson (system user : pystr)             (* query_ollama_json *)
| EvCalculate                                   (* calculate_all *)
| EvQueryReport (system user : pystr).          (* query_ollama_report *)

Definition M (A : Type) : Type := (list event * outcome A)%type.

#[export] Instance M_monad : Monad M := {
  ret A a := ([], Ok a);
  bind A B m k :=
    match m with
    | (t, Ok a) => let '(t', r) := k a in (t ++ t', r)
    | (t, Raise e) => (t, Raise e)
    end
}.

(** A call to a collaborator: the event, then the collaborator's answer. *)
Definition call {A} (e : event) (answer : outcome A) : M A := ([e], answer).

Definition raise {A} (e : exn) : M A := ([], Raise e).

(** [try: m  except Exception as e: h(e)] *)
Definition try_except {A} (m : M A) (h : exn -> M A) : M A :=
  match m with
  | (t, Ok a) => (t, Ok a)
  | (t, Raise e) => let '(t', r) := h e in (t ++ t', r)
  end.

Definition trace {A} (m : M A) : list event := fst m.
Definition result {A} (m : M A) : outcome A := snd m.

(* ===================================================================== *)
(** * app/services/pdf_extractor.py *)
(* ===================================================================== *)

Module pdf_extractor.

(** A page of an opened document: [page.get_text()] and
    [page.get_pixmap(dpi=d).tobytes("png")]. *)
Record page := {
  get_text : pystr;
  get_pixmap_png : Z -> bytes
}.

Definition MIN_TEXT_LENGTH : Z := 50.

(** The loop [for page_num, page in enumerate(doc)], threading [full_text]
    and [ocr_pages]. *)
Fixpoint pages_loop (ocr_func : bytes -> outcome pystr) (pages : list page)
    (page_num : Z) (full_text : list pystr) (ocr_pages : Z)
  : M (list pystr * Z) :=
  match pages with
  | [] => ret (full_text, ocr_pages)
  | page :: rest =>
      let text := get_text page in
      '(text, ocr_pages) <-
        (if len (strip text) <? MIN_TEXT_LENGTH then
           let img_bytes := get_pixmap_png page 300 in
           text <- call (EvOcr img_bytes) (ocr_func img_bytes) ;;
           ret (text, ocr_pages + 1)
         else ret (text, ocr_pages)) ;;
      pages_loop ocr_func rest (page_num + 1)
        (full_text
         ++ [py "--- Page " ++ str_of_int (page_num + 1) ++ py " ---"
             ++ [NL] ++ text])
        ocr_pages
  end.

(** [extract_text_from_pdf(file_bytes, ocr_func)]; [fitz_open] is
    [fitz.open(stream=file_bytes, filetype="pdf")]. *)
Definition extract_text_from_pdf
    (fitz_open : bytes -> outcome (list page))
    (file_bytes : bytes) (ocr_func : bytes -> outcome pystr) : M pystr :=
  match fitz_open file_bytes with
  | Raise e => raise e
  | Ok doc =>
      '(full_text, _) <- pages_loop ocr_func doc 0 [] 0 ;;
      ret (join [NL; NL] full_text)
  end.

End pdf_extractor.

(* ===================================================================== *)
(** * app/config.py *)
(* ===================================================================== *)

(** [s.split(sep)] for a one-character separator: the pieces between the
    separators, at least one. *)
Fixpoint split_char (sep : codepoint) (s : pystr) : list pystr :=
  match s with
  | [] => [[]]
  | c :: r =>
      if (c =? sep)%N then [] :: split_char sep r
      else match split_char sep r with
           | piece :: pieces => (c :: piece) :: pieces
           | [] => [[c]]
           end
  end.

Module app_config.

Record AppConfig := {
  (* [server] *)
  server_host : pystr;
  server_port : Z;
  (* [auth] *)
  api_key : pystr;
  (* [ollama] *)
  ollama_base_url : pystr;
  ollama_model : pystr;
  ollama_num_ctx : Z;
  ollama_timeout : Z;
  ollama_temperature : float;
  ollama_num_predict : Z;
  ollama_repeat_penalty : float;
  ollama_repeat_last_n : Z;
  (* [ocr] *)
  ocr_languages : list pystr;
  ocr_use_gpu : bool;
  (* [processing] *)
  max_upload_size_mb : Z;
  max_total_tokens_estimate : Z;
  prompt_file : pystr;
  extraction_prompt_file : pystr;
  report_prompt_file : pystr
}.

(** [AppConfig()]: the defaults of the dataclass *)
Definition default_config : AppConfig :=
  {| server_host := py "0.0.0.0";
     server_port := 8015;
     api_key := py "CHANGE_ME_TO_SECURE_KEY";
     ollama_base_url := py "http://localhost:11434";
     ollama_model := py "gpt-oss:20b";
     ollama_num_ctx := 65536;
     ollama_timeout := 600;
     ollama_temperature := float_of_decimal false 3 (-1);
     ollama_num_predict := 4096;
     ollama_repeat_penalty := float_of_decimal false 13 (-1);
     ollama_repeat_last_n := 256;
     ocr_languages := [py "uk"; py "en"];
     ocr_use_gpu := false;
     max_upload_size_mb := 50;
     max_total_tokens_estimate := 60000;
     prompt_file := py "prompts/analysis_prompt.txt";
     extraction_prompt_file := py "prompts/extraction_prompt.txt";
     report_prompt_file := py "prompts/report_prompt.txt" |}.

(** A [configparser.ConfigParser] after [parser.read(path)], by its four
    typed getters, each taking section, key and fallback. *)
Record ConfigParser := {
  get : pystr -> pystr -> pystr -> outcome pystr;
  getint : pystr -> pystr -> Z -> outcome Z;
  getfloat : pystr -> pystr -> float -> outcome float;
  getboolean : pystr -> pystr -> bool -> outcome bool
}.

(** [_load_config(path)]; [parser_read] is [None] when the path does not
    exist, and else what reading the file gives. *)
Definition _load_config (parser_read : option (outcome ConfigParser))
  : outcome AppConfig :=
  match parser_read with
  | None => Ok default_config
  | Some read =>
    parser <- read ;;
    languages_raw <- get parser (py "ocr") (py "languages") (py "uk,en") ;;
    let languages := List.map strip (split_char 44%N languages_raw) in
    server_host <- get parser (py "server") (py "host") (py "0.0.0.0") ;;
    server_port <- getint parser (py "server") (py "port") 8015 ;;
    api_key <- get parser (py "auth") (py "api_key")
                 (py "CHANGE_ME_TO_SECURE_KEY") ;;
    ollama_base_url <- get parser (py "ollama") (py "base_url")
                         (py "http://localhost:11434") ;;
    ollama_model <- get parser (py "ollama") (py "model") (py "gpt-oss:20b") ;;
    ollama_num_ctx <- getint parser (py "ollama") (py "num_ctx") 65536 ;;
    ollama_timeout <- getint parser (py "ollama") (py "timeout_seconds") 600 ;;
    ollama_temperature <- getfloat parser (py "ollama") (py "temperature")
                            (float_of_decimal false 3 (-1)) ;;
    ollama_num_predict <- getint parser (py "ollama") (py "num_predict") 4096 ;;
    ollama_repeat_penalty <- getfloat parser (py "ollama") (py "repeat_penalty")
                               (float_of_decimal false 13 (-1)) ;;
    ollama_repeat_last_n <- getint parser (py "ollama") (py "repeat_last_n") 256 ;;
    ocr_use_gpu <- getboolean parser (py "ocr") (py "use_gpu") false ;;
    max_upload_size_mb <- getint parser (py "processing")
                            (py "max_upload_size_mb") 50 ;;
    max_total_tokens_estimate <- getint parser (py "processing")
                                   (py "max_total_tokens_estimate") 60000 ;;
    prompt_file <- get parser (py "processing") (py "prompt_file")
                     (py "prompts/analysis_prompt.txt") ;;
    extraction_prompt_file <- get parser (py "processing")
                                (py "extraction_prompt_file")
                                (py "prompts/extraction_prompt.txt") ;;
    report_prompt_file <- get parser (py "processing") (py "report_prompt_file")
                            (py "prompts/report_prompt.txt") ;;
    Ok {| server_host := server_host;
          server_port := server_port;
          api_key := api_key;
          ollama_base_url := ollama_base_url;
          ollama_model := ollama_model;
          ollama_num_ctx := ollama_num_ctx;
          ollama_timeout := ollama_timeout;
          ollama_temperature := ollama_temperature;
          ollama_num_predict := ollama_num_predict;
          ollama_repeat_penalty := ollama_repeat_penalty;
          ollama_repeat_last_n := ollama_repeat_last_n;
          ocr_languages := languages;
          ocr_use_gpu := ocr_use_gpu;
          max_upload_size_mb := max_upload_size_mb;
          max_total_tokens_estimate := max_total_tokens_estimate;
          prompt_file := prompt_file;
          extraction_prompt_file := extraction_prompt_file;
          report_prompt_file := report_prompt_file |}
  end.

(** [get_config()]: [_load_config(CONFIG_FILE)], computed once *)
Definition get_config (parser_read : option (outcome ConfigParser))
  : outcome AppConfig :=
  _load_config parser_read.

End app_config.

(* ===================================================================== *)
(** * app/auth.py *)
(* ===================================================================== *)

Module auth.

(** [verify_api_key(credentials, config)]; [credentials] is the token of
    the bearer header. *)
Definition verify_api_key (credentials : pystr)
    (config : app_config.AppConfig) : outcome pystr :=
  if negb (pystr_eqb credentials (app_config.api_key config)) then
    Raise (HTTPException 401 (DetailText (py "Invalid API key")))
  else Ok credentials.

End auth.

(* ===================================================================== *)
(** * app/services/image_extractor.py *)
(* ===================================================================== *)

Module image_extractor.

Section Ocr.
(** [_ocr_engine]: unset, or the engine; an engine maps image bytes to the
    [rec_texts] of each of its results. *)
Variable _ocr_engine : option (bytes -> outcome (list (list pystr))).

(** [ocr_from_bytes(image_bytes)] *)
Definition ocr_from_bytes (image_bytes : bytes) : outcome pystr :=
  match _ocr_engine with
  | None =>
      Raise (RuntimeError
               (py "OCR engine not initialized. Call init_ocr_engine() first."))
  | Some predict =>
      results <- predict image_bytes ;;
      Ok (join [NL] (List.concat results))
  end.

(** [extract_text_from_image(file_bytes)] *)
Definition extract_text_from_image (file_bytes : bytes) : M pystr :=
  call (EvOcr file_bytes) (ocr_from_bytes file_bytes).

(** [get_ocr_func()] *)
Definition get_ocr_func : bytes -> outcome pystr := ocr_from_bytes.
End Ocr.

(** [init_ocr_engine(config)]: the value of [_ocr_engine] after the call.
    [PaddleOCR] is the constructor of the engine, taking
    [use_textline_orientation], [lang] and [device]. *)
Definition init_ocr_engine {engine : Type}
    (PaddleOCR : bool -> pystr -> pystr -> outcome engine)
    (config : app_config.AppConfig) : outcome (option engine) :=
  let lang :=
    match app_config.ocr_languages config with
    | first :: _ => first
    | [] => py "uk"
    end in
  let device :=
    if app_config.ocr_use_gpu config then py "gpu" else py "cpu" in
  e <- PaddleOCR true lang device ;;
  Ok (Some e).

End image_extractor.

(* ===================================================================== *)
(** * app/services/excel_extractor.py *)
(* ===================================================================== *)

Definition TAB : codepoint := 9%N.

Module excel_extractor.

(** A worksheet of the opened workbook: its name and the rows of
    [ws.iter_rows(values_only=True)].  A cell is [None] or a value, given
    by its [str(cell)]. *)
Record worksheet := {
  sheet_name : pystr;
  iter_rows : list (list (option pystr))
}.

(** The loop [for row in ws.iter_rows(values_only=True)], threading
    [sheet_lines] *)
Fixpoint rows_loop (rows : list (list (option pystr)))
    (sheet_lines : list pystr) : list pystr :=
  match rows with
  | [] => sheet_lines
  | row :: rest =>
      let cells :=
        List.map (fun cell => match cell with Some s => s | None => [] end)
                 row in
      let line := join [TAB] cells in
      match strip line with
      | [] => rows_loop rest sheet_lines
      | _ => rows_loop rest (sheet_lines ++ [line])
      end
  end.

(** The loop [for sheet_name in wb.sheetnames], threading [parts] *)
Fixpoint sheets_loop (sheets : list worksheet) (parts : list pystr)
  : list pystr :=
  match sheets with
  | [] => parts
  | ws :: rest =>
      let sheet_lines :=
        rows_loop (iter_rows ws)
          [py "--- Sheet: " ++ sheet_name ws ++ py " ---"] in
      sheets_loop rest (parts ++ [join [NL] sheet_lines])
  end.

(** [extract_text_from_excel(file_bytes)]; [load_workbook] opens the
    workbook and gives its sheets in the order of [wb.sheetnames]. *)
Definition extract_text_from_excel
    (load_workbook : bytes -> outcome (list worksheet))
    (file_bytes : bytes) : outcome pystr :=
  wb <- load_workbook file_bytes ;;
  Ok (join [NL; NL] (sheets_loop wb [])).

End excel_extractor.

(* ===================================================================== *)
(** * app/services/docx_extractor.py *)
(* ===================================================================== *)

Module docx_extractor.

(** An opened document: the [text] of each of [doc.paragraphs], and for
    each of [doc.tables] its rows, a row by the [text] of its cells. *)
Record document := {
  paragraphs : list pystr;
  tables : list (list (list pystr))
}.

(** The loop [for para in doc.paragraphs], threading [parts] *)
Fixpoint paragraphs_loop (paras : list pystr) (parts : list pystr)
  : list pystr :=
  match paras with
  | [] => parts
  | para :: rest =>
      match strip para with
      | [] => paragraphs_loop rest parts
      | text => paragraphs_loop rest (parts ++ [text])
      end
  end.

(** The loop [for row in table.rows], threading [table_lines] *)
Fixpoint table_rows_loop (rows : list (list pystr)) (table_lines : list pystr)
  : list pystr :=
  match rows with
  | [] => table_lines
  | row :: rest =>
      let cells := List.map strip row in
      table_rows_loop rest (table_lines ++ [join [TAB] cells])
  end.

(** The loop [for table_idx, table in enumerate(doc.tables)], threading
    [parts] *)
Fixpoint tables_loop (tbls : list (list (list pystr))) (table_idx : Z)
    (parts : list pystr) : list pystr :=
  match tbls with
  | [] => parts
  | table :: rest =>
      let table_lines :=
        table_rows_loop table
          [py "--- Table " ++ str_of_int (table_idx + 1) ++ py " ---"] in
      tables_loop rest (table_idx + 1) (parts ++ [join [NL] table_lines])
  end.

(** [extract_text_from_docx(file_bytes)]; [Document] opens the file. *)
Definition extract_text_from_docx
    (Document : bytes -> outcome document)
    (file_bytes : bytes) : outcome pystr :=
  doc <- Document file_bytes ;;
  let parts := paragraphs_loop (paragraphs doc) [] in
  let parts := tables_loop (tables doc) 0 parts in
  Ok (join [NL] parts).

End docx_extractor.

(* ===================================================================== *)
(** * app/services/extractor.py *)
(* ===================================================================== *)

Module extractor.

Definition ALLOWED_EXTENSIONS : list pystr :=
  [py ".pdf"; py ".png"; py ".jpg"; py ".jpeg"; py ".xlsx"; py ".docx"].

Definition IMAGE_EXTENSIONS : list pystr :=
  [py ".png"; py ".jpg"; py ".jpeg"].

(** [x in s] for a set of strings *)
Definition mem (x : pystr) (s : list pystr) : bool :=
  existsb (pystr_eqb x) s.

Section Extractor.
Context {ucd : UnicodeData}.
Context {stack : Interpreter}.

(** [_get_extension(filename)] *)
Definition _get_extension (filename : pystr) : pystr :=
  let dot_idx := rfind_char 46%N filename in
  if dot_idx =? -1 then []
  else lower (slice_from filename dot_idx).

(** [is_allowed_extension(filename)] *)
Definition is_allowed_extension (filename : pystr) : bool :=
  let ext := _get_extension filename in
  mem ext ALLOWED_EXTENSIONS.

(** The collaborators of the dispatcher. *)
Record backends := {
    fitz_open : bytes -> outcome (list pdf_extractor.page);
    ocr_engine : option (bytes -> outcome (list (list pystr)));
    extract_text_from_excel : bytes -> outcome pystr;
    extract_text_from_docx : bytes -> outcome pystr
  }.

(** [extract_text(filename, file_bytes)] *)
Definition extract_text (b : backends) (filename : pystr)
    (file_bytes : bytes) : M pystr :=
  let ext := _get_extension filename in
  raw_text <-
    (if pystr_eqb ext (py ".pdf") then
       pdf_extractor.extract_text_from_pdf (fitz_open b) file_bytes
         (image_extractor.get_ocr_func (ocr_engine b))
     else if mem ext IMAGE_EXTENSIONS then
       image_extractor.extract_text_from_image (ocr_engine b) file_bytes
     else if pystr_eqb ext (py ".xlsx") then
       (([], extract_text_from_excel b file_bytes) : M pystr)
     else if pystr_eqb ext (py ".docx") then
       (([], extract_text_from_docx b file_bytes) : M pystr)
     else
       raise (ValueError (py "Unsupported file extension: " ++ ext))) ;;
  ret (text_utils.clean_text raw_text).
End Extractor.

End extractor.

(* ===================================================================== *)
(** * app/routers/analyze.py *)
(* ===================================================================== *)

(** [marker in s] *)
Fixpoint contains (marker s : pystr) : bool :=
  starts_with marker s
  || match s with
     | [] => false
     | _ :: r => contains marker r
     end.

(** [s.split(marker)[0]] for a non-empty [marker] *)
Fixpoint split_head (marker s : pystr) : pystr :=
  match s with
  | [] => []
  | c :: r => if starts_with marker s then [] else c :: split_head marker r
  end.

(** [s.replace(old, new)] for a non-empty [old]; [skip] counts the
    characters of a match still to be passed over. *)
Fixpoint replace_from (skip : nat) (old new s : pystr) : pystr :=
  match s with
  | [] => []
  | c :: r =>
      match skip with
      | S k => replace_from k old new r
      | O =>
          if starts_with old s
          then new ++ replace_from (List.length old - 1) old new r
          else c :: replace_from 0 old new r
      end
  end.

Definition replace (old new s : pystr) : pystr := replace_from 0 old new s.

Module analyze.

Import extractor.

Definition MAX_FILES : Z := 10.

(** [fastapi.UploadFile]: the declared name and what [read()] returns. *)
Record UploadFile := {
  filename : option pystr;
  content : bytes
}.

(** The fields of [AppConfig] the endpoint uses. *)
Record AppConfig := {
  max_upload_size_mb : Z;
  max_total_tokens_estimate : Z;
  extraction_prompt_file : pystr;
  report_prompt_file : pystr
}.

(** The response dict; the wall-clock fields are left out. *)
Record response := {
  status : pystr;
  report : pystr;
  extracted_data : list (pystr * pyval);
  files_processed : list pystr;
  tokens_estimated : Z;
  failed_files : option (list (pystr * pystr));
  warning : option pystr
}.

Definition len_files (files : list UploadFile) : Z :=
  Z.of_nat (List.length files).

(** [f.filename or s] *)
Definition filename_or (f : UploadFile) (s : pystr) : pystr :=
  match filename f with
  | Some (c :: n) => c :: n
  | _ => s
  end.

(** [f"{f.filename}"] *)
Definition filename_repr (f : UploadFile) : pystr :=
  match filename f with
  | Some n => n
  | None => py "None"
  end.

Section Endpoint.
Context {ucd : UnicodeData}.
Context {stack : Interpreter}.

(** The collaborators of the endpoint. *)
Record services := {
    extraction : backends;
    (** [str(prompt_path)]: the path as given when it is absolute, and
        else under the directory of the application *)
    prompt_path : pystr -> pystr;
    (** the prompt files: [None] when [prompt_path.exists()] is false, and
        else what [prompt_path.read_text(encoding="utf-8")] gives *)
    prompt_text : pystr -> option (outcome pystr);
    (** [json.loads] *)
    json_loads : pystr -> outcome pyval;
    query_ollama_json : pystr -> pystr -> outcome pystr;
    query_ollama_report : pystr -> pystr -> outcome pystr;
    (** [calculate_all] followed by [_format_calculations_for_llm] *)
    calculations_text : list (pystr * pyval) -> outcome pystr
  }.

Variable sv : services.
Variable config : AppConfig.

(** [_load_prompt(path_str)] *)
Definition _load_prompt (path_str : pystr) : M pystr :=
  call (EvLoadPrompt path_str)
    match prompt_text sv path_str with
    | Some read_text => read_text
    | None =>
        Raise (RuntimeError (py "Prompt template not found: "
                             ++ prompt_path sv path_str))
    end.

(** The loop [for f in files] of the file validation *)
Fixpoint validate_extensions (files : list UploadFile) : M unit :=
  match files with
  | [] => ret tt
  | f :: rest =>
      if negb (is_allowed_extension (filename_or f [])) then
        let allowed := join (py ", ") (sorted ALLOWED_EXTENSIONS) in
        raise (HTTPException 422
                 (DetailText (py "Unsupported file type: '" ++ filename_repr f
                              ++ py "'. Allowed: " ++ allowed)))
      else validate_extensions rest
  end.

(** The loop [for f in files] that reads the files, threading [file_data]
    and [total_size]; [index] numbers the files. *)
Fixpoint read_files (files : list UploadFile) (index : nat) (max_size : Z)
    (file_data : list (pystr * bytes)) (total_size : Z)
  : M (list (pystr * bytes)) :=
  match files with
  | [] => ret file_data
  | f :: rest =>
      content <- call (EvRead index) (Ok (content f)) ;;
      let total_size := total_size + Z.of_nat (List.length content) in
      if max_size <? total_size then
        raise (HTTPException 413
                 (DetailText (py "Total upload size exceeds "
                              ++ str_of_int (max_upload_size_mb config)
                              ++ py " MB limit")))
      else
        read_files rest (S index) max_size
          (file_data ++ [(filename_or f (py "unknown"), content)]) total_size
  end.

(** The loop [for filename, content in file_data], threading [file_texts]
    and [failed_files]. *)
Fixpoint extract_files (file_data : list (pystr * bytes))
    (file_texts : list (pystr * pystr)) (failed : list (pystr * pystr))
  : M (list (pystr * pystr) * list (pystr * pystr)) :=
  match file_data with
  | [] => ret (file_texts, failed)
  | (filename, content) :: rest =>
      '(file_texts, failed) <-
        try_except
          (text <- (_ <- call (EvExtract filename) (Ok tt) ;;
                    extract_text (extraction sv) filename content) ;;
           ret (dict_set file_texts filename text, failed))
          (fun e => ret (file_texts, failed ++ [(filename, exn_str e)])) ;;
      extract_files rest file_texts failed
  end.

Definition DOCUMENTS_MARKER : pystr := py "--- ДОКУМЕНТИ ---".
Definition CALCULATIONS_MARKER : pystr := py "--- РОЗРАХУНКИ ---".

(** The part of [analyze_documents] after the text extraction *)
Definition run_steps (file_texts failed : list (pystr * pystr))
    (user_instructions : pystr) : M response :=
  (* --- Combine texts --- *)
  let combined_text := text_utils.combine_extracted_texts file_texts in
  let tokens_estimated := text_utils.estimate_tokens combined_text in
  let '(combined_text, was_truncated, tokens_estimated) :=
    if max_total_tokens_estimate config <? tokens_estimated then
      let '(t, w) :=
        text_utils.truncate_text combined_text
          (max_total_tokens_estimate config) in
      (t, w, text_utils.estimate_tokens t)
    else (combined_text, false, tokens_estimated) in
  (* STEP 1 *)
  extraction_prompt <-
    try_except (_load_prompt (extraction_prompt_file config))
      (fun e =>
         if is_RuntimeError e then
           raise (HTTPException 500
                    (DetailText (py "Extraction prompt error: " ++ exn_str e)))
         else raise e) ;;
  let '(extraction_system, extraction_user_content) :=
    if contains DOCUMENTS_MARKER extraction_prompt then
      (strip (split_head DOCUMENTS_MARKER extraction_prompt),
       DOCUMENTS_MARKER ++ [NL] ++ combined_text)
    else
      ([], replace (py "{documents}") combined_text extraction_prompt) in
  raw_json_response <-
    try_except
      (call (EvQueryJson extraction_system extraction_user_content)
         (query_ollama_json sv extraction_system extraction_user_content))
      (fun e => raise (HTTPException 500
                 (DetailText (py "Data extraction failed: " ++ exn_str e)))) ;;
  extracted_data <-
    match json_extractor.parse_llm_json (json_loads sv) raw_json_response with
    | Raise (ExtractionError e) =>
        raise (HTTPException 500
                 (DetailParse (py "Failed to parse extracted data: " ++ e)
                              (slice_to raw_json_response 1000)))
    | r => (([], r) : M _)
    end ;;
  (* STEP 2 *)
  calculations_text <-
    call EvCalculate (calculations_text sv extracted_data) ;;
  (* STEP 3 *)
  report_prompt <-
    try_except (_load_prompt (report_prompt_file config))
      (fun e =>
         if is_RuntimeError e then
           raise (HTTPException 500
                    (DetailText (py "Report prompt error: " ++ exn_str e)))
         else raise e) ;;
  let '(report_system, report_user_content) :=
    if contains CALCULATIONS_MARKER report_prompt then
      (strip (split_head CALCULATIONS_MARKER report_prompt),
       CALCULATIONS_MARKER ++ [NL] ++ calculations_text)
    else
      ([], replace (py "{calculations}") calculations_text report_prompt) in
  let report_user_content :=
    match strip user_instructions with
    | [] => report_user_content
    | ui => report_user_content ++ [NL; NL]
            ++ py "--- ДОДАТКОВІ ІНСТРУКЦІЇ ---" ++ [NL] ++ ui
    end in
  report_html <-
    try_except
      (call (EvQueryReport report_system report_user_content)
         (query_ollama_report sv report_system report_user_content))
      (fun e => raise (HTTPException 500
                 (DetailText (py "Report generation failed: " ++ exn_str e)))) ;;
  let report_html := replace_char NL (py "<br>" ++ [NL]) report_html in
  ret {| status := py "success";
         report := report_html;
         extracted_data := extracted_data;
         files_processed := dict_keys file_texts;
         tokens_estimated := tokens_estimated;
         failed_files := match failed with [] => None | _ => Some failed end;
         warning :=
           if was_truncated
           then Some (py "Document text was truncated due to token limit")
           else None |}.

(** [analyze_documents(files, user_instructions, _api_key, config)] *)
Definition analyze_documents (files : list UploadFile)
    (user_instructions : pystr) : M response :=
  (* --- File validation --- *)
  if (len_files files <? 1) || (MAX_FILES <? len_files files) then
    raise (HTTPException 400
             (DetailText (py "Please upload between 1 and "
                          ++ str_of_int MAX_FILES
                          ++ py " files. Received: "
                          ++ str_of_int (len_files files))))
  else
    _ <- validate_extensions files ;;
    (* --- Read files and check size --- *)
    let max_size := max_upload_size_mb config * 1024 * 1024 in
    file_data <- read_files files 0 max_size [] 0 ;;
    (* --- Extract text from each file --- *)
    '(file_texts, failed) <- extract_files file_data [] [] ;;
    match file_texts with
    | [] =>
        raise (HTTPException 422
                 (DetailFailedFiles
                    (py "Failed to extract text from all uploaded files")
                    failed))
    | _ => run_steps file_texts failed user_instructions
    end.
End Endpoint.

End analyze.

(* ===================================================================== *)
(** * app/services/llm_client.py *)
(* ===================================================================== *)

(** ** Operations on decoded JSON values

    The client reads the decoded answers of the server with [dict.get],
    subscripts, [len], [in] and truth tests.  On a value of another type
    these raise [AttributeError], [KeyError] or [TypeError]; the exception
    is given with its message. *)

(** [bool(v)] *)
Definition truthy (v : pyval) : bool :=
  match v with
  | PNone => false
  | PBool b => b
  | PInt n => negb (n =? 0)
  | PFloat (S754_zero _) => false
  | PFloat _ => true
  | PStr s => negb (pystr_eqb s [])
  | PList l => match l with [] => false | _ => true end
  | PDict d => match d with [] => false | _ => true end
  end.

(** [len(v)] *)
Definition len_of (v : pyval) : outcome Z :=
  match v with
  | PStr s => Ok (len s)
  | PList l => Ok (Z.of_nat (List.length l))
  | PDict d => Ok (Z.of_nat (List.length d))
  | _ => Raise (OtherException
                  (py "object of type '" ++ type_name v ++ py "' has no len()"))
  end.

(** [v.get(key, default)] *)
Definition get_method (v : pyval) (key : pystr) (default : pyval)
  : outcome pyval :=
  match v with
  | PDict d =>
      Ok (match dict_get d key with Some x => x | None => default end)
  | _ => Raise (OtherException
                  (py "'" ++ type_name v ++ py "' object has no attribute 'get'"))
  end.

(** The items of [for m in v] *)
Definition iterate (v : pyval) : outcome (list pyval) :=
  match v with
  | PList l => Ok l
  | PDict d => Ok (List.map (fun kv => PStr (fst kv)) d)
  | PStr s => Ok (List.map (fun c => PStr [c]) s)
  | _ => Raise (OtherException
                  (py "'" ++ type_name v ++ py "' object is not iterable"))
  end.

(** [m[key]] for a [str] key without quotes or escapes *)
Definition getitem (m : pyval) (key : pystr) : outcome pyval :=
  match m with
  | PDict d =>
      match dict_get d key with
      | Some x => Ok x
      | None => Raise (OtherException (py "'" ++ key ++ py "'"))
      end
  | PStr _ =>
      Raise (OtherException (py "string indices must be integers, not 'str'"))
  | PList _ =>
      Raise (OtherException
               (py "list indices must be integers or slices, not str"))
  | _ => Raise (OtherException
                  (py "'" ++ type_name m ++ py "' object is not subscriptable"))
  end.

(** [needle in v] for a [str] needle *)
Definition contains_op (needle : pystr) (v : pyval) : outcome bool :=
  match v with
  | PStr s => Ok (contains needle s)
  | PList l =>
      Ok (existsb (fun x => match x with
                            | PStr s => pystr_eqb needle s
                            | _ => false
                            end) l)
  | PDict d => Ok (dict_has d needle)
  | _ => Raise (OtherException
                  (py "argument of type '" ++ type_name v
                   ++ py "' is not iterable"))
  end.

Module llm_client.

Import app_config.

(** The [options] and the [payload] of a chat request *)
Record chat_options := {
  num_ctx : Z;
  temperature : float;
  num_predict : Z;
  repeat_penalty : float;
  repeat_last_n : Z
}.

Record chat_payload := {
  model : pystr;
  (** the messages, each by role and content *)
  messages : list (pystr * pystr);
  stream : bool;
  options : chat_options;
  (** the key [format], when set *)
  format : option pystr
}.

Section Client.

(** [client.post(url, json=payload)] under the given total timeout,
    [raise_for_status()] and [response.json()] *)
Variable post : pystr -> float -> chat_payload -> outcome pyval.

(** [_send_ollama_request(system_prompt, user_content, config, ...)] *)
Definition _send_ollama_request (system_prompt user_content : pystr)
    (config : AppConfig)
    (num_predict_override : option Z) (temperature_override : option float)
    (json_format : bool) (step_name : pystr) : outcome pyval :=
  let url := ollama_base_url config ++ py "/api/chat" in
  timeout <- float_of_int (ollama_timeout config) ;;
  let options :=
    {| num_ctx := ollama_num_ctx config;
       temperature :=
         match temperature_override with
         | Some t => t
         | None => ollama_temperature config
         end;
       num_predict :=
         match num_predict_override with
         | Some n => n
         | None => ollama_num_predict config
         end;
       repeat_penalty := ollama_repeat_penalty config;
       repeat_last_n := ollama_repeat_last_n config |} in
  let payload :=
    {| model := ollama_model config;
       messages := [(py "system", system_prompt); (py "user", user_content)];
       stream := false;
       options := options;
       format := if json_format then Some (py "json") else None |} in
  data <- post url timeout payload ;;
  (* Diagnostics *)
  done_reason <- get_method data (py "done_reason") (PStr (py "unknown")) ;;
  eval_count <- get_method data (py "eval_count") (PInt 0) ;;
  prompt_eval_count <- get_method data (py "prompt_eval_count") (PInt 0) ;;
  message <- get_method data (py "message") (PDict []) ;;
  content <- get_method message (py "content") (PStr []) ;;
  thinking <- get_method message (py "thinking") (PStr []) ;;
  _ <- (if truthy thinking then len_of thinking else Ok 0) ;;
  _ <- (if negb (truthy content) && truthy thinking
        then len_of thinking else Ok 0) ;;
  _ <- len_of content ;;
  Ok content.

(** [query_ollama(system_prompt, user_content, config)] *)
Definition query_ollama (system_prompt user_content : pystr)
    (config : AppConfig) : outcome pyval :=
  _send_ollama_request system_prompt user_content config
    None None false (py "legacy").

(** [query_ollama_json(system_prompt, user_content, config)] *)
Definition query_ollama_json (system_prompt user_content : pystr)
    (config : AppConfig) : outcome pyval :=
  _send_ollama_request system_prompt user_content config
    (Some 4096) (Some (float_of_decimal false 1 (-1))) true (py "extraction").

(** [query_ollama_report(system_prompt, user_content, config)] *)
Definition query_ollama_report (system_prompt user_content : pystr)
    (config : AppConfig) : outcome pyval :=
  _send_ollama_request system_prompt user_content config
    None None false (py "report").

End Client.

(** What [client.get(url)], [raise_for_status()] and [resp.json()] give:
    the decoded body, an [httpx.ConnectError], or another exception. *)
Inductive get_result :=
| Response (tags_data : pyval)
| ConnectError
| Failed (e : exn).

(** The dict [check_ollama_health] returns; a key that is not set is
    [None]. *)
Record health := {
  ollama_reachable : bool;
  model_available : bool;
  configured_model : pystr;
  available_models : option (list pyval);
  error : option pystr
}.

(** [[m["name"] for m in models]] *)
Fixpoint model_names (models : list pyval) : outcome (list pyval) :=
  match models with
  | [] => Ok []
  | m :: rest =>
      name <- getitem m (py "name") ;;
      names <- model_names rest ;;
      Ok (name :: names)
  end.

(** [any(ollama_model in model_name for model_name in available_models)] *)
Fixpoint any_contains (ollama_model : pystr) (available_models : list pyval)
  : outcome bool :=
  match available_models with
  | [] => Ok false
  | model_name :: rest =>
      bind (contains_op ollama_model model_name)
           (fun found : bool =>
              if found then Ok true else any_contains ollama_model rest)
  end.

(** [check_ollama_health(config)]; [get] is the request for the tags, by
    its URL. *)
Definition check_ollama_health (get : pystr -> get_result)
    (config : AppConfig) : health :=
  let failure (text : pystr) :=
    {| ollama_reachable := false;
       model_available := false;
       configured_model := ollama_model config;
       available_models := None;
       error := Some text |} in
  match get (ollama_base_url config ++ py "/api/tags") with
  | ConnectError =>
      failure (py "Cannot connect to Ollama at " ++ ollama_base_url config)
  | Failed e => failure (exn_str e)
  | Response tags_data =>
      match (models <- get_method tags_data (py "models") (PList []) ;;
             items <- iterate models ;;
             available_models <- model_names items ;;
             model_available <-
               any_contains (ollama_model config) available_models ;;
             Ok (available_models, model_available)) with
      | Ok (available_models, model_available) =>
          {| ollama_reachable := true;
             model_available := model_available;
             configured_model := ollama_model config;
             available_models := Some available_models;
             error := None |}
      | Raise e => failure (exn_str e)
      end
  end.

End llm_client.

(* ===================================================================== *)
(** * app/main.py *)
(* ===================================================================== *)

Module main.

Section Lifespan.
Variable engine : Type.
Variable parser_read : option (outcome app_config.ConfigParser).
Variable PaddleOCR : bool -> pystr -> pystr -> outcome engine.
Variable get : pystr -> llm_client.get_result.

(** The startup half of [lifespan(app)]: the value of [_ocr_engine] and
    the Ollama status when the application starts to serve. *)
Definition lifespan : outcome (option engine * llm_client.health) :=
  config <- app_config.get_config parser_read ;;
  let _ocr_engine :=
    match image_extractor.init_ocr_engine PaddleOCR config with
    | Ok e => e
    | Raise _ => None
    end in
  let ollama_status := llm_client.check_ollama_health get config in
  Ok (_ocr_engine, ollama_status).

(** The dict [health_check()] returns *)
Record health_response := {
  status : pystr;
  service : pystr;
  version : pystr;
  ollama : llm_client.health
}.

(** [health_check()] *)
Definition health_check : outcome health_response :=
  config <- app_config.get_config parser_read ;;
  let ollama_status := llm_client.check_ollama_health get config in
  Ok {| status := py "ok";
        service := py "counterparty-financial-analyzer";
        version := py "1.0.0";
        ollama := ollama_status |}.

End Lifespan.

End main.


(* ===================================================================== *)
(** * The vocabulary of the properties *)
(* ===================================================================== *)

Unset Implicit Arguments.

Import text_utils json_extractor.

(** ** Strings *)

(** The string starts with a character of the class. *)
Definition starts_in (cls : codepoint -> bool) (s : pystr) : bool :=
  match s with
  | [] => false
  | c :: _ => cls c
  end.

(** The string ends with a character of the class. *)
Definition ends_in (cls : codepoint -> bool) (s : pystr) : bool :=
  starts_in cls (rev s).

Definition all_space (s : pystr) : Prop := forallb is_space s = true.

(** A string that is empty or ends with a character other than [x] *)
Definition not_ending_with (x : codepoint) (s : pystr) : Prop :=
  s = [] \/ exists b z, s = b ++ [z] /\ z <> x.

(** A string that is empty or starts with a character other than [x] *)
Definition not_starting_with (x : codepoint) (s : pystr) : Prop :=
  match s with
  | [] => True
  | c :: _ => c <> x
  end.

(** The order [sorted] sorts by *)
Definition leb_rel (a b : pystr) : Prop := pystr_leb a b = true.

(** A JSON text written with apostrophes in place of the double quotes *)
Definition json_text (s : string) : pystr :=
  List.map (fun c => if (c =? 39)%N then 34%N else c) (py s).

(** A character database without entries outside ASCII *)
Definition ascii_only : UnicodeData :=
  {| unicode_lower c := [c];
     unicode_isdigit _ := false;
     unicode_decimal _ := None |}.

(** A stack with room for nine hundred nested calls of [_to_float]; the
    worked examples run on it.  And one with room for two. *)
#[export] Instance roomy_stack : Interpreter :=
  {| recursion_budget := 900 |}.

Definition tight_stack : Interpreter :=
  {| recursion_budget := 2 |}.

(** ** [clean_text] *)

(** The two substitutions of [clean_text] *)
Definition sub_hspace : pystr -> pystr := re_sub_runs is_hspace 1 [SP].
Definition sub_newlines : pystr -> pystr := re_sub_runs is_newline 3 [NL; NL].

(** Every horizontal-whitespace character is a single, isolated space. *)
Fixpoint hspace_normal (t : pystr) : bool :=
  match t with
  | [] => true
  | c :: r =>
      (if is_hspace c then (c =? SP)%N && negb (starts_in is_hspace r) else true)
      && hspace_normal r
  end.

(** No position starts a run of more than two newlines. *)
Fixpoint newlines_normal (t : pystr) : bool :=
  match t with
  | [] => true
  | _ :: r =>
      (List.length (take_while is_newline t) <=? 2)%nat && newlines_normal r
  end.

(** ** [truncate_text] *)

(** What the truncating branch of [truncate_text] keeps of the text: the
    final value of [truncated]. *)
Definition kept_text (text : pystr) (max_tokens : Z) : pystr :=
  let target_chars := Z.quot (7 * max_tokens) 2 in
  let truncated := slice_to text target_chars in
  let last_newline := rfind_char NL truncated in
  if 4 * target_chars <? 5 * last_newline
  then slice_to truncated last_newline
  else truncated.

(** A text of [n] letters [a] *)
Definition letters (n : nat) : pystr := repeat 97%N n.

(** ** [parse_llm_json] *)

(** The required keys an object lacks *)
Definition missing_keys (data : list (pystr * pyval)) : list pystr :=
  filter (fun k => negb (dict_has data k)) REQUIRED_KEYS.

Definition BACKTICK : codepoint := 96%N.

(** One trailing newline removed *)
Fixpoint chop_newline (s : pystr) : pystr :=
  match s with
  | [] => []
  | [c] => if is_newline c then [] else [c]
  | c :: r => c :: chop_newline r
  end.

(** The text of a JSON object as the brace matcher sees it: it opens with a
    brace, and the depth first returns to zero at its last character. *)
Definition object_text (J : pystr) : Prop :=
  starts_in (N.eqb LBRACE) J = true /\ scan_braces J 0 0 = Some (len J - 1).

Section Codes.
Context {ucd : UnicodeData}.
Context {stack : Interpreter}.

(** The accounting code a section key stands for: the final value of [k]
    in [_normalize_section] *)
Definition code_of (key : pystr) : pystr :=
  strip (strip_row_prefix (strip key)).

(** The tokens that stand for no value *)
Definition null_marker (s : pystr) : Prop :=
  strip s = [] \/ strip s = py "-"
  \/ lower (strip s) = py "null" \/ lower (strip s) = py "none".

End Codes.

(** ** [extract_text_from_pdf] *)

Section PdfVocabulary.
Import pdf_extractor.

(** A page whose native text is too short to be taken as native *)
Definition is_scan (p : page) : bool :=
  len (strip (get_text p)) <? MIN_TEXT_LENGTH.

(** The OCR calls a document asks for: the 300-DPI rendering of each
    scanned page, once, in page order. *)
Definition ocr_calls (doc : list page) : list event :=
  List.map (fun p => EvOcr (get_pixmap_png p 300)) (filter is_scan doc).

Variable ocr_func : bytes -> outcome pystr.

(** The text a page contributes, given what the OCR answers *)
Definition page_text (p : page) : pystr :=
  if is_scan p then
    match ocr_func (get_pixmap_png p 300) with
    | Ok t => t
    | Raise _ => []
    end
  else get_text p.

(** The blocks of the pages, numbered from [page_num + 1] *)
Fixpoint page_blocks (page_num : Z) (doc : list page) : list pystr :=
  match doc with
  | [] => []
  | p :: rest =>
      (py "--- Page " ++ str_of_int (page_num + 1) ++ py " ---" ++ [NL]
       ++ page_text p)
      :: page_blocks (page_num + 1) rest
  end.

(** The OCR answers for every scanned page of the document. *)
Definition ocr_answers (doc : list page) : Prop :=
  forall p, In p doc -> is_scan p = true ->
            exists t, ocr_func (get_pixmap_png p 300) = Ok t.

End PdfVocabulary.

(** ** [analyze_documents] *)


Section EndpointVocabulary.
Import extractor analyze.
Context {ucd : UnicodeData}.
Context {stack : Interpreter}.
Variable sv : services.

Definition allowed_file (f : UploadFile) : bool :=
  is_allowed_extension (filename_or f []).

(** The text [extract_text] returns for a file, when it returns *)
Definition extracted (filename : pystr) (content : bytes) : pystr :=
  match result (extract_text (extraction sv) filename content) with
  | Ok t => t
  | Raise _ => []
  end.


(** [file_texts] after the loop over files that all extract *)
Definition texts_of (file_data : list (pystr * bytes))
    (file_texts : list (pystr * pystr)) : list (pystr * pystr) :=
  fold_left (fun d '(filename, content) =>
               dict_set d filename (extracted filename content))
            file_data file_texts.


End EndpointVocabulary.

(** ** Sample collaborators for the worked examples *)

Section Samples.
Import pdf_extractor extractor analyze.

(** A native page and a scanned one *)
Definition sample_native_page : page :=
  {| get_text := py "Balance sheet as of 31 December, thousands of hryvnias, form 1";
     get_pixmap_png := fun _ => [] |}.

Definition sample_scanned_page : page :=
  {| get_text := py "  ";
     get_pixmap_png := fun dpi => if dpi =? 300 then [x2a%byte] else [] |}.

Definition sample_ocr (img : bytes) : outcome pystr := Ok (py "1000 732,8").

Definition sample_backends : backends :=
  {| fitz_open := fun _ => Ok [sample_native_page; sample_scanned_page];
     ocr_engine := Some (fun _ => Ok [[py "1000 732,8"]]);
     extract_text_from_excel := fun _ => Ok (py "Sheet: balance");
     extract_text_from_docx :=
       fun b => Ok (py "version " ++ str_of_int (Z.of_nat (List.length b))) |}.

Definition sample_services : services :=
  {| extraction := sample_backends;
     prompt_path := fun path_str => py "/srv/llmfinrep/" ++ path_str;
     prompt_text := fun _ => Some (Ok (py "Extract the rows. {documents}"));
     json_loads := json.loads (ucd := ascii_only);
     query_ollama_json := fun _ _ => Ok (py "{}");
     query_ollama_report := fun _ _ => Ok (py "<p>report</p>");
     calculations_text := fun _ => Ok (py "no data") |}.

Definition sample_config : AppConfig :=
  {| max_upload_size_mb := 50;
     max_total_tokens_estimate := 60000;
     extraction_prompt_file := py "prompts/extraction_prompt.txt";
     report_prompt_file := py "prompts/report_prompt.txt" |}.

Definition upload (name : string) (content : bytes) : UploadFile :=
  {| filename := Some (py name); content := content |}.

End Samples.


(* ===================================================================== *)
(** * The vocabulary of the further properties *)
(* ===================================================================== *)

(** ** Texts *)

(** The characters of a text that are not whitespace, in order *)
Definition visible (s : pystr) : pystr :=
  filter (fun c => negb (is_space c)) s.

(** ** Braces *)

(** The depth the brace matcher has after the characters of [s], starting
    at depth [d]: one up at an opening brace, one down at a closing one *)
Definition depth_from (d : Z) (s : pystr) : Z :=
  fold_left (fun d c => if (c =? LBRACE)%N then d + 1
                        else if (c =? RBRACE)%N then d - 1 else d) s d.

Definition brace_depth (s : pystr) : Z := depth_from 0 s.

(** ** Spreadsheets and documents *)

(** A cell without value, or whose text is blank *)
Definition blank_cell (cell : option pystr) : bool :=
  match cell with
  | None => true
  | Some s => forallb is_space s
  end.

(** The line of a row: the texts of its cells, tab-separated *)
Definition row_line (row : list (option pystr)) : pystr :=
  join [TAB]
    (List.map (fun cell => match cell with Some s => s | None => [] end) row).

(** The block of a sheet: its header, then the line of each row that has a
    cell that is not blank *)
Definition sheet_block (ws : excel_extractor.worksheet) : pystr :=
  join [NL]
    ((py "--- Sheet: " ++ excel_extractor.sheet_name ws ++ py " ---")
     :: List.map row_line
          (filter (fun row => negb (forallb blank_cell row))
                  (excel_extractor.iter_rows ws))).

(** The blocks of the tables, numbered from [table_idx + 1]: the header,
    then every row, its trimmed cells tab-separated *)
Fixpoint table_blocks (table_idx : Z) (tbls : list (list (list pystr)))
  : list pystr :=
  match tbls with
  | [] => []
  | table :: rest =>
      join [NL]
        ((py "--- Table " ++ str_of_int (table_idx + 1) ++ py " ---")
         :: List.map (fun row => join [TAB] (List.map strip row)) table)
      :: table_blocks (table_idx + 1) rest
  end.

(** ** The OCR engine *)

(** The error of [get_ocr_engine] *)
Definition not_initialized : exn :=
  RuntimeError (py "OCR engine not initialized. Call init_ocr_engine() first.").

(** ** The endpoint *)

Section RequestVocabulary.
Import extractor analyze.
Context {ucd : UnicodeData}.
Context {stack : Interpreter}.
Variable sv : services.
Variable config : AppConfig.

(** The number of bytes of the files *)
Definition upload_size (files : list UploadFile) : Z :=
  fold_right (fun f total => Z.of_nat (List.length (content f)) + total) 0 files.

(** The limit on the number of bytes of a request *)
Definition max_size : Z := max_upload_size_mb config * 1024 * 1024.

(** The error of a request whose files exceed the limit *)
Definition too_large : exn :=
  HTTPException 413
    (DetailText (py "Total upload size exceeds "
                 ++ str_of_int (max_upload_size_mb config)
                 ++ py " MB limit")).

(** The entry of [failed_files] a file gives when its extraction fails *)
Definition extraction_failure (filename : pystr) (content : bytes)
  : list (pystr * pystr) :=
  match result (extract_text (extraction sv) filename content) with
  | Ok _ => []
  | Raise e => [(filename, exn_str e)]
  end.

(** [file_texts] after the loop over the files: the text of each file that
    extracts, under its name *)
Definition collected_texts (file_data : list (pystr * bytes))
    (file_texts : list (pystr * pystr)) : list (pystr * pystr) :=
  fold_left (fun d '(filename, content) =>
               match result (extract_text (extraction sv) filename content) with
               | Ok text => dict_set d filename text
               | Raise _ => d
               end)
            file_data file_texts.

(** The calls of the three steps that follow the text extraction *)
Definition pipeline_event (ev : event) : bool :=
  match ev with
  | EvLoadPrompt _ | EvQueryJson _ _ | EvCalculate | EvQueryReport _ _ => true
  | _ => false
  end.

(** The combined text as it is sent on, and whether it was cut *)
Definition bounded_text (file_texts : list (pystr * pystr)) : pystr * bool :=
  truncate_text (combine_extracted_texts file_texts)
    (max_total_tokens_estimate config).

(** The system and user parts of the structuring request *)
Definition extraction_request (extraction_prompt combined_text : pystr)
  : pystr * pystr :=
  if contains DOCUMENTS_MARKER extraction_prompt then
    (strip (split_head DOCUMENTS_MARKER extraction_prompt),
     DOCUMENTS_MARKER ++ [NL] ++ combined_text)
  else ([], replace (py "{documents}") combined_text extraction_prompt).

(** The system and user parts of the report request *)
Definition report_request (report_prompt calculations_text
    user_instructions : pystr) : pystr * pystr :=
  let '(report_system, report_user_content) :=
    if contains CALCULATIONS_MARKER report_prompt then
      (strip (split_head CALCULATIONS_MARKER report_prompt),
       CALCULATIONS_MARKER ++ [NL] ++ calculations_text)
    else ([], replace (py "{calculations}") calculations_text report_prompt) in
  (report_system,
   match strip user_instructions with
   | [] => report_user_content
   | ui => report_user_content ++ [NL; NL]
           ++ py "--- ДОДАТКОВІ ІНСТРУКЦІЇ ---" ++ [NL] ++ ui
   end).

(** The status 500 whose detail is a text followed by [str(e)] *)
Definition http_500 (text : string) (e : exn) : exn :=
  HTTPException 500 (DetailText (py text ++ exn_str e)).

(** What [_load_prompt] answers *)
Definition prompt_answer (path_str : pystr) : outcome pystr :=
  match prompt_text sv path_str with
  | Some read_text => read_text
  | None =>
      Raise (RuntimeError (py "Prompt template not found: "
                           ++ prompt_path sv path_str))
  end.

(** What [except RuntimeError] around [_load_prompt] makes of an exception:
    the status 500 of a [RuntimeError], and the exception itself
    otherwise *)
Definition prompt_error (text : string) (e : exn) : exn :=
  if is_RuntimeError e then http_500 text e else e.

End RequestVocabulary.

(** ** The Ollama client *)

(** An entry of the model list that is an object with a name *)
Definition named (m : pyval) (name : pystr) : Prop :=
  exists d, m = PDict d /\ dict_get d (py "name") = Some (PStr name).

(** ** Further samples for the worked examples *)

Section MoreSamples.
Import pdf_extractor extractor analyze.

(** A response whose company name is [null] *)
Definition sample_answer : pystr :=
  json_text "{'company_name': null, 'balance_start': {'1000': '732,8'}, 'balance_end': {}, 'income_current': {}}".

Definition sample_parsed : list (pystr * pyval) :=
  [(py "company_name", PNone);
   (py "balance_start",
    PDict [(py "1000", PFloat (float_of_decimal false 7328 (-1)))]);
   (py "balance_end", PDict []);
   (py "income_current", PDict []);
   (py "period", PStr (py "—"))].

(** A response with a value in three pairs of parentheses *)
Definition sample_nested_answer : pystr :=
  json_text "{'balance_start': {'1000': '(((5)))'}, 'balance_end': {}, 'income_current': {}}".

(** A response with an integer of 310 digits *)
Definition sample_huge_answer : pystr :=
  json_text "{'balance_start': {'1000': 1"
  ++ repeat 48%N 309
  ++ json_text "}, 'balance_end': {}, 'income_current': {}}".

(** The collaborators of the dispatcher without an OCR engine *)
Definition sample_backends_no_ocr : backends :=
  {| fitz_open := fun _ => Ok [sample_native_page; sample_scanned_page];
     ocr_engine := None;
     extract_text_from_excel := fun _ => Ok (py "Sheet: balance");
     extract_text_from_docx := fun _ => Ok (py "Annual report") |}.

(** A constructor of the OCR engine that fails *)
Definition sample_failing_PaddleOCR (use_textline_orientation : bool)
    (lang device : pystr) : outcome (bytes -> outcome (list (list pystr))) :=
  Raise (OtherException (py "model files not found")).

(** A workbook of one sheet with three rows, the second without a value,
    and a document of two paragraphs, the first blank, and a table *)
Definition sample_workbook : list excel_extractor.worksheet :=
  [{| excel_extractor.sheet_name := py "Balance";
      excel_extractor.iter_rows :=
        [[Some (py "1000"); None; Some (py "732,8")];
         [None; Some (py "  "); Some []];
         [Some (py "1005"); Some (py "12")]] |}].

Definition sample_document : docx_extractor.document :=
  {| docx_extractor.paragraphs := [py "   "; py " Balance sheet "];
     docx_extractor.tables := [[[py "1000"; py " 732,8 "]; [[]; []]]] |}.

(** A configuration that allows no byte *)
Definition sample_config_tiny : AppConfig :=
  {| max_upload_size_mb := 0;
     max_total_tokens_estimate := 60000;
     extraction_prompt_file := py "prompts/extraction_prompt.txt";
     report_prompt_file := py "prompts/report_prompt.txt" |}.

(** The collaborators of the endpoint: without an OCR engine; with an LLM
    that answers the structuring call with two spaces; with prompt files
    that are no UTF-8 text; and with an LLM that answers the structuring
    call with [sample_answer] *)
Definition sample_services_no_ocr : services :=
  {| extraction := sample_backends_no_ocr;
     prompt_path := fun path_str => py "/srv/llmfinrep/" ++ path_str;
     prompt_text := fun _ => Some (Ok (py "Extract the rows. {documents}"));
     json_loads := json.loads (ucd := ascii_only);
     query_ollama_json := fun _ _ => Ok (py "{}");
     query_ollama_report := fun _ _ => Ok (py "<p>report</p>");
     calculations_text := fun _ => Ok (py "no data") |}.

Definition sample_services_blank : services :=
  {| extraction := sample_backends;
     prompt_path := fun path_str => py "/srv/llmfinrep/" ++ path_str;
     prompt_text := fun _ => Some (Ok (py "Extract the rows. {documents}"));
     json_loads := json.loads (ucd := ascii_only);
     query_ollama_json := fun _ _ => Ok (py "  ");
     query_ollama_report := fun _ _ => Ok (py "<p>report</p>");
     calculations_text := fun _ => Ok (py "no data") |}.

Definition sample_services_unreadable : services :=
  {| extraction := sample_backends;
     prompt_path := fun path_str => py "/srv/llmfinrep/" ++ path_str;
     prompt_text := fun _ =>
       Some (Raise (OtherException
                      (py "'utf-8' codec can't decode byte 0xff in position 0: invalid start byte")));
     json_loads := json.loads (ucd := ascii_only);
     query_ollama_json := fun _ _ => Ok (py "{}");
     query_ollama_report := fun _ _ => Ok (py "<p>report</p>");
     calculations_text := fun _ => Ok (py "no data") |}.

Definition sample_services_complete : services :=
  {| extraction := sample_backends;
     prompt_path := fun path_str => py "/srv/llmfinrep/" ++ path_str;
     prompt_text := fun _ => Some (Ok (py "Extract the rows. {documents}"));
     json_loads := json.loads (ucd := ascii_only);
     query_ollama_json := fun _ _ => Ok sample_answer;
     query_ollama_report := fun _ _ => Ok (py "<p>report</p>" ++ [NL]);
     calculations_text := fun _ => Ok (py "no data") |}.

(** The response of the request with one spreadsheet and one failed file *)
Definition sample_response : response :=
  {| status := py "success";
     report := py "<p>report</p><br>" ++ [NL];
     extracted_data := sample_parsed;
     files_processed := [py "balance.xlsx"];
     tokens_estimated := 11;
     failed_files := Some [(py "notes.docx", py "damaged")];
     warning := None |}.

(** A [config.ini] that sets the OCR languages, the temperature and
    [num_predict], and the configuration loaded from it *)
Definition sample_parser : app_config.ConfigParser :=
  {| app_config.get := fun _ key fallback =>
       if pystr_eqb key (py "languages") then Ok (py " en , uk ")
       else Ok fallback;
     app_config.getint := fun _ key fallback =>
       if pystr_eqb key (py "num_predict") then Ok 128 else Ok fallback;
     app_config.getfloat := fun _ key fallback =>
       if pystr_eqb key (py "temperature")
       then Ok (float_of_decimal false 9 (-1)) else Ok fallback;
     app_config.getboolean := fun _ _ fallback => Ok fallback |}.

Definition sample_app_config : app_config.AppConfig :=
  {| app_config.server_host := py "0.0.0.0";
     app_config.server_port := 8015;
     app_config.api_key := py "CHANGE_ME_TO_SECURE_KEY";
     app_config.ollama_base_url := py "http://localhost:11434";
     app_config.ollama_model := py "gpt-oss:20b";
     app_config.ollama_num_ctx := 65536;
     app_config.ollama_timeout := 600;
     app_config.ollama_temperature := float_of_decimal false 9 (-1);
     app_config.ollama_num_predict := 128;
     app_config.ollama_repeat_penalty := float_of_decimal false 13 (-1);
     app_config.ollama_repeat_last_n := 256;
     app_config.ocr_languages := [py "en"; py "uk"];
     app_config.ocr_use_gpu := false;
     app_config.max_upload_size_mb := 50;
     app_config.max_total_tokens_estimate := 60000;
     app_config.prompt_file := py "prompts/analysis_prompt.txt";
     app_config.extraction_prompt_file := py "prompts/extraction_prompt.txt";
     app_config.report_prompt_file := py "prompts/report_prompt.txt" |}.

(** An answer of the chat endpoint, and a server that always gives it *)
Definition sample_message : list (pystr * pyval) :=
  [(py "role", PStr (py "assistant")); (py "content", PStr (py "<p>ok</p>"))].

Definition sample_reply : list (pystr * pyval) :=
  [(py "model", PStr (py "gpt-oss:20b")); (py "message", PDict sample_message);
   (py "done_reason", PStr (py "stop"))].

Definition sample_post (url : pystr) (timeout : float)
    (payload : llm_client.chat_payload) : outcome pyval :=
  Ok (PDict sample_reply).

(** A server that gives it only when asked for a format *)
Definition sample_post_json (url : pystr) (timeout : float)
    (payload : llm_client.chat_payload) : outcome pyval :=
  match llm_client.format payload with
  | Some _ => Ok (PDict sample_reply)
  | None => Ok PNone
  end.

End MoreSamples.


(* ===================================================================== *)
(** * Properties *)
(* ===================================================================== *)

(** ** [truncate_text] *)

Section TruncateFacts.

Lemma slice_to_prefix (s : pystr) (n : Z) :
  exists rest, s = slice_to s n ++ rest.
Proof.
  unfold slice_to. destruct (n <? 0).
  - exists (skipn (Z.to_nat (len s + n)) s). now rewrite firstn_skipn.
  - exists (skipn (Z.to_nat n) s). now rewrite firstn_skipn.
Qed.

Lemma slice_to_length (s : pystr) (n : Z) :
  0 <= n -> len (slice_to s n) <= n.
Proof.
  intros Hn. unfold slice_to, len.
  destruct (Z.ltb_spec n 0); [lia|].
  rewrite length_firstn. lia.
Qed.

Lemma len_app (a b : pystr) : len (a ++ b) = len a + len b.
Proof. unfold len. rewrite length_app. lia. Qed.

Lemma len_nonneg (s : pystr) : 0 <= len s.
Proof. unfold len. lia. Qed.

Lemma estimate_tokens_eq (s : pystr) : estimate_tokens s = (2 * len s) / 7.
Proof. destruct s; reflexivity. Qed.

Lemma estimate_tokens_mono (a b : pystr) :
  len a <= len b -> estimate_tokens a <= estimate_tokens b.
Proof.
  intros H. rewrite !estimate_tokens_eq.
  apply Z.div_le_mono; lia.
Qed.

Lemma estimate_tokens_prefix (a b : pystr) :
  estimate_tokens a <= estimate_tokens (a ++ b).
Proof.
  apply estimate_tokens_mono. rewrite len_app. pose proof (len_nonneg b). lia.
Qed.

Lemma truncate_text_unfold (text : pystr) (max_tokens : Z) :
  truncate_text text max_tokens =
  if estimate_tokens text <=? max_tokens then (text, false)
  else (kept_text text max_tokens
          ++ warning (estimate_tokens text) max_tokens, true).
Proof. reflexivity. Qed.

Lemma kept_text_prefix (text : pystr) (max_tokens : Z) :
  exists rest, text = kept_text text max_tokens ++ rest.
Proof.
  unfold kept_text.
  set (t := Z.quot (7 * max_tokens) 2).
  destruct (slice_to_prefix text t) as [r1 H1].
  destruct (4 * t <? 5 * rfind_char NL (slice_to text t)).
  - destruct (slice_to_prefix (slice_to text t) (rfind_char NL (slice_to text t)))
      as [r2 H2].
    exists (r2 ++ r1). rewrite app_assoc, <- H2. exact H1.
  - exists r1. exact H1.
Qed.

Lemma kept_text_within_budget (text : pystr) (max_tokens : Z) :
  0 <= max_tokens -> estimate_tokens (kept_text text max_tokens) <= max_tokens.
Proof.
  intros Hm. rewrite estimate_tokens_eq.
  assert (Hk : len (kept_text text max_tokens) <= Z.quot (7 * max_tokens) 2).
  { unfold kept_text.
    set (t := Z.quot (7 * max_tokens) 2).
    assert (Ht : 0 <= t) by (apply Z.quot_pos; lia).
    pose proof (slice_to_length text t Ht) as H1.
    destruct (4 * t <? 5 * rfind_char NL (slice_to text t)); [|exact H1].
    destruct (slice_to_prefix (slice_to text t) (rfind_char NL (slice_to text t)))
      as [r2 H2].
    rewrite H2 in H1 at 1. rewrite len_app in H1. pose proof (len_nonneg r2). lia. }
  rewrite Z.quot_div_nonneg in Hk by lia.
  apply Z.div_le_upper_bound; [lia|].
  assert (2 * (7 * max_tokens / 2) <= 7 * max_tokens)
    by (apply Z.mul_div_le; lia).
  lia.
Qed.

(** C4, as stated, fails: the notice is about 120 characters long, so a cut
    of fewer characters leaves the output with more estimated tokens than the
    input.  Eight letters at a budget of one token: the input counts 2
    tokens, the output 34. *)
Lemma truncation_notice_outgrows_input :
  estimate_tokens (letters 8) = 2
  /\ truncate_text (letters 8) 1 = (letters 3 ++ warning 2 1, true)
  /\ estimate_tokens (fst (truncate_text (letters 8) 1)) = 34.
Proof. repeat split; vm_compute; reflexivity. Qed.

(** C4, amended.  If the estimate of the text is within the budget,
    [truncate_text] returns the text unchanged with flag [false].  Otherwise
    it returns flag [true] and a prefix of the text followed by the
    truncation notice; the token estimate of that prefix, the output without
    its notice, does not exceed the estimate of the input, nor the budget
    when the budget is not negative. *)
Theorem truncate_text_spec (text : pystr) (max_tokens : Z) :
  (estimate_tokens text <= max_tokens ->
   truncate_text text max_tokens = (text, false))
  /\ (max_tokens < estimate_tokens text ->
      exists rest,
        text = kept_text text max_tokens ++ rest
        /\ truncate_text text max_tokens
           = (kept_text text max_tokens
                ++ warning (estimate_tokens text) max_tokens, true)
        /\ estimate_tokens (kept_text text max_tokens) <= estimate_tokens text
        /\ (0 <= max_tokens ->
            estimate_tokens (kept_text text max_tokens) <= max_tokens)).
Proof.
  rewrite truncate_text_unfold. split.
  - intros H. apply Z.leb_le in H. now rewrite H.
  - intros H. apply Z.leb_gt in H. rewrite H.
    destruct (kept_text_prefix text max_tokens) as [rest Hrest].
    exists rest. repeat split.
    + exact Hrest.
    + rewrite Hrest at 2. apply estimate_tokens_prefix.
    + apply kept_text_within_budget.
Qed.

(** C5, as stated, fails: the notice may leave the output over the budget,
    and a second call then cuts the notice away and writes a new one, with
    another count.  Eight letters at a budget of one token. *)
Lemma truncate_text_not_idempotent :
  truncate_text (letters 8) 1 = (letters 3 ++ warning 2 1, true)
  /\ truncate_text (letters 3 ++ warning 2 1) 1
     = (letters 3 ++ warning 34 1, true).
Proof. split; vm_compute; reflexivity. Qed.

(** C5, amended.  [truncate_text] is deterministic: it is a function of its
    two arguments, so any call with the same arguments returns the same
    pair.  Truncating its output [t1] again at the same budget returns
    [(t1, false)] exactly when the estimate of [t1] is within the budget;
    this is so whenever the first call returned flag [false]. *)
Theorem truncate_text_retruncate (text : pystr) (max_tokens : Z)
    (t1 : pystr) (flag1 : bool) :
  truncate_text text max_tokens = (t1, flag1) ->
  (forall r, truncate_text text max_tokens = r -> r = (t1, flag1))
  /\ (flag1 = false -> truncate_text t1 max_tokens = (t1, false))
  /\ (estimate_tokens t1 <= max_tokens
      <-> truncate_text t1 max_tokens = (t1, false)).
Proof.
  intros H. split; [|split].
  - intros r Hr. now rewrite <- Hr.
  - intros ->. rewrite truncate_text_unfold in H.
    destruct (estimate_tokens text <=? max_tokens) eqn:E; [|discriminate].
    injection H as <-. rewrite truncate_text_unfold. now rewrite E.
  - rewrite (truncate_text_unfold t1). split.
    + intros Hle. apply Z.leb_le in Hle. now rewrite Hle.
    + destruct (Z.leb_spec (estimate_tokens t1) max_tokens);
        [trivial | discriminate].
Qed.

End TruncateFacts.

Lemma truncate_text_spec_witness :
  truncate_text (letters 3) 1 = (letters 3, false)
  /\ exists rest,
       letters 8 = kept_text (letters 8) 1 ++ rest
       /\ truncate_text (letters 8) 1
          = (kept_text (letters 8) 1
               ++ warning (estimate_tokens (letters 8)) 1, true)
       /\ estimate_tokens (kept_text (letters 8) 1)
          <= estimate_tokens (letters 8)
       /\ (0 <= 1 -> estimate_tokens (kept_text (letters 8) 1) <= 1).
Proof.
  split.
  - apply (proj1 (truncate_text_spec (letters 3) 1)). vm_compute. discriminate.
  - apply (proj2 (truncate_text_spec (letters 8) 1)). reflexivity.
Defined.

(** A cut that backs off to a line end far enough for the notice to fit: a
    thousand characters with one newline at offset 570, at 200 tokens. *)
Lemma truncate_text_retruncate_witness :
  snd (truncate_text (letters 570 ++ [NL] ++ letters 429) 200) = true
  /\ truncate_text
       (fst (truncate_text (letters 570 ++ [NL] ++ letters 429) 200)) 200
     = (fst (truncate_text (letters 570 ++ [NL] ++ letters 429) 200), false).
Proof.
  split; [vm_compute; reflexivity|].
  apply (proj2 (proj2 (truncate_text_retruncate
                         (letters 570 ++ [NL] ++ letters 429) 200 _ _
                         (surjective_pairing _)))).
  vm_compute. discriminate.
Defined.

(** ** [clean_text] *)

Section CleanText.

Lemma drop_while_length cls (s : pystr) :
  (List.length (drop_while cls s) <= List.length s)%nat.
Proof.
  induction s as [|c r IH]; simpl; [lia|].
  destruct (cls c); simpl; lia.
Qed.

Lemma take_drop_while cls (s : pystr) :
  take_while cls s ++ drop_while cls s = s.
Proof.
  induction s as [|c r IH]; simpl; [reflexivity|].
  destruct (cls c); simpl; [now rewrite IH | reflexivity].
Qed.

Lemma drop_while_starts cls (s : pystr) :
  starts_in cls (drop_while cls s) = false.
Proof.
  induction s as [|c r IH]; simpl; [reflexivity|].
  destruct (cls c) eqn:E; simpl; [exact IH | exact E].
Qed.

Lemma take_while_not_starting cls (s : pystr) :
  starts_in cls s = false -> take_while cls s = [].
Proof. destruct s as [|c r]; simpl; [reflexivity|]. now intros ->. Qed.

Lemma drop_while_not_starting cls (s : pystr) :
  starts_in cls s = false -> drop_while cls s = s.
Proof. destruct s as [|c r]; simpl; [reflexivity|]. now intros ->. Qed.

Lemma drop_while_shorter cls (s : pystr) :
  (1 <= List.length (take_while cls s))%nat ->
  (List.length (drop_while cls s) < List.length s)%nat.
Proof.
  intros H. rewrite <- (take_drop_while cls s) at 2.
  rewrite length_app. lia.
Qed.

(** The fuel of [re_sub_runs_from] never runs out. *)
Lemma re_sub_runs_from_fuel cls min repl (fuel : nat) :
  forall text, (List.length text <= fuel)%nat ->
  re_sub_runs_from fuel cls min repl text = re_sub_runs cls min repl text.
Proof.
  unfold re_sub_runs.
  induction fuel as [fuel IH] using (well_founded_induction lt_wf).
  intros text Hlen.
  destruct text as [|c rest].
  - destruct fuel; reflexivity.
  - destruct fuel as [|fuel']; [simpl in Hlen; lia|].
    cbn [List.length re_sub_runs_from].
    destruct ((min <=? _)%nat && _) eqn:E.
    + f_equal.
      apply andb_prop in E. destruct E as [_ E]. apply Nat.leb_le in E.
      pose proof (drop_while_shorter cls (c :: rest) E) as Hd.
      set (d := drop_while cls (c :: rest)) in *.
      cbn [List.length] in Hd, Hlen.
      rewrite (IH fuel') by lia.
      symmetry. apply IH; lia.
    + f_equal.
      simpl in Hlen.
      rewrite (IH fuel') by lia.
      symmetry. apply IH; lia.
Qed.

Lemma re_sub_runs_cons cls min repl c rest :
  re_sub_runs cls min repl (c :: rest) =
  if (min <=? List.length (take_while cls (c :: rest)))%nat
     && (1 <=? List.length (take_while cls (c :: rest)))%nat
  then repl ++ re_sub_runs cls min repl (drop_while cls (c :: rest))
  else c :: re_sub_runs cls min repl rest.
Proof.
  unfold re_sub_runs at 1. cbn [List.length re_sub_runs_from].
  destruct (_ && _) eqn:E.
  - f_equal. apply re_sub_runs_from_fuel.
    apply andb_prop in E. destruct E as [_ E]. apply Nat.leb_le in E.
    pose proof (drop_while_shorter cls (c :: rest) E) as Hd.
    set (d := drop_while cls (c :: rest)) in *.
    cbn [List.length] in Hd. lia.
  - reflexivity.
Qed.


Lemma sub_hspace_cons c r :
  sub_hspace (c :: r) =
  if is_hspace c then SP :: sub_hspace (drop_while is_hspace r)
  else c :: sub_hspace r.
Proof.
  unfold sub_hspace. rewrite re_sub_runs_cons. simpl.
  destruct (is_hspace c); reflexivity.
Qed.

Lemma sub_newlines_cons c r :
  sub_newlines (c :: r) =
  if (3 <=? List.length (take_while is_newline (c :: r)))%nat
  then NL :: NL :: sub_newlines (drop_while is_newline (c :: r))
  else c :: sub_newlines r.
Proof.
  unfold sub_newlines. rewrite re_sub_runs_cons.
  assert (Hn : forall n, ((3 <=? n) && (1 <=? n) = (3 <=? n))%nat)
    by (intros [|[|[|n]]]; reflexivity).
  now rewrite Hn.
Qed.

(** Induction on the length of a string. *)
Lemma pystr_length_ind (P : pystr -> Prop) :
  (forall t, (forall u, (List.length u < List.length t)%nat -> P u) -> P t) ->
  forall t, P t.
Proof.
  intros step t.
  remember (List.length t) as n eqn:Hn.
  revert t Hn. induction n as [n IH] using (well_founded_induction lt_wf).
  intros t ->. apply step. intros u Hu. exact (IH _ Hu u eq_refl).
Qed.

Lemma SP_is_hspace : is_hspace SP = true.
Proof. reflexivity. Qed.

Lemma sub_hspace_starts (t : pystr) :
  starts_in is_hspace t = false -> starts_in is_hspace (sub_hspace t) = false.
Proof.
  destruct t as [|c r]; [reflexivity|].
  simpl. intros E. rewrite sub_hspace_cons, E. simpl. exact E.
Qed.

Lemma sub_hspace_normal (t : pystr) : hspace_normal (sub_hspace t) = true.
Proof.
  induction t as [t IH] using pystr_length_ind.
  destruct t as [|c r]; [reflexivity|].
  rewrite sub_hspace_cons. destruct (is_hspace c) eqn:E.
  - cbn [hspace_normal]. rewrite SP_is_hspace, N.eqb_refl.
    rewrite sub_hspace_starts by apply drop_while_starts.
    simpl. apply IH. pose proof (drop_while_length is_hspace r). simpl. lia.
  - cbn [hspace_normal]. rewrite E. simpl. apply IH. simpl. lia.
Qed.

Lemma sub_hspace_fixed (t : pystr) :
  hspace_normal t = true -> sub_hspace t = t.
Proof.
  induction t as [|c r IH]; [reflexivity|].
  cbn [hspace_normal]. rewrite sub_hspace_cons.
  destruct (is_hspace c).
  - intros H. apply andb_prop in H. destruct H as [H1 H2].
    apply andb_prop in H1. destruct H1 as [Hc Hr].
    apply N.eqb_eq in Hc. apply negb_true_iff in Hr.
    rewrite (drop_while_not_starting _ _ Hr), (IH H2). now subst c.
  - simpl. intros H. now rewrite (IH H).
Qed.

Lemma hspace_normal_tail c (r : pystr) :
  hspace_normal (c :: r) = true -> hspace_normal r = true.
Proof. cbn [hspace_normal]. intros H. now apply andb_prop in H. Qed.

Lemma hspace_normal_suffix (a b : pystr) :
  hspace_normal (a ++ b) = true -> hspace_normal b = true.
Proof.
  induction a as [|c a IH]; [trivial|].
  intros H. apply IH. exact (hspace_normal_tail _ _ H).
Qed.

Lemma starts_in_app cls (a b : pystr) :
  starts_in cls (a ++ b) = false -> starts_in cls a = false.
Proof. destruct a; [reflexivity | trivial]. Qed.

Lemma hspace_normal_prefix (a b : pystr) :
  hspace_normal (a ++ b) = true -> hspace_normal a = true.
Proof.
  induction a as [|c a IH]; [reflexivity|].
  cbn [hspace_normal app]. intros H.
  apply andb_prop in H. destruct H as [H1 H2].
  rewrite (IH H2), andb_true_r.
  destruct (is_hspace c); [|reflexivity].
  apply andb_prop in H1. destruct H1 as [Hc Hr]. rewrite Hc. simpl.
  apply negb_true_iff in Hr. apply negb_true_iff.
  exact (starts_in_app _ _ _ Hr).
Qed.


(** *** Newlines *)

Lemma NL_is_newline : is_newline NL = true.
Proof. reflexivity. Qed.

Lemma is_newline_eq c : is_newline c = true -> c = NL.
Proof. unfold is_newline. apply N.eqb_eq. Qed.

Lemma sub_newlines_starts cls (t : pystr) :
  starts_in cls (sub_newlines t) = starts_in cls t.
Proof.
  destruct t as [|c r]; [reflexivity|].
  rewrite sub_newlines_cons.
  destruct (3 <=? _)%nat eqn:E; [|reflexivity].
  simpl in E. destruct (is_newline c) eqn:Ec; [|discriminate].
  simpl. now rewrite (is_newline_eq _ Ec).
Qed.

Lemma sub_newlines_run (t : pystr) :
  (List.length (take_while is_newline (sub_newlines t))
   <= List.length (take_while is_newline t))%nat.
Proof.
  induction t as [|c r IH]; [simpl; lia|].
  rewrite sub_newlines_cons.
  destruct (3 <=? _)%nat eqn:E.
  - apply Nat.leb_le in E.
    set (run := take_while is_newline (c :: r)) in *.
    cbn [take_while]. rewrite NL_is_newline.
    rewrite (take_while_not_starting is_newline (sub_newlines _)).
    + simpl List.length at 1. lia.
    + rewrite sub_newlines_starts. apply drop_while_starts.
  - cbn [take_while]. destruct (is_newline c); simpl; lia.
Qed.

Lemma sub_newlines_normal (t : pystr) : newlines_normal (sub_newlines t) = true.
Proof.
  induction t as [t IH] using pystr_length_ind.
  destruct t as [|c r]; [reflexivity|].
  rewrite sub_newlines_cons.
  destruct (3 <=? _)%nat eqn:E.
  - apply Nat.leb_le in E.
    assert (Hd : (List.length (drop_while is_newline (c :: r))
                  < List.length (c :: r))%nat)
      by (apply drop_while_shorter; lia).
    set (d := drop_while is_newline (c :: r)) in *.
    assert (Hs : take_while is_newline (sub_newlines d) = []).
    { apply take_while_not_starting. rewrite sub_newlines_starts.
      apply drop_while_starts. }
    cbn [newlines_normal take_while]. rewrite NL_is_newline, Hs. simpl.
    now apply IH.
  - cbn [newlines_normal].
    rewrite IH by (simpl; lia). rewrite andb_true_r.
    apply Nat.leb_le. apply Nat.leb_gt in E.
    cbn [take_while] in *. destruct (is_newline c); [|simpl; lia].
    pose proof (sub_newlines_run r). simpl List.length in *. lia.
Qed.

Lemma sub_newlines_fixed (t : pystr) :
  newlines_normal t = true -> sub_newlines t = t.
Proof.
  induction t as [|c r IH]; [reflexivity|].
  cbn [newlines_normal]. intros H. apply andb_prop in H. destruct H as [H1 H2].
  rewrite sub_newlines_cons.
  apply Nat.leb_le in H1.
  replace (3 <=? _)%nat with false by (symmetry; apply Nat.leb_gt; lia).
  now rewrite (IH H2).
Qed.

Lemma newlines_normal_suffix (a b : pystr) :
  newlines_normal (a ++ b) = true -> newlines_normal b = true.
Proof.
  induction a as [|c a IH]; [trivial|].
  cbn [newlines_normal app]. intros H. apply andb_prop in H. now apply IH.
Qed.

Lemma take_while_app_length cls (a b : pystr) :
  (List.length (take_while cls a) <= List.length (take_while cls (a ++ b)))%nat.
Proof.
  induction a as [|c a IH]; simpl; [lia|].
  destruct (cls c); simpl; lia.
Qed.

Lemma newlines_normal_prefix (a b : pystr) :
  newlines_normal (a ++ b) = true -> newlines_normal a = true.
Proof.
  induction a as [|c a IH]; [reflexivity|].
  change ((c :: a) ++ b) with (c :: (a ++ b)).
  cbn [newlines_normal]. intros H. apply andb_prop in H. destruct H as [H1 H2].
  rewrite (IH H2), andb_true_r.
  apply Nat.leb_le. apply Nat.leb_le in H1.
  pose proof (take_while_app_length is_newline (c :: a) b) as Hl.
  change ((c :: a) ++ b) with (c :: (a ++ b)) in Hl. lia.
Qed.

Lemma sub_newlines_hspace (t : pystr) :
  hspace_normal t = true -> hspace_normal (sub_newlines t) = true.
Proof.
  induction t as [t IH] using pystr_length_ind.
  destruct t as [|c r]; [reflexivity|].
  intros H. rewrite sub_newlines_cons.
  destruct (3 <=? _)%nat eqn:E.
  - apply Nat.leb_le in E.
    assert (Hd : (List.length (drop_while is_newline (c :: r))
                  < List.length (c :: r))%nat)
      by (apply drop_while_shorter; lia).
    assert (Hn : hspace_normal (drop_while is_newline (c :: r)) = true).
    { apply (hspace_normal_suffix (take_while is_newline (c :: r))).
      now rewrite take_drop_while. }
    set (d := drop_while is_newline (c :: r)) in *.
    cbn [hspace_normal]. 
    replace (is_hspace NL) with false by reflexivity. simpl.
    now apply IH.
  - cbn [hspace_normal] in *. apply andb_prop in H. destruct H as [H1 H2].
    rewrite IH by (simpl; lia || exact H2). rewrite andb_true_r.
    now rewrite sub_newlines_starts.
Qed.


(** *** [strip] *)

Lemma drop_while_suffix cls (s : pystr) :
  exists a, s = a ++ drop_while cls s.
Proof. exists (take_while cls s). symmetry. apply take_drop_while. Qed.

Lemma rstrip_prefix (s : pystr) : exists w, s = rstrip s ++ w.
Proof.
  unfold rstrip.
  destruct (drop_while_suffix is_space (rev s)) as [a Ha].
  exists (rev a). rewrite <- rev_app_distr, <- Ha. symmetry. apply rev_involutive.
Qed.

Lemma drop_while_idem cls (s : pystr) :
  drop_while cls (drop_while cls s) = drop_while cls s.
Proof. apply drop_while_not_starting, drop_while_starts. Qed.

Lemma rstrip_idem (s : pystr) : rstrip (rstrip s) = rstrip s.
Proof. unfold rstrip. now rewrite rev_involutive, drop_while_idem. Qed.

Lemma drop_while_app cls (a b : pystr) :
  drop_while cls (a ++ b) =
  if forallb cls a then drop_while cls b else drop_while cls a ++ b.
Proof.
  induction a as [|c a IH]; [reflexivity|].
  simpl. destruct (cls c); [exact IH | reflexivity].
Qed.

Lemma drop_while_all cls (a : pystr) :
  forallb cls a = true -> drop_while cls a = [].
Proof.
  induction a as [|c a IH]; [reflexivity|].
  simpl. destruct (cls c); [exact IH | discriminate].
Qed.

Lemma rstrip_cons c (r : pystr) :
  is_space c = false -> rstrip (c :: r) = c :: rstrip r.
Proof.
  intros Hc. unfold rstrip. simpl rev. rewrite drop_while_app.
  destruct (forallb is_space (rev r)) eqn:E.
  - rewrite (drop_while_all _ _ E). simpl. now rewrite Hc.
  - rewrite rev_app_distr. reflexivity.
Qed.

Lemma lstrip_rstrip (s : pystr) :
  starts_in is_space s = false -> lstrip (rstrip s) = rstrip s.
Proof.
  destruct s as [|c r]; [reflexivity|].
  simpl. intros Hc. rewrite rstrip_cons by exact Hc.
  unfold lstrip. simpl. now rewrite Hc.
Qed.

Lemma strip_idem (s : pystr) : strip (strip s) = strip s.
Proof.
  unfold strip.
  rewrite lstrip_rstrip by apply drop_while_starts.
  apply rstrip_idem.
Qed.

Lemma strip_hspace_normal (s : pystr) :
  hspace_normal s = true -> hspace_normal (strip s) = true.
Proof.
  intros H. unfold strip.
  destruct (rstrip_prefix (lstrip s)) as [w Hw].
  apply (hspace_normal_prefix _ w). rewrite <- Hw.
  destruct (drop_while_suffix is_space s) as [a Ha].
  apply (hspace_normal_suffix a). unfold lstrip. now rewrite <- Ha.
Qed.

Lemma strip_newlines_normal (s : pystr) :
  newlines_normal s = true -> newlines_normal (strip s) = true.
Proof.
  intros H. unfold strip.
  destruct (rstrip_prefix (lstrip s)) as [w Hw].
  apply (newlines_normal_prefix _ w). rewrite <- Hw.
  destruct (drop_while_suffix is_space s) as [a Ha].
  apply (newlines_normal_suffix a). unfold lstrip. now rewrite <- Ha.
Qed.

Lemma clean_text_eq (t : pystr) :
  clean_text t = strip (sub_newlines (sub_hspace t)).
Proof. reflexivity. Qed.

(** The three normal forms that [clean_text] establishes. *)
Lemma clean_text_normal (t : pystr) :
  hspace_normal (clean_text t) = true
  /\ newlines_normal (clean_text t) = true
  /\ strip (clean_text t) = clean_text t.
Proof.
  rewrite clean_text_eq. repeat split.
  - apply strip_hspace_normal, sub_newlines_hspace, sub_hspace_normal.
  - apply strip_newlines_normal, sub_newlines_normal.
  - apply strip_idem.
Qed.

(** C8.  Cleaning is idempotent: [clean_text] replaces each run of
    whitespace other than newlines by one space, each run of three or more
    newlines by two, and trims; cleaning a cleaned text changes nothing. *)
Theorem clean_text_idempotent (t : pystr) :
  clean_text (clean_text t) = clean_text t.
Proof.
  destruct (clean_text_normal t) as (Hh & Hn & Hs).
  rewrite (clean_text_eq (clean_text t)).
  now rewrite (sub_hspace_fixed _ Hh), (sub_newlines_fixed _ Hn).
Qed.

End CleanText.

(** ** Strings, [sorted] and the required keys *)

Section Strings.

Lemma pystr_eqb_eq (a b : pystr) : pystr_eqb a b = true <-> a = b.
Proof.
  revert b. induction a as [|x a IH]; intros [|y b]; simpl;
    try (split; (reflexivity || discriminate)).
  rewrite andb_true_iff, N.eqb_eq, IH.
  split; [intros [-> ->]; reflexivity | intros [= -> ->]; auto].
Qed.

Lemma pystr_eqb_refl (a : pystr) : pystr_eqb a a = true.
Proof. now apply pystr_eqb_eq. Qed.

Lemma pystr_eqb_neq (a b : pystr) : pystr_eqb a b = false <-> a <> b.
Proof.
  rewrite <- pystr_eqb_eq. destruct (pystr_eqb a b); split; congruence.
Qed.

Lemma pystr_eqb_sym (a b : pystr) : pystr_eqb a b = pystr_eqb b a.
Proof.
  destruct (pystr_eqb a b) eqn:E; symmetry.
  - apply pystr_eqb_eq in E. subst. apply pystr_eqb_refl.
  - apply pystr_eqb_neq. apply pystr_eqb_neq in E. congruence.
Qed.


Lemma pystr_leb_total (a b : pystr) :
  pystr_leb a b = true \/ pystr_leb b a = true.
Proof.
  revert b. induction a as [|x a IH]; intros [|y b]; simpl; auto.
  destruct (N.ltb_spec x y), (N.ltb_spec y x); auto; lia.
Qed.

Lemma pystr_leb_trans (a b c : pystr) :
  pystr_leb a b = true -> pystr_leb b c = true -> pystr_leb a c = true.
Proof.
  revert b c. induction a as [|x a IH]; intros [|y b] [|z c]; simpl;
    try (reflexivity || discriminate).
  destruct (N.ltb_spec x y), (N.ltb_spec y x), (N.ltb_spec y z),
    (N.ltb_spec z y), (N.ltb_spec x z), (N.ltb_spec z x);
    try (reflexivity || discriminate || lia).
  apply IH.
Qed.

End Strings.

Section Sorting.

Lemma insert_sorted_perm x l : Permutation (x :: l) (insert_sorted x l).
Proof.
  induction l as [|y r IH]; simpl; [reflexivity|].
  destruct (pystr_leb x y); [reflexivity|].
  rewrite perm_swap. now apply perm_skip.
Qed.

Lemma sorted_perm l : Permutation l (sorted l).
Proof.
  induction l as [|x l IH]; simpl; [constructor|].
  rewrite <- insert_sorted_perm. now apply perm_skip.
Qed.

Lemma insert_sorted_hd x y l :
  leb_rel y x -> HdRel leb_rel y l -> HdRel leb_rel y (insert_sorted x l).
Proof.
  intros Hyx Hl. destruct l as [|z r]; simpl.
  - now constructor.
  - destruct (pystr_leb x z); constructor; [assumption|].
    now inversion Hl.
Qed.

Lemma insert_sorted_sorted x l :
  Sorted leb_rel l -> Sorted leb_rel (insert_sorted x l).
Proof.
  induction 1 as [|y r Hr IH Hhd]; simpl.
  - repeat constructor.
  - destruct (pystr_leb x y) eqn:E.
    + constructor; [now constructor | now constructor].
    + constructor; [exact IH|].
      apply insert_sorted_hd; [|exact Hhd].
      destruct (pystr_leb_total x y) as [H|H]; [congruence | exact H].
Qed.

Lemma sorted_sorted l : Sorted leb_rel (sorted l).
Proof.
  induction l as [|x l IH]; simpl; [constructor|].
  now apply insert_sorted_sorted.
Qed.

Lemma sorted_strongly l : StronglySorted leb_rel (sorted l).
Proof.
  apply Sorted_StronglySorted; [|apply sorted_sorted].
  intros a b c. apply pystr_leb_trans.
Qed.

Lemma sorted_In l k : In k (sorted l) <-> In k l.
Proof.
  split; apply Permutation_in; [symmetry|]; apply sorted_perm.
Qed.

Lemma sorted_NoDup l : NoDup l -> NoDup (sorted l).
Proof. apply Permutation_NoDup, sorted_perm. Qed.

End Sorting.

Section Parse.
Context {ucd : UnicodeData}.
Context {stack : Interpreter}.
Variable json_loads : pystr -> outcome pyval.

Lemma extract_json_block_blank (raw : pystr) :
  strip raw = [] -> exists e, _extract_json_block raw = Raise e.
Proof.
  intros H. unfold _extract_json_block. rewrite H. simpl. eauto.
Qed.

Lemma extract_json_block_nonblank (raw js : pystr) :
  _extract_json_block raw = Ok js ->
  pystr_eqb raw [] || pystr_eqb (strip raw) [] = false.
Proof.
  intros H.
  destruct (pystr_eqb (strip raw) []) eqn:E.
  - apply pystr_eqb_eq in E. destruct (extract_json_block_blank raw E) as [e He].
    congruence.
  - rewrite orb_false_r. apply pystr_eqb_neq. intros ->.
    now rewrite pystr_eqb_refl in E.
Qed.

Lemma REQUIRED_KEYS_NoDup : NoDup REQUIRED_KEYS.
Proof.
  unfold REQUIRED_KEYS.
  repeat constructor; simpl; intros H;
    repeat (destruct H as [H|H]; [apply pystr_eqb_eq in H; discriminate H|]);
    exact H.
Qed.

(** C2.  When the JSON text taken from the response decodes to an object
    that lacks at least one of the three required keys, [parse_llm_json]
    fails with an [ExtractionError] whose message lists the missing keys:
    each required key the object lacks, once, no other, in sorted order. *)
Theorem parse_llm_json_missing_keys (raw js : pystr)
      (data : list (pystr * pyval)) :
  _extract_json_block raw = Ok js ->
  json_loads js = Ok (PDict data) ->
  (exists k, In k REQUIRED_KEYS /\ dict_has data k = false) ->
  exists listed,
    parse_llm_json json_loads raw =
      Raise (ExtractionError
               (py "Відсутні обов'язкові ключі: " ++ join (py ", ") listed))
    /\ (forall k, In k listed <-> In k REQUIRED_KEYS /\ dict_has data k = false)
    /\ NoDup listed
    /\ StronglySorted leb_rel listed.
Proof.
  intros Hx Hj [k0 [Hk0 Hab]].
  exists (sorted (missing_keys data)).
  assert (Hin : forall k, In k (missing_keys data)
                          <-> In k REQUIRED_KEYS /\ dict_has data k = false).
  { intros k. unfold missing_keys. rewrite filter_In, negb_true_iff. tauto. }
  split; [|split; [|split]].
  - unfold parse_llm_json.
    rewrite (extract_json_block_nonblank raw js Hx), Hx.
    cbn [bind outcome_monad]. rewrite Hj.
    fold (missing_keys data).
    destruct (missing_keys data) as [|m ms] eqn:Em; [|reflexivity].
    exfalso. apply (proj2 (Hin k0)); auto.
  - intros k. rewrite sorted_In. apply Hin.
  - apply sorted_NoDup. apply NoDup_filter, REQUIRED_KEYS_NoDup.
  - apply sorted_strongly.
Qed.

End Parse.

Lemma parse_llm_json_missing_keys_witness :
  exists listed,
    parse_llm_json (ucd := ascii_only) (json.loads (ucd := ascii_only))
      (json_text "Sure: {'balance_start': {'1000': 5}} ok")
    = Raise (ExtractionError
               (py "Відсутні обов'язкові ключі: " ++ join (py ", ") listed))
    /\ (forall k, In k listed
                  <-> In k REQUIRED_KEYS
                      /\ dict_has [(py "balance_start", PDict [(py "1000", PInt 5)])] k
                         = false)
    /\ NoDup listed
    /\ StronglySorted leb_rel listed.
Proof.
  apply (parse_llm_json_missing_keys (ucd := ascii_only)
           (json.loads (ucd := ascii_only))
           (json_text "Sure: {'balance_start': {'1000': 5}} ok")
           (json_text "{'balance_start': {'1000': 5}}")
           [(py "balance_start", PDict [(py "1000", PInt 5)])]).
  - reflexivity.
  - reflexivity.
  - exists (py "balance_end"). split; [right; left; reflexivity | reflexivity].
Defined.

(** The message for an object with [balance_start] only. *)
Lemma parse_llm_json_missing_two :
  parse_llm_json (ucd := ascii_only) (json.loads (ucd := ascii_only))
    (json_text "{'balance_start': {'1000': 5}}")
  = Raise (ExtractionError
             (py "Відсутні обов'язкові ключі: balance_end, income_current")).
Proof. vm_compute. reflexivity. Qed.

(** ** The fence pattern *)

Section Fence.

Lemma FENCE_eq : FENCE = [BACKTICK; BACKTICK; BACKTICK].
Proof. reflexivity. Qed.

Lemma starts_with_fence_cons c s :
  c <> BACKTICK -> starts_with FENCE (c :: s) = false.
Proof.
  intros H. rewrite FENCE_eq. cbn [starts_with].
  destruct (N.eqb_spec BACKTICK c); [congruence | reflexivity].
Qed.

(** Whether the fence starts a string is decided by its first three
    characters: text appended after a character that is no backtick does
    not matter. *)
Lemma starts_with_fence_app (a b : pystr) :
  not_starting_with BACKTICK b ->
  starts_with FENCE (a ++ b) = starts_with FENCE a.
Proof.
  intros Hb. rewrite FENCE_eq.
  destruct b as [|c b'].
  - now rewrite app_nil_r.
  - cbn [not_starting_with] in Hb.
    assert (Hc : (BACKTICK =? c)%N = false) by now apply N.eqb_neq, not_eq_sym.
    destruct a as [|x [|y [|z a]]]; cbn [starts_with app];
      rewrite ?Hc, ?andb_false_l, ?andb_false_r; reflexivity.
Qed.

Lemma contains_cons marker c s :
  contains marker (c :: s) = starts_with marker (c :: s) || contains marker s.
Proof. reflexivity. Qed.

Lemma contains_fence_app (a b : pystr) :
  not_starting_with BACKTICK b ->
  contains FENCE (a ++ b) = contains FENCE a || contains FENCE b.
Proof.
  intros Hb. induction a as [|c a IH].
  - simpl app. change (contains FENCE []) with false. reflexivity.
  - change ((c :: a) ++ b) with (c :: (a ++ b)).
    rewrite !contains_cons, IH.
    change (c :: (a ++ b)) with ((c :: a) ++ b).
    rewrite (starts_with_fence_app _ _ Hb). now rewrite orb_assoc.
Qed.

Lemma contains_suffix marker (a b : pystr) :
  contains marker (a ++ b) = false -> contains marker b = false.
Proof.
  induction a as [|c a IH]; [trivial|].
  change ((c :: a) ++ b) with (c :: (a ++ b)). rewrite contains_cons.
  intros H. apply orb_false_elim in H. now apply IH.
Qed.

Lemma contains_starts marker (s : pystr) :
  contains marker s = false -> starts_with marker s = false.
Proof.
  destruct s; simpl; intros H; apply orb_false_elim in H; tauto.
Qed.

Lemma not_ending_suffix x (a b : pystr) :
  b <> [] -> not_ending_with x (a ++ b) -> not_ending_with x b.
Proof.
  intros Hb [H|(p & z & H & Hz)].
  - apply app_eq_nil in H. tauto.
  - destruct (exists_last Hb) as (q & w & ->).
    rewrite app_assoc in H. apply app_inj_tail in H. destruct H as [_ ->].
    right. eauto.
Qed.

(** No fence starts inside a fence-free string that does not end with a
    backtick, whatever follows it. *)
Lemma starts_with_fence_inside (s rest : pystr) :
  s <> [] -> contains FENCE s = false -> not_ending_with BACKTICK s ->
  starts_with FENCE (s ++ rest) = false.
Proof.
  intros Hs Hc [->|(b & z & -> & Hz)]; [congruence|].
  rewrite <- app_assoc. simpl app.
  rewrite starts_with_fence_app by exact Hz.
  rewrite contains_fence_app in Hc by exact Hz.
  apply orb_false_elim in Hc. now apply contains_starts.
Qed.

Lemma match_group_closing (s post : pystr) :
  contains FENCE s = false -> not_ending_with BACKTICK s ->
  match_group (s ++ FENCE ++ post) = Some (chop_newline s).
Proof.
  induction s as [|c s IH]; intros Hc He.
  - simpl app. unfold match_group.
    destruct post; simpl; now rewrite ?orb_true_r.
  - assert (Hin : starts_with FENCE ((c :: s) ++ FENCE ++ post) = false)
      by (apply starts_with_fence_inside; congruence || assumption).
    destruct s as [|d s].
    + simpl app in *. cbn [match_group]. rewrite Hin, orb_false_r.
      cbn [starts_with chop_newline].
      unfold is_newline. rewrite N.eqb_sym.
      destruct (c =? NL)%N eqn:E; simpl.
      * destruct post; reflexivity.
      * destruct post; reflexivity.
    + assert (Hc' : contains FENCE (d :: s) = false)
        by (apply (contains_suffix FENCE [c]); exact Hc).
      assert (He' : not_ending_with BACKTICK (d :: s))
        by (apply not_ending_suffix with (a := [c]); congruence || assumption).
      assert (Hin' : starts_with FENCE ((d :: s) ++ FENCE ++ post) = false)
        by (apply starts_with_fence_inside; congruence || assumption).
      specialize (IH Hc' He').
      change ((c :: d :: s) ++ FENCE ++ post)
        with (c :: ((d :: s) ++ FENCE ++ post)) in *.
      cbn [match_group]. rewrite Hin, orb_false_r.
      cbn [starts_with]. rewrite Hin', andb_false_r.
      rewrite IH. reflexivity.
Qed.

End Fence.

(** ** Fenced and prose-wrapped responses *)

Section Wrappers.

(** *** The opening of the fence *)

Lemma match_spaces_not_space (y : pystr) :
  starts_in is_space y = false -> match_spaces y = match_group y.
Proof.
  destruct y as [|c y]; [reflexivity|].
  cbn [starts_in match_spaces match_newline]. intros E. rewrite E.
  assert (En : is_newline c = false).
  { unfold is_newline. destruct (N.eqb_spec c NL) as [->|]; [discriminate E|reflexivity]. }
  now rewrite En.
Qed.

Lemma match_spaces_skip (sp y g : pystr) :
  all_space sp -> starts_in is_space y = false ->
  match_group y = Some g -> match_spaces (sp ++ y) = Some g.
Proof.
  intros Hsp Hy Hg. induction sp as [|c sp IH].
  - simpl app. now rewrite match_spaces_not_space.
  - unfold all_space in *. cbn [forallb] in Hsp.
    apply andb_prop in Hsp. destruct Hsp as [Hc Hsp].
    change ((c :: sp) ++ y) with (c :: (sp ++ y)).
    cbn [match_spaces]. now rewrite Hc, (IH Hsp).
Qed.

Lemma starts_with_json_space (sp y : pystr) :
  all_space sp -> starts_in (N.eqb LBRACE) y = true ->
  starts_with (py "json") (sp ++ y) = false.
Proof.
  intros Hsp Hy. destruct sp as [|c sp].
  - destruct y as [|d y]; [discriminate|].
    cbn [starts_in] in Hy. apply N.eqb_eq in Hy. subst d. reflexivity.
  - unfold all_space in Hsp. cbn [forallb] in Hsp.
    apply andb_prop in Hsp. destruct Hsp as [Hc _].
    change (py "json") with [106%N; 115%N; 111%N; 110%N].
    cbn [app starts_with].
    destruct (N.eqb_spec 106 c) as [<-|]; [discriminate Hc | reflexivity].
Qed.

Lemma match_tag_fenced (tag sp y g : pystr) :
  tag = [] \/ tag = py "json" ->
  all_space sp -> starts_in (N.eqb LBRACE) y = true ->
  match_group y = Some g ->
  match_tag (tag ++ sp ++ y) = Some g.
Proof.
  intros Ht Hsp Hy Hg.
  assert (Hns : starts_in is_space y = false).
  { destruct y as [|d y]; [discriminate|].
    cbn [starts_in] in *. apply N.eqb_eq in Hy. now subst d. }
  pose proof (match_spaces_skip sp y g Hsp Hns Hg) as Hm.
  unfold match_tag. destruct Ht as [->| ->].
  - simpl app. now rewrite (starts_with_json_space sp y Hsp Hy).
  - change (skipn 4 (py "json" ++ sp ++ y)) with (sp ++ y).
    change (starts_with (py "json") (py "json" ++ sp ++ y)) with true.
    cbv iota. now rewrite Hm.
Qed.

Lemma fence_search_fenced (x g : pystr) :
  match_tag x = Some g -> fence_search (FENCE ++ x) = Some g.
Proof.
  intros H.
  change (FENCE ++ x) with (BACKTICK :: BACKTICK :: BACKTICK :: x).
  cbn [fence_search].
  change (starts_with FENCE (BACKTICK :: BACKTICK :: BACKTICK :: x)) with true.
  cbv iota. change (skipn 3 (BACKTICK :: BACKTICK :: BACKTICK :: x)) with x.
  now rewrite H.
Qed.

Lemma fence_search_none (s : pystr) :
  contains FENCE s = false -> fence_search s = None.
Proof.
  induction s as [|c s IH]; [reflexivity|].
  rewrite contains_cons. intros H. apply orb_false_elim in H. destruct H as [H1 H2].
  cbn [fence_search]. now rewrite H1, (IH H2).
Qed.


Lemma lstrip_app (w x : pystr) :
  all_space w -> starts_in is_space x = false -> lstrip (w ++ x) = x.
Proof.
  intros Hw Hx. unfold lstrip. rewrite drop_while_app, Hw.
  now apply drop_while_not_starting.
Qed.

Lemma all_space_rev (w : pystr) : all_space w -> all_space (rev w).
Proof.
  unfold all_space. rewrite !forallb_forall. intros H c Hc.
  apply H. now apply in_rev.
Qed.

Lemma rstrip_app (x w : pystr) :
  all_space w -> ends_in is_space x = false -> rstrip (x ++ w) = x.
Proof.
  intros Hw Hx. unfold rstrip. rewrite rev_app_distr.
  rewrite drop_while_app, (all_space_rev w Hw).
  rewrite drop_while_not_starting by exact Hx. apply rev_involutive.
Qed.

Lemma strip_around (w0 x w1 : pystr) :
  all_space w0 -> all_space w1 ->
  starts_in is_space x = false -> ends_in is_space x = false ->
  strip (w0 ++ x ++ w1) = x.
Proof.
  intros H0 H1 Hs He. unfold strip.
  destruct x as [|c x].
  - simpl app. unfold lstrip.
    rewrite (drop_while_all is_space (w0 ++ w1)); [reflexivity|].
    unfold all_space in *. rewrite forallb_app, H0, H1. reflexivity.
  - rewrite lstrip_app; [ | exact H0 | exact Hs].
    now apply rstrip_app.
Qed.

Lemma ends_in_last cls (b : pystr) z : ends_in cls (b ++ [z]) = cls z.
Proof. unfold ends_in. now rewrite rev_app_distr. Qed.

(** *** The brace matcher *)

Lemma len_cons c (s : pystr) : len (c :: s) = 1 + len s.
Proof. unfold len. simpl List.length. lia. Qed.

Lemma scan_braces_found (s : pystr) : forall d i k,
  scan_braces s d i = Some k ->
  exists a b, s = a ++ RBRACE :: b /\ k = i + len a.
Proof.
  induction s as [|c s IH]; intros d i k H; [discriminate|].
  cbn [scan_braces] in H.
  destruct (N.eqb_spec c LBRACE).
  - destruct (IH _ _ _ H) as (a & b & -> & ->).
    exists (c :: a), b. rewrite len_cons. split; [reflexivity | lia].
  - destruct (N.eqb_spec c RBRACE) as [->|].
    + destruct (d - 1 =? 0).
      * injection H as <-. exists [], s. split; [reflexivity|]. unfold len. simpl. lia.
      * destruct (IH _ _ _ H) as (a & b & -> & ->).
        exists (RBRACE :: a), b. rewrite len_cons. split; [reflexivity | lia].
    + destruct (IH _ _ _ H) as (a & b & -> & ->).
      exists (c :: a), b. rewrite len_cons. split; [reflexivity | lia].
Qed.

Lemma scan_braces_app (s x : pystr) : forall d i k,
  scan_braces s d i = Some k -> scan_braces (s ++ x) d i = Some k.
Proof.
  induction s as [|c s IH]; intros d i k H; [discriminate|].
  change ((c :: s) ++ x) with (c :: (s ++ x)).
  cbn [scan_braces] in *.
  destruct (c =? LBRACE)%N; [now apply IH|].
  destruct (c =? RBRACE)%N; [|now apply IH].
  destruct (d - 1 =? 0); [exact H | now apply IH].
Qed.

Lemma scan_braces_shift (s : pystr) : forall d i n k,
  scan_braces s d i = Some k -> scan_braces s d (i + n) = Some (k + n).
Proof.
  induction s as [|c s IH]; intros d i n k H; [discriminate|].
  cbn [scan_braces] in *.
  replace (i + n + 1) with (i + 1 + n) by lia.
  destruct (c =? LBRACE)%N; [now apply IH|].
  destruct (c =? RBRACE)%N; [|now apply IH].
  destruct (d - 1 =? 0); [|now apply IH].
  injection H as <-. reflexivity.
Qed.

Lemma object_text_shape (J : pystr) :
  object_text J -> exists body, J = LBRACE :: body ++ [RBRACE].
Proof.
  intros [Hs Hscan].
  destruct J as [|c J]; [discriminate|].
  cbn [starts_in] in Hs. apply N.eqb_eq in Hs. subst c.
  destruct (scan_braces_found _ _ _ _ Hscan) as (a & b & E & Hk).
  assert (Hb : b = []).
  { apply (f_equal len) in E. rewrite len_app, !len_cons in E.
    rewrite len_cons in Hk.
    destruct b; [reflexivity|]. rewrite len_cons in E.
    pose proof (len_nonneg b). lia. }
  subst b. destruct a as [|c a].
  - discriminate E.
  - injection E as <- ->. now exists a.
Qed.

Lemma object_text_edges (J : pystr) :
  object_text J ->
  starts_in is_space J = false /\ ends_in is_space J = false
  /\ not_starting_with BACKTICK J /\ not_ending_with BACKTICK J.
Proof.
  intros H. destruct (object_text_shape J H) as [body ->].
  repeat split.
  - change (LBRACE :: body ++ [RBRACE]) with ((LBRACE :: body) ++ [RBRACE]).
    now rewrite ends_in_last.
  - discriminate.
  - right. exists (LBRACE :: body), RBRACE. split; [reflexivity | discriminate].
Qed.


(** *** Slices and [find] *)

Lemma find_char_skip x (a r : pystr) :
  ~ In x a -> find_char x (a ++ x :: r) = len a.
Proof.
  induction a as [|c a IH]; intros Hn.
  - simpl. now rewrite N.eqb_refl.
  - change ((c :: a) ++ x :: r) with (c :: (a ++ x :: r)).
    cbn [find_char]. rewrite IH by (intros H; apply Hn; now right).
    destruct (N.eqb_spec c x) as [->|]; [exfalso; apply Hn; now left|].
    pose proof (len_nonneg a). rewrite len_cons.
    destruct (Z.ltb_spec (len a) 0); lia.
Qed.

Lemma slice_from_app (a y : pystr) : slice_from (a ++ y) (len a) = y.
Proof.
  unfold slice_from. pose proof (len_nonneg a).
  destruct (Z.ltb_spec (len a) 0); [lia|].
  unfold len. rewrite Nat2Z.id.
  rewrite skipn_app, skipn_all, Nat.sub_diag. reflexivity.
Qed.

Lemma slice_to_app (a y : pystr) : slice_to (a ++ y) (len a) = a.
Proof.
  unfold slice_to. pose proof (len_nonneg a).
  destruct (Z.ltb_spec (len a) 0); [lia|].
  unfold len. rewrite Nat2Z.id.
  rewrite firstn_app, firstn_all, Nat.sub_diag. simpl. apply app_nil_r.
Qed.

Lemma slice_middle (a x b : pystr) :
  slice (a ++ x ++ b) (len a) (len a + len x) = x.
Proof.
  unfold slice. rewrite app_assoc, <- len_app, slice_to_app.
  apply slice_from_app.
Qed.

(** *** Fences in concatenations *)

Lemma starts_with_prefix m (a b : pystr) :
  starts_with m a = true -> starts_with m (a ++ b) = true.
Proof.
  revert a. induction m as [|x m IH]; intros a; [reflexivity|].
  destruct a as [|c a]; [discriminate|].
  cbn [starts_with app]. intros H. apply andb_prop in H. destruct H as [-> H].
  now rewrite (IH a H).
Qed.

Lemma contains_prefix m (a b : pystr) :
  contains m (a ++ b) = false -> contains m a = false.
Proof.
  induction a as [|c a IH].
  - intros H. destruct m as [|x m]; [|reflexivity].
    destruct b; discriminate H.
  - change ((c :: a) ++ b) with (c :: (a ++ b)). rewrite !contains_cons.
    intros H. apply orb_false_elim in H. destruct H as [H1 H2].
    rewrite (IH H2), orb_false_r.
    destruct (starts_with m (c :: a)) eqn:E; [|reflexivity].
    change (c :: (a ++ b)) with ((c :: a) ++ b) in H1.
    now rewrite (starts_with_prefix m (c :: a) b E) in H1.
Qed.

Lemma contains_fence_no_backtick (s : pystr) :
  ~ In BACKTICK s -> contains FENCE s = false.
Proof.
  induction s as [|c s IH]; intros Hn; [reflexivity|].
  rewrite contains_cons, IH by (intros H; apply Hn; now right).
  rewrite starts_with_fence_cons; [reflexivity|].
  intros ->. apply Hn. now left.
Qed.

Lemma all_space_no_backtick (s : pystr) : all_space s -> ~ In BACKTICK s.
Proof.
  unfold all_space. rewrite forallb_forall. intros H Hin.
  specialize (H _ Hin). discriminate H.
Qed.

Lemma all_space_not_starting (s : pystr) :
  all_space s -> not_starting_with BACKTICK s.
Proof.
  destruct s as [|c s]; [exact (fun _ => I)|].
  intros H ->. discriminate H.
Qed.

Lemma contains_fence_object (J x : pystr) :
  object_text J -> contains FENCE J = false ->
  contains FENCE x = false ->
  contains FENCE (J ++ x) = false.
Proof.
  intros HJ Hc Hx. destruct (object_text_shape J HJ) as [body ->].
  change (LBRACE :: body ++ [RBRACE]) with ((LBRACE :: body) ++ [RBRACE]) in *.
  rewrite <- app_assoc. simpl ([RBRACE] ++ x).
  rewrite contains_fence_app by discriminate.
  rewrite (contains_prefix _ _ _ Hc), contains_cons, Hx.
  now rewrite starts_with_fence_cons by discriminate.
Qed.


(** *** The three shapes of a response *)

Lemma lstrip_keep (a y : pystr) :
  starts_in is_space y = false -> lstrip (a ++ y) = lstrip a ++ y.
Proof.
  intros Hy. unfold lstrip. rewrite drop_while_app.
  destruct (forallb is_space a) eqn:E; [|reflexivity].
  rewrite (drop_while_all _ _ E). now apply drop_while_not_starting.
Qed.

Lemma rstrip_keep (y b : pystr) :
  ends_in is_space y = false -> rstrip (y ++ b) = y ++ rstrip b.
Proof.
  intros Hy. unfold rstrip. rewrite rev_app_distr, drop_while_app.
  destruct (forallb is_space (rev b)) eqn:E.
  - rewrite (drop_while_all _ _ E). simpl. rewrite app_nil_r.
    rewrite drop_while_not_starting by exact Hy. apply rev_involutive.
  - now rewrite rev_app_distr, rev_involutive.
Qed.

Lemma ends_in_app cls (a y : pystr) :
  y <> [] -> ends_in cls (a ++ y) = ends_in cls y.
Proof.
  intros Hy. destruct (exists_last Hy) as (q & z & ->).
  now rewrite app_assoc, !ends_in_last.
Qed.

Lemma starts_in_app_nonempty cls (y b : pystr) :
  y <> [] -> starts_in cls (y ++ b) = starts_in cls y.
Proof. destruct y; [congruence | reflexivity]. Qed.

(** A bare object between prose. *)
Lemma extract_json_block_prose (J pre post : pystr) :
  object_text J -> contains FENCE J = false ->
  contains FENCE pre = false -> ~ In LBRACE pre ->
  contains FENCE post = false ->
  _extract_json_block (pre ++ J ++ post) = Ok J.
Proof.
  intros HJ HcJ Hcpre Hbpre Hcpost.
  destruct (object_text_edges J HJ) as (Hs & He & Hnb & _).
  destruct (object_text_shape J HJ) as [body EJ].
  assert (HJne : J <> []) by (subst J; discriminate).
  unfold _extract_json_block.
  assert (Estrip : strip (pre ++ J ++ post) = lstrip pre ++ J ++ rstrip post).
  { unfold strip. rewrite lstrip_keep by now rewrite starts_in_app_nonempty.
    rewrite app_assoc, rstrip_keep by now rewrite ends_in_app.
    now rewrite <- app_assoc. }
  rewrite Estrip.
  destruct (drop_while_suffix is_space pre) as [w0 Hw0]. fold (lstrip pre) in Hw0.
  destruct (rstrip_prefix post) as [w1 Hw1].
  set (pre' := lstrip pre) in *. set (post' := rstrip post) in *.
  assert (Hcpre' : contains FENCE pre' = false)
    by (apply (contains_suffix FENCE w0); now rewrite <- Hw0).
  assert (Hbpre' : ~ In LBRACE pre').
  { intros H. apply Hbpre. rewrite Hw0. apply in_or_app. now right. }
  assert (Hcpost' : contains FENCE post' = false)
    by (apply (contains_prefix FENCE post' w1); now rewrite <- Hw1).
  rewrite fence_search_none.
  2:{ rewrite contains_fence_app, Hcpre'.
      - now apply contains_fence_object.
      - subst J. discriminate. }
  assert (Efind : find_char LBRACE (pre' ++ J ++ post') = len pre').
  { rewrite EJ. simpl app. now apply find_char_skip. }
  rewrite Efind. pose proof (len_nonneg pre') as Hlen.
  destruct (Z.eqb_spec (len pre') (-1)); [lia|].
  rewrite slice_from_app.
  destruct HJ as [_ Hscan].
  apply (scan_braces_app J post') in Hscan.
  apply (scan_braces_shift _ _ _ (len pre')) in Hscan. simpl Z.add in Hscan.
  rewrite Hscan.
  replace (len J - 1 + len pre' + 1) with (len pre' + len J) by lia.
  now rewrite slice_middle.
Qed.

(** The object alone. *)
Lemma extract_json_block_bare (J : pystr) :
  object_text J -> contains FENCE J = false -> _extract_json_block J = Ok J.
Proof.
  intros HJ Hc.
  pose proof (extract_json_block_prose J [] [] HJ Hc eq_refl (fun H => H) eq_refl) as H.
  simpl app in H. now rewrite app_nil_r in H.
Qed.

Lemma chop_newline_split (s : pystr) :
  exists t, s = chop_newline s ++ t /\ (t = [] \/ t = [NL]).
Proof.
  induction s as [|c s IH].
  - exists []. auto.
  - destruct s as [|d s].
    + cbn [chop_newline]. destruct (is_newline c) eqn:E.
      * exists [NL]. apply is_newline_eq in E. subst c. auto.
      * exists []. auto.
    + destruct IH as (t & Ht & Hcase). exists t. split; [|exact Hcase].
      change (chop_newline (c :: d :: s) ++ t)
        with (c :: (chop_newline (d :: s) ++ t)).
      f_equal. exact Ht.
Qed.

Lemma last_case (s : pystr) : s = [] \/ exists q z, s = q ++ [z].
Proof.
  destruct s as [|c s]; [now left|].
  right. assert (H : c :: s <> []) by discriminate.
  destruct (exists_last H) as (q & z & E). eauto.
Qed.

Lemma chop_newline_object (J sp : pystr) :
  object_text J -> all_space sp ->
  exists sp', chop_newline (J ++ sp) = J ++ sp' /\ all_space sp'.
Proof.
  intros HJ Hsp.
  destruct (chop_newline_split (J ++ sp)) as (t & Ht & [->| ->]).
  - exists sp. rewrite app_nil_r in Ht. now rewrite <- Ht.
  - destruct (object_text_shape J HJ) as [body EJ].
    destruct (last_case sp) as [->|(q & z & ->)].
    + rewrite app_nil_r in Ht. rewrite EJ in Ht at 1.
      change (LBRACE :: body ++ [RBRACE]) with ((LBRACE :: body) ++ [RBRACE]) in Ht.
      apply app_inj_tail in Ht. destruct Ht as [_ Ht]. discriminate Ht.
    + rewrite app_assoc in Ht. apply app_inj_tail in Ht. destruct Ht as [Ht _].
      exists q. split; [now rewrite app_assoc, <- Ht|].
      unfold all_space in *. rewrite forallb_app in Hsp.
      now apply andb_prop in Hsp.
Qed.

(** The object in a fenced block. *)
Lemma extract_json_block_fenced (J tag w0 sp1 sp2 w1 : pystr) :
  object_text J -> contains FENCE J = false ->
  tag = [] \/ tag = py "json" ->
  all_space w0 -> all_space sp1 -> all_space sp2 -> all_space w1 ->
  _extract_json_block
    (w0 ++ (FENCE ++ tag ++ sp1 ++ J ++ sp2 ++ FENCE) ++ w1) = Ok J.
Proof.
  intros HJ HcJ Htag H0 H1 H2 H3.
  destruct (object_text_edges J HJ) as (Hs & He & Hnb & Hne).
  assert (HJne : J <> []) by (destruct HJ as [HJ _]; destruct J; discriminate || congruence).
  unfold _extract_json_block.
  rewrite strip_around; [ | exact H0 | exact H3 | reflexivity | ].
  2:{ replace (FENCE ++ tag ++ sp1 ++ J ++ sp2 ++ FENCE)
        with ((FENCE ++ tag ++ sp1 ++ J ++ sp2) ++ FENCE)
        by now rewrite <- !app_assoc.
      now rewrite ends_in_app by discriminate. }
  destruct (chop_newline_object J sp2 HJ H2) as (sp' & Hchop & Hsp').
  assert (Hg : match_group (J ++ sp2 ++ FENCE) = Some (J ++ sp')).
  { rewrite <- Hchop.
    replace (J ++ sp2 ++ FENCE) with ((J ++ sp2) ++ FENCE ++ [])
      by now rewrite app_nil_r, <- app_assoc.
    apply match_group_closing.
    - rewrite contains_fence_app by now apply all_space_not_starting.
      rewrite HcJ. now apply contains_fence_no_backtick, all_space_no_backtick.
    - destruct (last_case sp2) as [->|(q & z & ->)].
      + now rewrite app_nil_r.
      + right. exists (J ++ q), z. split; [now rewrite app_assoc|].
        intros ->. unfold all_space in H2. rewrite forallb_app in H2.
        apply andb_prop in H2. destruct H2 as [_ H2]. discriminate H2. }
  rewrite (fence_search_fenced _ (J ++ sp')).
  - f_equal. rewrite <- (app_nil_l (J ++ sp')). now apply strip_around.
  - apply match_tag_fenced; try assumption.
    destruct HJ as [HJ _]. now rewrite starts_in_app_nonempty.
Qed.

End Wrappers.

Section ParseWrappers.
Context {ucd : UnicodeData}.
Context {stack : Interpreter}.
Variable json_loads : pystr -> outcome pyval.

Lemma parse_llm_json_same_block (a b j : pystr) :
  _extract_json_block a = Ok j -> _extract_json_block b = Ok j ->
  parse_llm_json json_loads a = parse_llm_json json_loads b.
Proof.
  intros Ha Hb. unfold parse_llm_json.
  now rewrite (extract_json_block_nonblank a j Ha),
              (extract_json_block_nonblank b j Hb), Ha, Hb.
Qed.

(** C3, as stated, fails: the brace matcher counts the braces inside string
    values too.  An object whose company name is an opening brace never
    brings the depth back to zero, so the span runs to the end of the
    response: alone the object parses, with prose after it the span is no
    JSON. *)
Lemma brace_in_string_breaks_prose :
  (exists data,
     parse_llm_json (ucd := ascii_only) (stack := roomy_stack)
       (json.loads (ucd := ascii_only))
       (json_text "{'company_name':'{','balance_start':{},'balance_end':{},'income_current':{}}")
     = Ok data)
  /\ (exists e,
        parse_llm_json (ucd := ascii_only) (stack := roomy_stack)
          (json.loads (ucd := ascii_only))
          (py "Result: "
           ++ json_text "{'company_name':'{','balance_start':{},'balance_end':{},'income_current':{}}"
           ++ py " Thanks.")
        = Raise (ExtractionError (py "Не вдалося розпарсити JSON: " ++ e))).
Proof. split; eexists; vm_compute; reflexivity. Qed.

(** A triple backtick inside a string value ends the fenced block early:
    the object alone parses, in a fenced block what is left of it is no
    JSON. *)
Lemma fence_in_string_breaks_fenced :
  (exists data,
     parse_llm_json (ucd := ascii_only) (stack := roomy_stack)
       (json.loads (ucd := ascii_only))
       (json_text "{'company_name':'```','balance_start':{},'balance_end':{},'income_current':{}}")
     = Ok data)
  /\ (exists e,
        parse_llm_json (ucd := ascii_only) (stack := roomy_stack)
          (json.loads (ucd := ascii_only))
          (FENCE ++ py "json" ++ [NL]
           ++ json_text "{'company_name':'```','balance_start':{},'balance_end':{},'income_current':{}}"
           ++ [NL] ++ FENCE)
        = Raise (ExtractionError (py "Не вдалося розпарсити JSON: " ++ e))).
Proof. split; eexists; vm_compute; reflexivity. Qed.

(** C3, amended.  Let [J] be an object text that holds no triple backtick
    and whose braces, counted as the matcher counts them (those inside
    strings included), close at its last character.  Then the response that
    wraps [J] in a fenced block, tagged [json] or not, with whitespace
    around [J] and around the block, and the response that puts [J] between
    prose (no triple backtick in the prose, no opening brace before [J])
    both parse to what [J] alone parses to. *)
Theorem parse_llm_json_wrappers (J tag w0 sp1 sp2 w1 pre post : pystr) :
  object_text J -> contains FENCE J = false ->
  tag = [] \/ tag = py "json" ->
  all_space w0 -> all_space sp1 -> all_space sp2 -> all_space w1 ->
  contains FENCE pre = false -> existsb (N.eqb LBRACE) pre = false ->
  contains FENCE post = false ->
  parse_llm_json json_loads
    (w0 ++ (FENCE ++ tag ++ sp1 ++ J ++ sp2 ++ FENCE) ++ w1)
  = parse_llm_json json_loads J
  /\ parse_llm_json json_loads (pre ++ J ++ post)
     = parse_llm_json json_loads J.
Proof.
  intros HJ Hc Htag H0 H1 H2 H3 Hpre Hbr Hpost.
  assert (Hbr' : ~ In LBRACE pre).
  { intros Hin.
    assert (E : existsb (N.eqb LBRACE) pre = true)
      by (apply existsb_exists; exists LBRACE; split;
          [exact Hin | apply N.eqb_refl]).
    congruence. }
  pose proof (extract_json_block_bare J HJ Hc) as Hbare.
  split; apply parse_llm_json_same_block with (j := J); try exact Hbare.
  - now apply extract_json_block_fenced.
  - now apply extract_json_block_prose.
Qed.

End ParseWrappers.

Lemma parse_llm_json_wrappers_witness :
  parse_llm_json (ucd := ascii_only) (json.loads (ucd := ascii_only))
    ([] ++ (FENCE ++ py "json" ++ [NL]
            ++ json_text "{'balance_start':{'1000':'732,8'},'balance_end':{},'income_current':{}}"
            ++ [NL] ++ FENCE) ++ [NL])
  = parse_llm_json (ucd := ascii_only) (json.loads (ucd := ascii_only))
      (json_text "{'balance_start':{'1000':'732,8'},'balance_end':{},'income_current':{}}")
  /\ parse_llm_json (ucd := ascii_only) (json.loads (ucd := ascii_only))
       (py "Here is the data: "
        ++ json_text "{'balance_start':{'1000':'732,8'},'balance_end':{},'income_current':{}}"
        ++ py " Done.")
     = parse_llm_json (ucd := ascii_only) (json.loads (ucd := ascii_only))
         (json_text "{'balance_start':{'1000':'732,8'},'balance_end':{},'income_current':{}}").
Proof.
  apply (parse_llm_json_wrappers (ucd := ascii_only)
           (json.loads (ucd := ascii_only)));
    try reflexivity.
  - split; reflexivity.
  - right. reflexivity.
Defined.

(** ** [_to_float] and [_normalize_section] *)

Section Dicts.
Variable V : Type.

Lemma dict_get_set (d : list (pystr * V)) (k k' : pystr) (v : V) :
  dict_get (dict_set d k v) k' =
  if pystr_eqb k k' then Some v else dict_get d k'.
Proof.
  induction d as [|[k0 v0] d IH].
  - reflexivity.
  - cbn [dict_set]. destruct (pystr_eqb k0 k) eqn:E0.
    + apply pystr_eqb_eq in E0. subst k0. cbn [dict_get].
      destruct (pystr_eqb k k'); reflexivity.
    + cbn [dict_get]. rewrite IH.
      destruct (pystr_eqb k0 k') eqn:E1; [|reflexivity].
      apply pystr_eqb_eq in E1. subst k0. now rewrite pystr_eqb_sym, E0.
Qed.
End Dicts.

Section ToFloat.
Context {ucd : UnicodeData}.
Context {stack : Interpreter}.

Lemma strip_length (s : pystr) : (List.length (strip s) <= List.length s)%nat.
Proof.
  unfold strip, rstrip, lstrip. rewrite length_rev.
  etransitivity; [apply drop_while_length|]. rewrite length_rev.
  apply drop_while_length.
Qed.

Lemma paren_match_length (s inner : pystr) :
  paren_match s = Some inner -> (List.length inner < List.length s)%nat.
Proof.
  unfold paren_match. destruct s as [|c r]; [discriminate|].
  destruct (rev r) as [|d ri] eqn:Er; [discriminate|].
  destruct (_ && _); [|discriminate].
  intros [= <-]. rewrite length_rev.
  apply (f_equal (@List.length _)) in Er. rewrite length_rev in Er.
  simpl in *. lia.
Qed.

(** One step of the [str] branch *)
Lemma _to_float_str_unfold (budget : nat) (val : pystr) :
  _to_float_str budget val
  = let s := strip val in
    if pystr_eqb s [] || pystr_eqb s (py "-")
       || pystr_eqb (lower s) (py "null") || pystr_eqb (lower s) (py "none")
    then Ok None
    else
      match budget with
      | O => Raise (RecursionError (py "maximum recursion depth exceeded"))
      | S budget' =>
        match paren_match s with
        | Some inner =>
            inner <- _to_float_str budget' inner ;;
            Ok (match inner with
                | Some x => Some (float_neg x)
                | None => None
                end)
        | None =>
            Ok (float_of_str
                  (replace_char 160%N []
                     (replace_char SP [] (replace_char 44%N (py ".") s))))
        end
      end.
Proof. destruct budget; reflexivity. Qed.

(** What a call returns, it returns on every roomier stack. *)
Lemma _to_float_str_more (n : nat) : forall s r,
  _to_float_str n s = Ok r -> _to_float_str (S n) s = Ok r.
Proof.
  induction n as [|n IH]; intros s r; rewrite (_to_float_str_unfold (S _));
    rewrite (_to_float_str_unfold _ s); cbv zeta;
    (destruct (_ || _); [trivial|]); [discriminate|].
  destruct (paren_match (strip s)) as [inner|]; [|trivial].
  destruct (_to_float_str n inner) as [x|e] eqn:E; [|discriminate].
  now rewrite (IH _ _ E).
Qed.

(** The only exception of the [str] branch is the [RecursionError]. *)
Lemma _to_float_str_raises (n : nat) : forall s e,
  _to_float_str n s = Raise e ->
  e = RecursionError (py "maximum recursion depth exceeded").
Proof.
  induction n as [|n IH]; intros s e; rewrite _to_float_str_unfold; cbv zeta;
    (destruct (_ || _); [discriminate|]); [now intros [= <-]|].
  destruct (paren_match (strip s)) as [inner|]; [|discriminate].
  destruct (_to_float_str n inner) as [x|e'] eqn:E; [discriminate|].
  cbn [bind outcome_monad]. intros [= <-]. exact (IH _ _ E).
Qed.

(** A text no longer than the budget cannot use the budget up: every pair
    of parentheses takes two characters. *)
Lemma _to_float_str_enough (n : nat) : forall s,
  (List.length s <= n)%nat -> exists r, _to_float_str n s = Ok r.
Proof.
  induction n as [|n IH]; intros s Hs; rewrite _to_float_str_unfold; cbv zeta.
  - destruct s; [|cbn in Hs; lia]. eexists. reflexivity.
  - destruct (_ || _); [eexists; reflexivity|].
    destruct (paren_match (strip s)) as [inner|] eqn:E; [|eexists; reflexivity].
    pose proof (paren_match_length _ _ E). pose proof (strip_length s).
    destruct (IH inner ltac:(lia)) as [r ->]. eexists. reflexivity.
Qed.

Lemma null_marker_to_float (s : pystr) :
  null_marker s -> _to_float (PStr s) = Ok None.
Proof.
  intros H. cbn [_to_float _to_float_str].
  destruct H as [H|[H|[H|H]]]; rewrite H;
    rewrite ?pystr_eqb_refl, ?orb_true_r; reflexivity.
Qed.
End ToFloat.

Section NormalizeSection.
Context {ucd : UnicodeData}.
Context {stack : Interpreter}.

(** One iteration of the loop of [_normalize_section] *)
Lemma normalize_loop_cons key val rest result :
  _normalize_section_loop ((key, val) :: rest) result =
  if negb (isdigit (code_of key)) then _normalize_section_loop rest result
  else
    match _to_float val with
    | Ok (Some x) =>
        _normalize_section_loop rest (dict_set result (code_of key) x)
    | Ok None => _normalize_section_loop rest result
    | Raise e => Raise e
    end.
Proof.
  cbn [_normalize_section_loop]. fold (code_of key).
  destruct (negb (isdigit (code_of key))); [reflexivity|].
  destruct (_to_float val) as [[x|]|e]; reflexivity.
Qed.

Lemma normalize_loop_app a : forall b r0,
  _normalize_section_loop (a ++ b) r0 =
  (r1 <- _normalize_section_loop a r0 ;; _normalize_section_loop b r1).
Proof.
  induction a as [|[key val] a IH]; intros b r0; [reflexivity|].
  change (((key, val) :: a) ++ b) with ((key, val) :: (a ++ b)).
  rewrite !normalize_loop_cons.
  destruct (negb (isdigit (code_of key))); [apply IH|].
  destruct (_to_float val) as [[x|]|e]; [apply IH | apply IH | reflexivity].
Qed.

(** Entries that stand for other codes, or carry no value, leave the
    value of a code as it was. *)
Lemma normalize_loop_untouched code items : forall r0 r,
  (forall key val, In (key, val) items -> code_of key = code ->
                   _to_float val = Ok None) ->
  _normalize_section_loop items r0 = Ok r ->
  dict_get r code = dict_get r0 code.
Proof.
  induction items as [|[key val] items IH]; intros r0 r Hnone Hrun.
  - injection Hrun as <-. reflexivity.
  - rewrite normalize_loop_cons in Hrun.
    assert (Hrest : forall k v, In (k, v) items -> code_of k = code ->
                                _to_float v = Ok None)
      by (intros k v Hin; apply Hnone; now right).
    destruct (negb (isdigit (code_of key))); [now apply IH|].
    destruct (_to_float val) as [[x|]|e] eqn:Ef;
      [ | now apply IH | discriminate].
    rewrite (IH _ _ Hrest Hrun), dict_get_set.
    destruct (pystr_eqb (code_of key) code) eqn:E; [|reflexivity].
    apply pystr_eqb_eq in E.
    rewrite (Hnone key val (or_introl eq_refl) E) in Ef. discriminate.
Qed.

(** The last entry of a code that carries a number decides its value. *)
Lemma normalize_section_last before key val after x result :
  isdigit (code_of key) = true ->
  _to_float val = Ok (Some x) ->
  (forall key' val', In (key', val') after ->
                     code_of key' = code_of key -> _to_float val' = Ok None) ->
  _normalize_section (before ++ (key, val) :: after) = Ok result ->
  dict_get result (code_of key) = Some x.
Proof.
  intros Hd Hf Hafter. unfold _normalize_section.
  rewrite normalize_loop_app.
  destruct (_normalize_section_loop before []) as [r1|e]; [|discriminate].
  cbn [bind outcome_monad]. rewrite normalize_loop_cons, Hd, Hf. cbn [negb].
  intros Hrun.
  rewrite (normalize_loop_untouched _ _ _ _ Hafter Hrun), dict_get_set.
  now rewrite pystr_eqb_refl.
Qed.

(** A code once entered stays. *)
Lemma normalize_loop_keeps code items : forall r0 r,
  dict_has r0 code = true ->
  _normalize_section_loop items r0 = Ok r -> dict_has r code = true.
Proof.
  induction items as [|[key val] items IH]; intros r0 r H0 Hrun.
  - now injection Hrun as <-.
  - rewrite normalize_loop_cons in Hrun.
    destruct (negb (isdigit (code_of key))); [now apply (IH r0)|].
    destruct (_to_float val) as [[x|]|e]; [ | now apply (IH r0) | discriminate].
    apply (IH _ _ ) in Hrun; [exact Hrun|].
    unfold dict_has in *. rewrite dict_get_set.
    destruct (pystr_eqb (code_of key) code); [reflexivity | exact H0].
Qed.

Lemma normalize_section_present before key val after x result :
  isdigit (code_of key) = true ->
  _to_float val = Ok (Some x) ->
  _normalize_section (before ++ (key, val) :: after) = Ok result ->
  dict_has result (code_of key) = true.
Proof.
  intros Hd Hf. unfold _normalize_section.
  rewrite normalize_loop_app.
  destruct (_normalize_section_loop before []) as [r1|e]; [|discriminate].
  cbn [bind outcome_monad]. rewrite normalize_loop_cons, Hd, Hf. cbn [negb].
  apply normalize_loop_keeps.
  unfold dict_has. rewrite dict_get_set. now rewrite pystr_eqb_refl.
Qed.
End NormalizeSection.

Section Normalization.
Context {ucd : UnicodeData}.
Context {stack : Interpreter}.

(** A parenthesized value is the negated value of its inside; the inside
    is converted by a nested call. *)
Lemma to_float_parenthesized :
  (1 <= recursion_budget)%nat ->
  _to_float (PStr (py "(150.5)"))
  = Ok (Some (S754_finite true (301 * 2 ^ 44) (-45))).
Proof.
  intros H. unfold _to_float.
  destruct recursion_budget as [|budget]; [lia|].
  vm_compute. reflexivity.
Qed.

(** A decimal comma reads as a decimal point. *)
Lemma to_float_decimal_comma :
  _to_float (PStr (py "732,8"))
  = Ok (Some (S754_finite false 6445776966674022 (-43))).
Proof. vm_compute. reflexivity. Qed.

(** Thousands are grouped by spaces or no-break spaces. *)
Lemma to_float_grouped :
  _to_float (PStr (py "1 234,5"))
  = Ok (Some (float_of_decimal false 12345 (-1)))
  /\ _to_float (PStr [49; 160; 50; 51; 52]%N)
     = Ok (Some (float_of_decimal false 1234 0)).
Proof. split; vm_compute; reflexivity. Qed.

(** The two floats of the specification, bit by bit.  [-150.5] is exact:
    it is [-301 / 2].  [732.8] is rounded to the nearest binary64: the
    mantissa has 53 bits and is within a half of [732.8 * 2 ^ 43]. *)
Lemma float_literals :
  float_of_decimal true 1505 (-1) = S754_finite true (301 * 2 ^ 44) (-45)
  /\ float_of_decimal false 7328 (-1) = S754_finite false 6445776966674022 (-43)
  /\ (2 * (301 * 2 ^ 44) = 301 * 2 ^ 45
      /\ 2 ^ 52 <= 6445776966674022 < 2 ^ 53
      /\ 2 * Z.abs (10 * 6445776966674022 - 7328 * 2 ^ 43) <= 10)%Z.
Proof.
  split; [vm_compute; reflexivity|]. split; [vm_compute; reflexivity|].
  repeat split; vm_compute; congruence.
Qed.

Lemma parse_llm_json_comma_response :
  exists data,
    parse_llm_json json.loads
      (json_text "{'balance_start':{'1000':'732,8'}, 'balance_end':{}, 'income_current':{}}")
    = Ok data
    /\ dict_get data (py "balance_start")
       = Some (PDict [(py "1000",
                       PFloat (S754_finite false 6445776966674022 (-43)))]).
Proof. eexists. split; vm_compute; reflexivity. Qed.

Lemma normalize_section_null_markers section code result :
  (forall key val, In (key, val) section -> code_of key = code ->
                   exists s, val = PStr s /\ null_marker s) ->
  _normalize_section section = Ok result ->
  dict_get result code = None.
Proof.
  intros Hnull Hrun.
  rewrite (normalize_loop_untouched code section [] result); [reflexivity | | exact Hrun].
  intros key val Hin Hcode.
  destruct (Hnull key val Hin Hcode) as (s & -> & Hs).
  now apply null_marker_to_float.
Qed.

(** C1, amended.  Numeric normalization in the repair parser.  The value
    "(150.5)" becomes the float -150.5, given that the stack admits the
    one nested call it takes, and the value "732,8" becomes 732.8, so that
    the response with [balance_start] equal to ["1000": "732,8"] and two
    empty sections parses with [balance_start] equal to ["1000": 732.8];
    the two floats are written out as binary64 numbers.  A value that is
    empty, "-", "null" or "none" (the last two in any letter case)
    converts to no value, and a code is absent from the normalized section
    when every entry whose key stands for it carries such a value: it is
    then not mapped to 0.0 or to anything else. *)
Theorem to_float_normalization :
  ((1 <= recursion_budget)%nat ->
   _to_float (PStr (py "(150.5)"))
   = Ok (Some (S754_finite true (301 * 2 ^ 44) (-45))))
  /\ _to_float (PStr (py "732,8"))
     = Ok (Some (S754_finite false 6445776966674022 (-43)))
  /\ (exists data,
        parse_llm_json json.loads
          (json_text "{'balance_start':{'1000':'732,8'}, 'balance_end':{}, 'income_current':{}}")
        = Ok data
        /\ dict_get data (py "balance_start")
           = Some (PDict [(py "1000",
                           PFloat (S754_finite false 6445776966674022 (-43)))]))
  /\ (forall s, null_marker s -> _to_float (PStr s) = Ok None)
  /\ (forall section code result,
        (forall key val, In (key, val) section -> code_of key = code ->
                         exists s, val = PStr s /\ null_marker s) ->
        _normalize_section section = Ok result ->
        dict_get result code = None).
Proof.
  split; [exact to_float_parenthesized|].
  split; [exact to_float_decimal_comma|].
  split; [exact parse_llm_json_comma_response|].
  split; [exact null_marker_to_float|].
  exact normalize_section_null_markers.
Qed.

(** C9, amended.  A JSON boolean under a digit code is neither dropped nor
    taken for absent: [_to_float] maps [true] to 1.0 and [false] to 0.0,
    and the code is in the normalized section.  Its value there is that
    1.0 or 0.0 when no later entry of the section stands for the same code
    and carries a number; such an entry overwrites it. *)
Theorem to_float_bool_kept (b : bool) (before after : list (pystr * pyval))
    (key : pystr) (result : list (pystr * float)) :
  isdigit (code_of key) = true ->
  _normalize_section (before ++ (key, PBool b) :: after) = Ok result ->
  _to_float (PBool b)
  = Ok (Some (if b then S754_finite false (2 ^ 52) (-52)
              else S754_zero false))
  /\ dict_has result (code_of key) = true
  /\ ((forall key' val', In (key', val') after ->
         code_of key' = code_of key -> _to_float val' = Ok None) ->
      dict_get result (code_of key)
      = Some (if b then S754_finite false (2 ^ 52) (-52)
              else S754_zero false)).
Proof.
  intros Hd Hrun.
  assert (Hf : _to_float (PBool b)
               = Ok (Some (if b then S754_finite false (2 ^ 52) (-52)
                           else S754_zero false)))
    by (destruct b; reflexivity).
  split; [exact Hf|]. split.
  - exact (normalize_section_present before key (PBool b) after _ result Hd Hf Hrun).
  - intros Hafter.
    exact (normalize_section_last before key (PBool b) after _ result
             Hd Hf Hafter Hrun).
Qed.

End Normalization.

(** C1, as stated, fails: a value that stands for nothing writes no entry,
    but it does not keep another entry of the same code from writing one.
    The keys "1000" and "р.1000" stand for the same code; with "-" under
    the first and "0" under the second, the code 1000 is in the result,
    mapped to 0.0. *)
Lemma null_value_code_still_mapped :
  _to_float (ucd := ascii_only) (PStr (py "-")) = Ok None
  /\ code_of (py "р.1000") = py "1000"
  /\ _normalize_section (ucd := ascii_only)
       [(py "1000", PStr (py "-")); (py "р.1000", PStr (py "0"))]
     = Ok [(py "1000", S754_zero false)]
  /\ exists data,
       parse_llm_json (ucd := ascii_only) (json.loads (ucd := ascii_only))
         (json_text "{'balance_start': {'1000': '-', 'р.1000': '0'}, 'balance_end': {}, 'income_current': {}}")
       = Ok data
       /\ dict_get data (py "balance_start")
          = Some (PDict [(py "1000", PFloat (S754_zero false))]).
Proof.
  split; [vm_compute; reflexivity|]. split; [vm_compute; reflexivity|].
  split; [vm_compute; reflexivity|].
  eexists. split; vm_compute; reflexivity.
Qed.

(** C9, as stated, fails: the value of a boolean is overwritten by a later
    entry of the same code.  With [true] under "1000" and 7 under "р.1000"
    the code 1000 is in the result, but with the value 7.0, which is
    neither 1.0 nor 0.0. *)
Lemma bool_overwritten_by_later_entry :
  _to_float (ucd := ascii_only) (PBool true)
  = Ok (Some (S754_finite false (2 ^ 52) (-52)))
  /\ _normalize_section (ucd := ascii_only)
       [(py "1000", PBool true); (py "р.1000", PInt 7)]
     = Ok [(py "1000", S754_finite false (7 * 2 ^ 50) (-50))]
  /\ exists data,
       parse_llm_json (ucd := ascii_only) (json.loads (ucd := ascii_only))
         (json_text "{'balance_start': {'1000': true, 'р.1000': 7}, 'balance_end': {}, 'income_current': {}}")
       = Ok data
       /\ dict_get data (py "balance_start")
          = Some (PDict [(py "1000",
                          PFloat (S754_finite false (7 * 2 ^ 50) (-50)))]).
Proof.
  split; [vm_compute; reflexivity|]. split; [vm_compute; reflexivity|].
  eexists. split; vm_compute; reflexivity.
Qed.

Lemma to_float_normalization_witness :
  _to_float (ucd := ascii_only) (PStr (py "(150.5)"))
  = Ok (Some (S754_finite true (301 * 2 ^ 44) (-45)))
  /\ _to_float (ucd := ascii_only) (PStr (py "NULL")) = Ok None
  /\ _to_float (ucd := ascii_only) (PStr (py " None ")) = Ok None
  /\ _to_float (ucd := ascii_only) (PStr (py "-")) = Ok None
  /\ _to_float (ucd := ascii_only) (PStr []) = Ok None
  /\ dict_get
       (match _normalize_section (ucd := ascii_only)
                [(py "1000", PStr (py " - ")); (py "1010", PStr (py "5"))]
        with Ok result => result | Raise _ => [] end)
       (py "1000") = None.
Proof.
  destruct (to_float_normalization (ucd := ascii_only))
    as (Hparen & _ & _ & Hnull & Hsection).
  split; [apply Hparen; apply Nat.leb_le; reflexivity|].
  split; [apply Hnull; right; right; left; reflexivity|].
  split; [apply Hnull; right; right; right; reflexivity|].
  split; [apply Hnull; right; left; reflexivity|].
  split; [apply Hnull; left; reflexivity|].
  apply (Hsection [(py "1000", PStr (py " - ")); (py "1010", PStr (py "5"))]);
    [|reflexivity].
  intros key val [[= <- <-]|[[= <- <-]|[]]] Hcode.
  - exists (py " - "). split; [reflexivity | right; left; reflexivity].
  - discriminate Hcode.
Defined.

Lemma to_float_bool_kept_witness :
  dict_get
    (match _normalize_section (ucd := ascii_only)
             [(py "1000", PBool true); (py "1010", PBool false)]
     with Ok result => result | Raise _ => [] end)
    (py "1000") = Some (S754_finite false (2 ^ 52) (-52)).
Proof.
  apply (to_float_bool_kept (ucd := ascii_only) true []
           [(py "1010", PBool false)] (py "1000")); [reflexivity | reflexivity |].
  intros key' val' [[= <- <-]|[]] Hcode. discriminate Hcode.
Defined.

(** ** [extract_text_from_pdf] *)

Section Pdf.
Import pdf_extractor.
Variable ocr_func : bytes -> outcome pystr.

Lemma pages_loop_cons p rest page_num full_text ocr_pages :
  pages_loop ocr_func (p :: rest) page_num full_text ocr_pages =
  let block t :=
    py "--- Page " ++ str_of_int (page_num + 1) ++ py " ---" ++ [NL] ++ t in
  if is_scan p then
    match ocr_func (get_pixmap_png p 300) with
    | Ok t =>
        let '(tr, r) :=
          pages_loop ocr_func rest (page_num + 1)
            (full_text ++ [block t]) (ocr_pages + 1) in
        (EvOcr (get_pixmap_png p 300) :: tr, r)
    | Raise e => ([EvOcr (get_pixmap_png p 300)], Raise e)
    end
  else
    pages_loop ocr_func rest (page_num + 1)
      (full_text ++ [block (get_text p)]) ocr_pages.
Proof.
  cbn [pages_loop]. unfold is_scan.
  destruct (len (strip (get_text p)) <? MIN_TEXT_LENGTH).
  - cbn [bind ret M_monad call].
    destruct (ocr_func (get_pixmap_png p 300)) as [t|e]; [|reflexivity].
    cbn [app].
    destruct (pages_loop _ _ _ _ _) as [tr r]. reflexivity.
  - cbn [bind ret M_monad].
    destruct (pages_loop _ _ _ _ _) as [tr r]. reflexivity.
Qed.

(** The OCR is asked for scanned pages only, in page order, and for no
    page twice, whether or not it answers. *)
Lemma pages_loop_trace_prefix doc : forall page_num full_text ocr_pages,
  exists later,
    ocr_calls doc
    = trace (pages_loop ocr_func doc page_num full_text ocr_pages) ++ later.
Proof.
  induction doc as [|p rest IH]; intros n ft k.
  - exists []. reflexivity.
  - rewrite pages_loop_cons. unfold ocr_calls. cbn [filter].
    destruct (is_scan p).
    + cbn [List.map]. fold (ocr_calls rest).
      destruct (ocr_func (get_pixmap_png p 300)) as [t|e].
      * destruct (IH (n + 1) (ft ++ [py "--- Page " ++ str_of_int (n + 1)
                                      ++ py " ---" ++ [NL] ++ t]) (k + 1))
          as [later Hl].
        cbv zeta.
        destruct (pages_loop _ _ _ _ _) as [tr r]. cbn [trace fst] in *.
        exists later. now rewrite Hl.
      * exists (ocr_calls rest). reflexivity.
    + apply IH.
Qed.

Lemma pages_loop_answers doc : forall page_num full_text ocr_pages,
  ocr_answers ocr_func doc ->
  exists n,
    pages_loop ocr_func doc page_num full_text ocr_pages
    = (ocr_calls doc,
       Ok (full_text ++ page_blocks ocr_func page_num doc, n)).
Proof.
  induction doc as [|p rest IH]; intros n ft k Hans.
  - exists k. cbn. now rewrite app_nil_r.
  - assert (Hrest : ocr_answers ocr_func rest)
      by (intros q Hq; apply Hans; now right).
    rewrite pages_loop_cons. unfold ocr_calls. cbn [filter page_blocks].
    unfold page_text.
    destruct (is_scan p) eqn:Es.
    + destruct (Hans p (or_introl eq_refl) Es) as [t Ht]. rewrite Ht.
      cbv zeta.
      destruct (IH (n + 1) (ft ++ [py "--- Page " ++ str_of_int (n + 1)
                                    ++ py " ---" ++ [NL] ++ t]) (k + 1) Hrest)
        as [m Hm].
      rewrite Hm. exists m. cbn [List.map]. fold (ocr_calls rest).
      now rewrite <- app_assoc.
    + cbv zeta.
      destruct (IH (n + 1) (ft ++ [py "--- Page " ++ str_of_int (n + 1)
                                    ++ py " ---" ++ [NL] ++ get_text p]) k Hrest)
        as [m Hm].
      rewrite Hm. exists m. fold (ocr_calls rest).
      now rewrite <- app_assoc.
Qed.

(** C6.  The pages of a PDF are taken in page order.  The OCR function is
    called on the 300-DPI rendering of each page whose trimmed native text
    has fewer than 50 characters, once, and on no other page: the calls made
    are always an initial part of that list, and all of it when the OCR
    answers each call.  Then the text of a scanned page is the OCR's answer,
    the text of any other page its native text, each page stands under its
    own header, and the pages are joined by a blank line. *)
Theorem extract_text_from_pdf_ocr fitz_open file_bytes doc :
  fitz_open file_bytes = Ok doc ->
  (exists later,
     ocr_calls doc
     = trace (extract_text_from_pdf fitz_open file_bytes ocr_func) ++ later)
  /\ (ocr_answers ocr_func doc ->
      extract_text_from_pdf fitz_open file_bytes ocr_func
      = (ocr_calls doc, Ok (join [NL; NL] (page_blocks ocr_func 0 doc)))).
Proof.
  intros Hopen. unfold extract_text_from_pdf. rewrite Hopen. split.
  - destruct (pages_loop_trace_prefix doc 0 [] 0) as [later Hl].
    exists later. rewrite Hl. f_equal.
    cbn [bind M_monad].
    destruct (pages_loop ocr_func doc 0 [] 0) as [tr [[ft n]|e]];
      [cbn; now rewrite app_nil_r | reflexivity].
  - intros Hans. destruct (pages_loop_answers doc 0 [] 0 Hans) as [n Hn].
    rewrite Hn. cbn. now rewrite app_nil_r.
Qed.
End Pdf.

Lemma extract_text_from_pdf_ocr_witness :
  pdf_extractor.extract_text_from_pdf
    (fun _ => Ok [sample_native_page; sample_scanned_page]) [] sample_ocr
  = ([EvOcr [x2a%byte]],
     Ok (py "--- Page 1 ---" ++ [NL] ++ pdf_extractor.get_text sample_native_page
         ++ [NL; NL] ++ py "--- Page 2 ---" ++ [NL] ++ py "1000 732,8")).
Proof.
  apply (proj2 (extract_text_from_pdf_ocr sample_ocr
                  (fun _ => Ok [sample_native_page; sample_scanned_page]) []
                  [sample_native_page; sample_scanned_page] eq_refl)).
  intros p _ _. eexists. reflexivity.
Defined.

(** ** [analyze_documents] *)

Section Effects.

Lemma trace_bind_eq {A B} (m : M A) (k : A -> M B) :
  trace (x <- m ;; k x)
  = trace m ++ match result m with
               | Ok a => trace (k a)
               | Raise _ => []
               end.
Proof.
  destruct m as [t [a|e]]; cbn [bind M_monad result snd trace fst].
  - destruct (k a) as [t' r]. reflexivity.
  - now rewrite app_nil_r.
Qed.

End Effects.

Section Validation.
Import extractor analyze.
Context {ucd : UnicodeData}.
Context {stack : Interpreter}.
Variable sv : services.
Variable config : AppConfig.

Lemma validate_extensions_rejects files :
  existsb (fun f => negb (allowed_file f)) files = true ->
  exists detail,
    validate_extensions files = ([], Raise (HTTPException 422 detail)).
Proof.
  induction files as [|f rest IH]; [discriminate|].
  cbn [existsb validate_extensions]. unfold allowed_file at 1.
  destruct (negb (is_allowed_extension (filename_or f []))).
  - intros _. eexists. reflexivity.
  - exact IH.
Qed.

Lemma validate_extensions_accepts files :
  forallb allowed_file files = true ->
  validate_extensions files = ([], Ok tt).
Proof.
  induction files as [|f rest IH]; [reflexivity|].
  cbn [forallb validate_extensions]. unfold allowed_file at 1.
  intros H. apply andb_prop in H. destruct H as [-> H]. now apply IH.
Qed.

(** C7.  A request with fewer than 1 or more than 10 files fails with
    status 400, and a request with 1 to 10 files of which one has a name
    whose extension is not allowed fails with status 422; in both cases
    nothing has been called: no file was read, no text extracted, no prompt
    loaded and no LLM queried. *)
Theorem analyze_documents_validation files user_instructions :
  (len_files files < 1 \/ MAX_FILES < len_files files ->
   exists detail,
     analyze_documents sv config files user_instructions
     = ([], Raise (HTTPException 400 detail)))
  /\ (1 <= len_files files <= MAX_FILES ->
      existsb (fun f => negb (allowed_file f)) files = true ->
      exists detail,
        analyze_documents sv config files user_instructions
        = ([], Raise (HTTPException 422 detail))).
Proof.
  unfold analyze_documents. split.
  - intros H.
    replace ((len_files files <? 1) || (MAX_FILES <? len_files files))
      with true by (symmetry; apply orb_true_iff; lia).
    eexists. reflexivity.
  - intros H Hbad.
    replace ((len_files files <? 1) || (MAX_FILES <? len_files files))
      with false by (symmetry; apply orb_false_iff; lia).
    destruct (validate_extensions_rejects files Hbad) as [detail Hd].
    exists detail. cbn [bind M_monad]. now rewrite Hd.
Qed.
(** A request that passes validation goes on to read its first file. *)
Lemma analyze_documents_reads_first files user_instructions :
  1 <= len_files files <= MAX_FILES ->
  forallb allowed_file files = true ->
  exists later,
    trace (analyze_documents sv config files user_instructions)
    = EvRead 0 :: later.
Proof.
  intros Hn Hok. unfold analyze_documents.
  replace ((len_files files <? 1) || (MAX_FILES <? len_files files))
    with false by (symmetry; apply orb_false_iff; lia).
  assert (Hne : exists f rest, files = f :: rest).
  { destruct files as [|f rest]; [|eauto].
    unfold len_files, MAX_FILES in Hn. simpl in Hn. lia. }
  rewrite trace_bind_eq, (validate_extensions_accepts files Hok).
  cbn [trace result fst snd app].
  rewrite trace_bind_eq. destruct Hne as (f & rest & ->). cbn [read_files].
  rewrite trace_bind_eq. cbn [call trace result fst snd app].
  eexists. reflexivity.
Qed.

End Validation.

Lemma analyze_documents_validation_witness :
  (exists detail,
     analyze.analyze_documents (ucd := ascii_only) sample_services sample_config [] []
     = ([], Raise (HTTPException 400 detail)))
  /\ (exists detail,
        analyze.analyze_documents (ucd := ascii_only) sample_services sample_config
          [upload "balance.xlsx" []; upload "notes.txt" []] []
        = ([], Raise (HTTPException 422 detail))).
Proof.
  split.
  - apply (proj1 (analyze_documents_validation (ucd := ascii_only)
                    sample_services sample_config [] [])).
    left. reflexivity.
  - apply (proj2 (analyze_documents_validation (ucd := ascii_only)
                    sample_services sample_config
                    [upload "balance.xlsx" []; upload "notes.txt" []] [])).
    + split; discriminate.
    + reflexivity.
Defined.

(** The allowed extensions, in any letter case; a name without extension
    and an absent name are refused. *)
Lemma allowed_file_examples :
  allowed_file (ucd := ascii_only) (upload "REPORT.PDF" []) = true
  /\ allowed_file (ucd := ascii_only) (upload "scan.Jpeg" []) = true
  /\ allowed_file (ucd := ascii_only) (upload "balance.xlsx" []) = true
  /\ allowed_file (ucd := ascii_only) (upload "notes.txt" []) = false
  /\ allowed_file (ucd := ascii_only) (upload "archive.pdf.zip" []) = false
  /\ allowed_file (ucd := ascii_only) (upload "pdf" []) = false
  /\ allowed_file (ucd := ascii_only)
       {| analyze.filename := None; analyze.content := [] |} = false.
Proof. repeat split; vm_compute; reflexivity. Qed.

(** What a request with one spreadsheet calls, up to the structuring call
    whose answer lacks the required keys. *)
Lemma analyze_documents_calls :
  trace (analyze.analyze_documents (ucd := ascii_only) sample_services sample_config
           [upload "balance.xlsx" [x00%byte]] [])
  = [EvRead 0; EvExtract (py "balance.xlsx");
     EvLoadPrompt (py "prompts/extraction_prompt.txt");
     EvQueryJson []
       (py "Extract the rows. === FILE: balance.xlsx ===" ++ [NL]
        ++ py "Sheet: balance")].
Proof. vm_compute. reflexivity. Qed.

Section Extraction.
Import extractor analyze.
Context {ucd : UnicodeData}.
Context {stack : Interpreter}.
Variable sv : services.
Variable config : AppConfig.


End Extraction.

Section DictFacts.
Variable V : Type.

Lemma dict_keys_set (d : list (pystr * V)) k v :
  dict_keys (dict_set d k v) =
  if dict_has d k then dict_keys d else dict_keys d ++ [k].
Proof.
  unfold dict_has, dict_keys. induction d as [|[k0 v0] d IH]; [reflexivity|].
  cbn [dict_set dict_get]. destruct (pystr_eqb k0 k) eqn:E.
  - reflexivity.
  - cbn [List.map fst]. rewrite IH.
    destruct (dict_get d k); reflexivity.
Qed.

Lemma dict_has_In (d : list (pystr * V)) k :
  dict_has d k = true <-> In k (dict_keys d).
Proof.
  unfold dict_has, dict_keys. induction d as [|[k0 v0] d IH].
  - split; [discriminate | intros []].
  - cbn [dict_get List.map fst In]. destruct (pystr_eqb k0 k) eqn:E.
    + apply pystr_eqb_eq in E. split; auto.
    + apply pystr_eqb_neq in E. rewrite IH. split; [auto | intros [H|H]; congruence].
Qed.


Lemma dict_set_keys_NoDup (d : list (pystr * V)) k v :
  NoDup (dict_keys d) -> NoDup (dict_keys (dict_set d k v)).
Proof.
  intros H. rewrite dict_keys_set.
  destruct (dict_has d k) eqn:E; [exact H|].
  apply NoDup_app; [exact H | repeat constructor; intros [] |].
  intros x Hx [<-|[]]. apply dict_has_In in Hx. congruence.
Qed.
End DictFacts.

Section Monad.
Lemma bind_ok {A B} (m : M A) (k : A -> M B) (b : B) :
  result (x <- m ;; k x) = Ok b ->
  exists a, result m = Ok a /\ result (k a) = Ok b.
Proof.
  destruct m as [t [a|e]]; cbn [bind M_monad].
  - destruct (k a) as [t' r] eqn:E. cbn [result snd]. intros ->.
    exists a. split; [reflexivity | now rewrite E].
  - discriminate.
Qed.
End Monad.

Section SameFilename.
Import extractor analyze.
Context {ucd : UnicodeData}.
Context {stack : Interpreter}.
Variable sv : services.
Variable config : AppConfig.















End SameFilename.


(** The combined text of that upload: one block per filename, the block of
    [a.docx] with the text of the second file of that name. *)
Lemma combine_same_filename :
  text_utils.combine_extracted_texts
    (texts_of (ucd := ascii_only) sample_services
       [(py "a.docx", []); (py "b.docx", []); (py "a.docx", [x00%byte])] [])
  = py "=== FILE: a.docx ===" ++ [NL] ++ py "version 1" ++ [NL; NL]
    ++ py "=== FILE: b.docx ===" ++ [NL] ++ py "version 0".
Proof. vm_compute. reflexivity. Qed.


(* ===================================================================== *)
(** * Further properties of the sources *)
(* ===================================================================== *)

(** ** [clean_text]: the shape of a cleaned text *)

Section CleanTextShape.

Lemma strip_edges (s : pystr) :
  starts_in is_space (strip s) = false /\ ends_in is_space (strip s) = false.
Proof.
  unfold strip. split.
  - destruct (rstrip_prefix (lstrip s)) as [w Hw].
    apply (starts_in_app is_space _ w). rewrite <- Hw.
    apply drop_while_starts.
  - unfold ends_in, rstrip. rewrite rev_involutive. apply drop_while_starts.
Qed.

Lemma hspace_normal_chars (t : pystr) :
  hspace_normal t = true ->
  forall x, In x t -> is_hspace x = true -> x = SP.
Proof.
  induction t as [|c r IH]; intros H x Hin Hx; [destruct Hin|].
  cbn [hspace_normal] in H. apply andb_prop in H. destruct H as [H1 H2].
  destruct Hin as [<-|Hin]; [|now apply IH].
  rewrite Hx in H1. apply andb_prop in H1. now apply N.eqb_eq.
Qed.

Lemma hspace_normal_no_pair (t : pystr) :
  hspace_normal t = true -> contains [SP; SP] t = false.
Proof.
  induction t as [|c r IH]; intros H; [reflexivity|].
  cbn [hspace_normal] in H. apply andb_prop in H. destruct H as [H1 H2].
  rewrite contains_cons, (IH H2), orb_false_r.
  cbn [starts_with].
  destruct (N.eqb_spec SP c) as [<-|]; [|reflexivity].
  rewrite SP_is_hspace in H1. apply andb_prop in H1. destruct H1 as [_ H1].
  destruct r as [|d r]; [reflexivity|].
  cbn [starts_in] in H1. apply negb_true_iff in H1.
  destruct (N.eqb_spec SP d) as [<-|]; [|reflexivity].
  rewrite SP_is_hspace in H1. discriminate.
Qed.

Lemma newlines_normal_no_triple (t : pystr) :
  newlines_normal t = true -> contains [NL; NL; NL] t = false.
Proof.
  induction t as [|c r IH]; intros H; [reflexivity|].
  cbn [newlines_normal] in H. apply andb_prop in H. destruct H as [H1 H2].
  rewrite contains_cons, (IH H2), orb_false_r.
  apply Nat.leb_le in H1.
  destruct r as [|d [|e r]]; cbn [starts_with]; rewrite ?andb_false_r;
    try reflexivity.
  destruct (N.eqb_spec NL c) as [<-|]; [|reflexivity].
  destruct (N.eqb_spec NL d) as [<-|]; [|reflexivity].
  destruct (N.eqb_spec NL e) as [<-|]; [|reflexivity].
  exfalso. cbn in H1. lia.
Qed.

(** X1.  A cleaned text neither starts nor ends with whitespace; the only
    whitespace characters in it are the space and the newline (no tab, no
    no-break space, no carriage return); it has no two spaces in a row and
    no three newlines in a row. *)
Theorem clean_text_shape (t : pystr) :
  starts_in is_space (clean_text t) = false
  /\ ends_in is_space (clean_text t) = false
  /\ (forall x, In x (clean_text t) -> is_space x = true -> x = SP \/ x = NL)
  /\ contains [SP; SP] (clean_text t) = false
  /\ contains [NL; NL; NL] (clean_text t) = false.
Proof.
  destruct (clean_text_normal t) as (Hh & Hn & Hs).
  destruct (strip_edges (clean_text t)) as [He1 He2]. rewrite Hs in He1, He2.
  repeat split; try assumption.
  - intros x Hin Hx. destruct (is_newline x) eqn:E.
    + right. now apply is_newline_eq.
    + left. apply (hspace_normal_chars _ Hh x Hin).
      unfold is_hspace. now rewrite Hx, E.
  - now apply hspace_normal_no_pair.
  - now apply newlines_normal_no_triple.
Qed.

(** *** What cleaning keeps *)

Lemma visible_app (a b : pystr) : visible (a ++ b) = visible a ++ visible b.
Proof. apply filter_app. Qed.

Lemma visible_all_space (a : pystr) : all_space a -> visible a = [].
Proof.
  unfold all_space, visible. induction a as [|c a IH]; [reflexivity|].
  cbn [forallb filter]. intros H. apply andb_prop in H. destruct H as [-> H].
  now apply IH.
Qed.

Lemma visible_nil_all_space (a : pystr) : visible a = [] -> all_space a.
Proof.
  unfold all_space, visible. induction a as [|c a IH]; [reflexivity|].
  cbn [forallb filter]. destruct (is_space c); [exact IH | discriminate].
Qed.

Lemma take_while_class cls (s : pystr) :
  forallb cls (take_while cls s) = true.
Proof.
  induction s as [|c r IH]; [reflexivity|]. cbn [take_while].
  destruct (cls c) eqn:E; [|reflexivity]. cbn [forallb]. now rewrite E.
Qed.

Lemma visible_drop_while (cls : codepoint -> bool) (s : pystr) :
  (forall c, cls c = true -> is_space c = true) ->
  visible (drop_while cls s) = visible s.
Proof.
  intros Hcls. induction s as [|c r IH]; [reflexivity|].
  cbn [drop_while]. destruct (cls c) eqn:E; [|reflexivity].
  rewrite IH. unfold visible. cbn [filter]. now rewrite (Hcls c E).
Qed.

Lemma visible_rev (s : pystr) : visible (rev s) = rev (visible s).
Proof.
  unfold visible. induction s as [|c r IH]; [reflexivity|].
  cbn [rev filter]. rewrite filter_app, IH. cbn [filter].
  destruct (negb (is_space c)); [reflexivity | now rewrite app_nil_r].
Qed.

Lemma visible_strip (s : pystr) : visible (strip s) = visible s.
Proof.
  unfold strip, rstrip, lstrip.
  rewrite visible_rev, visible_drop_while by trivial.
  rewrite visible_rev, rev_involutive. now apply visible_drop_while.
Qed.

Lemma visible_re_sub_runs cls min repl :
  (forall c, cls c = true -> is_space c = true) -> all_space repl ->
  forall t : pystr, visible (re_sub_runs cls min repl t) = visible t.
Proof.
  intros Hcls Hrepl t.
  induction t as [t IH] using pystr_length_ind.
  destruct t as [|c r]; [reflexivity|].
  rewrite re_sub_runs_cons.
  destruct (_ && _) eqn:E.
  - apply andb_prop in E. destruct E as [_ E]. apply Nat.leb_le in E.
    rewrite visible_app, (visible_all_space _ Hrepl). cbn [app].
    rewrite IH by now apply drop_while_shorter.
    now apply visible_drop_while.
  - change (c :: re_sub_runs cls min repl r)
      with ([c] ++ re_sub_runs cls min repl r).
    change (c :: r) with ([c] ++ r).
    rewrite !visible_app, IH by (simpl; lia). reflexivity.
Qed.

Lemma is_hspace_space c : is_hspace c = true -> is_space c = true.
Proof. unfold is_hspace. intros H. now apply andb_prop in H. Qed.

Lemma is_newline_space c : is_newline c = true -> is_space c = true.
Proof. intros H. apply is_newline_eq in H. now subst c. Qed.

Lemma clean_text_visible (t : pystr) : visible (clean_text t) = visible t.
Proof.
  rewrite clean_text_eq, visible_strip. unfold sub_newlines, sub_hspace.
  rewrite visible_re_sub_runs; [| exact is_newline_space | reflexivity].
  apply visible_re_sub_runs; [exact is_hspace_space | reflexivity].
Qed.

Lemma re_sub_runs_length cls min repl :
  (List.length repl <= Nat.max min 1)%nat ->
  forall t : pystr,
    (List.length (re_sub_runs cls min repl t) <= List.length t)%nat.
Proof.
  intros Hrepl t.
  induction t as [t IH] using pystr_length_ind.
  destruct t as [|c r]; [reflexivity|].
  rewrite re_sub_runs_cons.
  destruct (_ && _) eqn:E.
  - apply andb_prop in E. destruct E as [E1 E2].
    apply Nat.leb_le in E1, E2.
    rewrite length_app.
    pose proof (IH (drop_while cls (c :: r)) (drop_while_shorter cls _ E2)) as H.
    rewrite <- (take_drop_while cls (c :: r)) at 2. rewrite length_app. lia.
  - cbn [List.length]. specialize (IH r). simpl in IH. lia.
Qed.

Lemma clean_text_length (t : pystr) : len (clean_text t) <= len t.
Proof.
  unfold len. apply inj_le. rewrite clean_text_eq.
  etransitivity; [apply strip_length|]. unfold sub_newlines, sub_hspace.
  etransitivity; [apply re_sub_runs_length; simpl; lia|].
  apply re_sub_runs_length; simpl; lia.
Qed.

Lemma strip_nil_all_space (s : pystr) : strip s = [] <-> all_space s.
Proof.
  split.
  - intros H. apply visible_nil_all_space. now rewrite <- visible_strip, H.
  - intros H. unfold strip, lstrip. rewrite (drop_while_all is_space s H).
    reflexivity.
Qed.

Lemma clean_text_blank (t : pystr) : clean_text t = [] <-> all_space t.
Proof.
  split.
  - intros H. apply visible_nil_all_space. now rewrite <- clean_text_visible, H.
  - intros H. destruct (clean_text_normal t) as (_ & _ & Hs).
    rewrite <- Hs. apply strip_nil_all_space.
    apply visible_nil_all_space. rewrite clean_text_visible.
    now apply visible_all_space.
Qed.

(** X2.  Cleaning only touches whitespace: the characters of the text that
    are not whitespace are the same, in the same order, before and after;
    the cleaned text is never longer than the text; and it is empty exactly
    when the text has nothing but whitespace. *)
Theorem clean_text_keeps_visible (t : pystr) :
  visible (clean_text t) = visible t
  /\ len (clean_text t) <= len t
  /\ (clean_text t = [] <-> all_space t).
Proof.
  split; [apply clean_text_visible|].
  split; [apply clean_text_length | apply clean_text_blank].
Qed.

End CleanTextShape.

(** ** [truncate_text]: where the cut falls *)

Section TruncateCut.

Lemma rfind_char_spec c (s : pystr) :
  (rfind_char c s = -1 /\ ~ In c s)
  \/ (exists a b, s = a ++ c :: b /\ ~ In c b /\ rfind_char c s = len a).
Proof.
  induction s as [|x r IH].
  - left. split; [reflexivity | intros []].
  - cbn [rfind_char].
    destruct IH as [[Hi Hn]|(a & b & E & Hn & Hi)].
    + rewrite Hi. cbn [Z.leb Z.compare].
      destruct (N.eqb_spec x c) as [->|Hx].
      * right. exists [], r. repeat split; trivial.
      * left. split; [reflexivity|]. intros [H|H]; [congruence | tauto].
    + rewrite Hi. pose proof (len_nonneg a) as Ha.
      destruct (Z.leb_spec 0 (len a)); [|lia].
      right. exists (x :: a), b. rewrite E. repeat split; trivial.
      rewrite len_cons. lia.
Qed.

Lemma rfind_char_absent c (s : pystr) : ~ In c s -> rfind_char c s = -1.
Proof.
  intros H. destruct (rfind_char_spec c s) as [[Hi _]|(a & b & E & _ & _)];
    [exact Hi|].
  exfalso. apply H. rewrite E. apply in_or_app. right. now left.
Qed.

(** A text over the budget is longer than the window of the cut. *)
Lemma estimate_window (text : pystr) (max_tokens : Z) :
  0 <= max_tokens -> max_tokens < estimate_tokens text ->
  Z.quot (7 * max_tokens) 2 < len text.
Proof.
  intros Hm H. rewrite estimate_tokens_eq in H.
  rewrite Z.quot_div_nonneg by lia.
  assert (7 * (max_tokens + 1) <= 2 * len text).
  { assert (Hd : max_tokens + 1 <= 2 * len text / 7) by lia.
    pose proof (Z.mul_div_le (2 * len text) 7 ltac:(lia)). lia. }
  assert (2 * (7 * max_tokens / 2) <= 7 * max_tokens)
    by (apply Z.mul_div_le; lia).
  lia.
Qed.

Lemma slice_to_len (s : pystr) (n : Z) :
  0 <= n <= len s -> len (slice_to s n) = n.
Proof.
  intros H. unfold slice_to. destruct (Z.ltb_spec n 0); [lia|].
  unfold len in *. rewrite length_firstn. lia.
Qed.

(** X3.  When a text over a budget that is not negative is cut, the window
    is the first [int(max_tokens * 3.5)] characters of the text.  The text
    kept before the notice is either the whole window, when the last
    newline of the window lies within its first four fifths (or there is
    none), or else the window up to its last newline, that newline not
    included: then the cut falls at a line end, and more than four fifths
    of the window are kept. *)
Theorem truncate_text_line_end (text : pystr) (max_tokens : Z) :
  0 <= max_tokens -> max_tokens < estimate_tokens text ->
  let target_chars := Z.quot (7 * max_tokens) 2 in
  let window := slice_to text target_chars in
  len window = target_chars
  /\ exists kept,
       truncate_text text max_tokens
       = (kept ++ warning (estimate_tokens text) max_tokens, true)
       /\ ((kept = window /\ 5 * rfind_char NL window <= 4 * target_chars)
           \/ (exists tail,
                 window = kept ++ NL :: tail /\ ~ In NL tail
                 /\ 4 * target_chars < 5 * len kept)).
Proof.
  intros Hm Hover target_chars window.
  pose proof (estimate_window text max_tokens Hm Hover) as Hw.
  fold target_chars in Hw.
  assert (Ht : 0 <= target_chars) by (apply Z.quot_pos; lia).
  split; [apply slice_to_len; lia|].
  exists (kept_text text max_tokens). split.
  - rewrite truncate_text_unfold.
    destruct (Z.leb_spec (estimate_tokens text) max_tokens); [lia | reflexivity].
  - unfold kept_text. fold target_chars. fold window.
    destruct (Z.ltb_spec (4 * target_chars) (5 * rfind_char NL window))
      as [Hlt|Hge].
    + right.
      destruct (rfind_char_spec NL window) as [[Hi _]|(a & b & E & Hn & Hi)].
      * rewrite Hi in Hlt. lia.
      * exists b. rewrite Hi in *.
        assert (Hk : slice_to window (len a) = a)
          by (rewrite E; apply slice_to_app).
        rewrite Hk. repeat split; trivial.
    + left. split; [reflexivity | exact Hge].
Qed.

End TruncateCut.

(** A thousand characters with one newline at offset 570, at 200 tokens:
    the window has 700 characters and the cut falls at the newline. *)
Lemma truncate_text_line_end_witness :
  len (slice_to (letters 570 ++ [NL] ++ letters 429) (Z.quot (7 * 200) 2))
  = Z.quot (7 * 200) 2
  /\ exists kept,
       truncate_text (letters 570 ++ [NL] ++ letters 429) 200
       = (kept ++ warning (estimate_tokens (letters 570 ++ [NL] ++ letters 429))
                    200, true)
       /\ ((kept = slice_to (letters 570 ++ [NL] ++ letters 429)
                     (Z.quot (7 * 200) 2)
            /\ 5 * rfind_char NL (slice_to (letters 570 ++ [NL] ++ letters 429)
                                    (Z.quot (7 * 200) 2))
               <= 4 * Z.quot (7 * 200) 2)
           \/ (exists tail,
                 slice_to (letters 570 ++ [NL] ++ letters 429)
                   (Z.quot (7 * 200) 2) = kept ++ NL :: tail
                 /\ ~ In NL tail
                 /\ 4 * Z.quot (7 * 200) 2 < 5 * len kept)).
Proof.
  apply (truncate_text_line_end (letters 570 ++ [NL] ++ letters 429) 200).
  - lia.
  - vm_compute. reflexivity.
Defined.

(** ** [combine_extracted_texts]: blocks *)

Section CombineBlocks.

Lemma join_app sep (p q : list pystr) :
  p <> [] -> q <> [] -> join sep (p ++ q) = join sep p ++ sep ++ join sep q.
Proof.
  intros Hp Hq. induction p as [|x p IH]; [congruence|].
  destruct p as [|y p].
  - destruct q; [congruence | reflexivity].
  - change (join sep ((x :: y :: p) ++ q))
      with (x ++ sep ++ join sep ((y :: p) ++ q)).
    rewrite IH by discriminate.
    change (join sep (x :: y :: p)) with (x ++ sep ++ join sep (y :: p)).
    now rewrite <- !app_assoc.
Qed.

Lemma combine_extracted_texts_app (a b : list (pystr * pystr)) :
  a <> [] -> b <> [] ->
  combine_extracted_texts (a ++ b)
  = combine_extracted_texts a ++ [NL; NL] ++ combine_extracted_texts b.
Proof.
  intros Ha Hb. unfold combine_extracted_texts. rewrite map_app.
  apply join_app; destruct a, b; discriminate || congruence.
Qed.

(** X4.  The combined text of a map is the combined texts of its parts,
    joined by a blank line.  The headers are not escaped: a file whose text
    contains a blank line and the header of another name combines to the
    very text that two files would give, so the combined text does not
    determine the files it was made from. *)
Theorem combine_extracted_texts_blocks
    (a b : list (pystr * pystr)) (name1 text1 name2 text2 : pystr) :
  (a <> [] -> b <> [] ->
   combine_extracted_texts (a ++ b)
   = combine_extracted_texts a ++ [NL; NL] ++ combine_extracted_texts b)
  /\ combine_extracted_texts
       (a ++ [(name1, text1 ++ [NL; NL] ++ py "=== FILE: " ++ name2
                         ++ py " ===" ++ [NL] ++ text2)])
     = combine_extracted_texts (a ++ [(name1, text1); (name2, text2)]).
Proof.
  split; [apply combine_extracted_texts_app|].
  destruct a as [|f files].
  - cbn [app]. unfold combine_extracted_texts. cbn [List.map join].
    now rewrite <- !app_assoc.
  - rewrite !combine_extracted_texts_app by discriminate.
    do 2 f_equal.
    unfold combine_extracted_texts. cbn [List.map join].
    now rewrite <- !app_assoc.
Qed.

End CombineBlocks.

(** ** [_extract_json_block]: braces and fences *)

Section ExtractBlock.

Lemma strip_substring (s : pystr) : exists w0 w1, s = w0 ++ strip s ++ w1.
Proof.
  destruct (drop_while_suffix is_space s) as [w0 H0].
  destruct (rstrip_prefix (lstrip s)) as [w1 H1].
  exists w0, w1. unfold strip. rewrite <- H1. exact H0.
Qed.

Lemma contains_strip marker (s : pystr) :
  contains marker s = false -> contains marker (strip s) = false.
Proof.
  destruct (strip_substring s) as (w0 & w1 & E). intros H. rewrite E in H.
  apply contains_suffix in H. now apply contains_prefix in H.
Qed.

Lemma In_strip c (s : pystr) :
  is_space c = false -> (In c (strip s) <-> In c s).
Proof.
  intros Hc.
  assert (H : forall u, In c (visible u) <-> In c u).
  { intros u. unfold visible. rewrite filter_In, Hc. simpl. tauto. }
  now rewrite <- (H (strip s)), visible_strip, H.
Qed.

Lemma In_split_first (x : codepoint) (s : pystr) :
  In x s -> exists a r, s = a ++ x :: r /\ ~ In x a.
Proof.
  induction s as [|c s IH]; [intros []|].
  intros H. destruct (N.eq_dec c x) as [->|Hc].
  - exists [], s. split; [reflexivity | intros []].
  - destruct H as [H|H]; [congruence|].
    destruct (IH H) as (a & r & -> & Hn).
    exists (c :: a), r. split; [reflexivity|].
    intros [E|E]; [congruence | tauto].
Qed.

Lemma find_char_absent x (s : pystr) : ~ In x s -> find_char x s = -1.
Proof.
  induction s as [|c s IH]; [reflexivity|].
  intros H. cbn [find_char].
  destruct (N.eqb_spec c x) as [->|_]; [exfalso; apply H; now left|].
  rewrite IH by (intros Hin; apply H; now right). reflexivity.
Qed.

Lemma depth_from_app d (a b : pystr) :
  depth_from d (a ++ b) = depth_from (depth_from d a) b.
Proof. unfold depth_from. apply fold_left_app. Qed.

Lemma depth_from_cons d c (s : pystr) :
  depth_from d (c :: s)
  = depth_from (if (c =? LBRACE)%N then d + 1
                else if (c =? RBRACE)%N then d - 1 else d) s.
Proof. reflexivity. Qed.

(** The loop over the characters after the first brace: the depth stays
    positive up to the brace that brings it to zero. *)
Lemma scan_braces_depth (r : pystr) : forall d i, 1 <= d ->
  match scan_braces r d i with
  | Some k =>
      exists a b, r = a ++ RBRACE :: b /\ k = i + len a
                  /\ depth_from d (a ++ [RBRACE]) = 0
                  /\ (forall p q, a = p ++ q -> 1 <= depth_from d p)
  | None => forall p q, r = p ++ q -> 1 <= depth_from d p
  end.
Proof.
  induction r as [|c r IH]; intros d i Hd.
  - cbn [scan_braces]. intros p q E. symmetry in E.
    apply app_eq_nil in E. destruct E as [-> _]. exact Hd.
  - cbn [scan_braces].
    assert (Hstep : forall d', 1 <= d' ->
              (if (c =? LBRACE)%N then d + 1
               else if (c =? RBRACE)%N then d - 1 else d) = d' ->
              match scan_braces r d' (i + 1) with
              | Some k =>
                  exists a b, c :: r = a ++ RBRACE :: b /\ k = i + len a
                    /\ depth_from d (a ++ [RBRACE]) = 0
                    /\ (forall p q, a = p ++ q -> 1 <= depth_from d p)
              | None => forall p q, c :: r = p ++ q -> 1 <= depth_from d p
              end).
    { intros d' Hd' Ed'. specialize (IH d' (i + 1) Hd').
      destruct (scan_braces r d' (i + 1)) as [k|].
      - destruct IH as (a & b & -> & -> & H0 & Hp).
        exists (c :: a), b. rewrite len_cons. repeat split; try lia.
        + change ((c :: a) ++ [RBRACE]) with (c :: (a ++ [RBRACE])).
          rewrite depth_from_cons, Ed'. exact H0.
        + intros p q E. destruct p as [|x p]; [exact Hd|].
          injection E as <- E. rewrite depth_from_cons, Ed'. now apply (Hp p q).
      - intros p q E. destruct p as [|x p]; [exact Hd|].
        injection E as <- E. rewrite depth_from_cons, Ed'. now apply (IH p q). }
    destruct (N.eqb_spec c LBRACE) as [Hl|Hl].
    + apply Hstep; lia.
    + destruct (N.eqb_spec c RBRACE) as [Hr|Hr].
      * destruct (Z.eqb_spec (d - 1) 0) as [E0|E0].
        -- exists [], r. subst c. repeat split; try (cbn; lia).
           intros p q E. symmetry in E. apply app_eq_nil in E.
           destruct E as [-> _]. exact Hd.
        -- apply Hstep; lia.
      * apply Hstep; lia.
Qed.

Lemma proper_prefix_cons c (a : pystr) z (p q : pystr) :
  c :: a ++ [z] = p ++ q -> p <> [] -> q <> [] ->
  exists p' q', p = c :: p' /\ a = p' ++ q'.
Proof.
  intros E Hp Hq.
  destruct p as [|x p]; [congruence|]. injection E as <- E.
  destruct (exists_last Hq) as (q' & w & ->).
  rewrite app_assoc in E. apply app_inj_tail in E. destruct E as [E _].
  eauto.
Qed.

Lemma extract_json_block_error (text : pystr) (e : exn) :
  _extract_json_block text = Raise e ->
  e = ExtractionError (py "JSON-об'єкт не знайдено у відповіді LLM")
  /\ ~ In LBRACE text.
Proof.
  unfold _extract_json_block.
  destruct (fence_search (strip text)); [discriminate|].
  destruct (Z.eqb_spec (find_char LBRACE (strip text)) (-1)) as [E|E].
  - intros [= <-]. split; [reflexivity|].
    intros Hin. apply (In_strip LBRACE text eq_refl) in Hin.
    destruct (In_split_first _ _ Hin) as (a & r & Es & Hn).
    rewrite Es, find_char_skip in E by exact Hn.
    pose proof (len_nonneg a). lia.
  - destruct (scan_braces _ _ _); discriminate.
Qed.

(** X5.  On a response without a triple backtick, [_extract_json_block]
    matches braces.  If the response has no opening brace, it fails with
    the error that no JSON object was found, and it fails in no other case
    and with no other error.  Otherwise it returns the part of the trimmed
    response that starts at the first opening brace and ends at the first
    closing brace at which as many braces have been closed as opened, every
    brace counted whether or not it stands inside a string; when there is
    no such closing brace, it returns everything from the first opening
    brace to the end. *)
Theorem extract_json_block_without_fence (text : pystr) :
  contains FENCE text = false ->
  (forall e, _extract_json_block text = Raise e ->
     e = ExtractionError (py "JSON-об'єкт не знайдено у відповіді LLM")
     /\ ~ In LBRACE text)
  /\ (~ In LBRACE text ->
      _extract_json_block text
      = Raise (ExtractionError (py "JSON-об'єкт не знайдено у відповіді LLM")))
  /\ (In LBRACE text ->
      exists pre js post,
        strip text = pre ++ js ++ post
        /\ ~ In LBRACE pre
        /\ _extract_json_block text = Ok js
        /\ starts_in (N.eqb LBRACE) js = true
        /\ (forall p q, js = p ++ q -> p <> [] -> q <> [] -> 1 <= brace_depth p)
        /\ ((brace_depth js = 0 /\ ends_in (N.eqb RBRACE) js = true)
            \/ (post = [] /\ 1 <= brace_depth js))).
Proof.
  intros Hc. split; [apply extract_json_block_error|]. split.
  - intros Hn. unfold _extract_json_block.
    rewrite fence_search_none by now apply contains_strip.
    rewrite find_char_absent; [reflexivity|].
    intros Hin. apply Hn. now apply (In_strip LBRACE text eq_refl).
  - intros Hin.
    apply (In_strip LBRACE text eq_refl) in Hin.
    destruct (In_split_first _ _ Hin) as (pre & r & Es & Hn).
    unfold _extract_json_block.
    rewrite fence_search_none by now apply contains_strip.
    rewrite Es, find_char_skip by exact Hn.
    pose proof (len_nonneg pre) as Hl.
    destruct (Z.eqb_spec (len pre) (-1)); [lia|].
    rewrite slice_from_app. cbn [scan_braces].
    change ((LBRACE =? LBRACE)%N) with true. cbv iota.
    pose proof (scan_braces_depth r (0 + 1) (len pre + 1) ltac:(lia)) as Hs.
    destruct (scan_braces r (0 + 1) (len pre + 1)) as [k|].
    + destruct Hs as (a & b & -> & -> & H0 & Hp).
      exists pre, (LBRACE :: a ++ [RBRACE]), b.
      split; [cbn [app]; now rewrite <- app_assoc|]. split; [exact Hn|]. split.
      * f_equal.
        replace (pre ++ LBRACE :: a ++ RBRACE :: b)
          with (pre ++ (LBRACE :: a ++ [RBRACE]) ++ b)
          by (cbn [app]; now rewrite <- app_assoc).
        replace (len pre + 1 + len a + 1)
          with (len pre + len (LBRACE :: a ++ [RBRACE]))
          by (rewrite len_cons, len_app; change (len [RBRACE]) with 1; lia).
        apply slice_middle.
      * split; [reflexivity|]. split.
        -- intros p q E Hpn Hqn.
           destruct (proper_prefix_cons _ _ _ _ _ E Hpn Hqn)
             as (p' & q' & -> & Ea).
           unfold brace_depth. rewrite depth_from_cons.
           change ((LBRACE =? LBRACE)%N) with true. cbv iota.
           now apply (Hp p' q').
        -- left. split.
           ++ unfold brace_depth. rewrite depth_from_cons. exact H0.
           ++ change (LBRACE :: a ++ [RBRACE]) with ((LBRACE :: a) ++ [RBRACE]).
              now rewrite ends_in_last.
    + exists pre, (LBRACE :: r), [].
      split; [now rewrite app_nil_r|]. split; [exact Hn|].
      split; [reflexivity|]. split; [reflexivity|]. split.
      * intros p q E Hpn Hqn. destruct p as [|x p]; [congruence|].
        injection E as <- E. unfold brace_depth. rewrite depth_from_cons.
        change ((LBRACE =? LBRACE)%N) with true. cbv iota.
        now apply (Hs p q).
      * right. split; [reflexivity|].
        unfold brace_depth. rewrite depth_from_cons.
        apply (Hs r []). now rewrite app_nil_r.
Qed.

Lemma strip_app_space (a w : pystr) : all_space w -> strip (a ++ w) = strip a.
Proof.
  intros Hw. unfold strip, lstrip. rewrite drop_while_app.
  destruct (forallb is_space a) eqn:Ea.
  - rewrite (drop_while_all is_space w Hw), (drop_while_all is_space a Ea).
    reflexivity.
  - unfold rstrip. rewrite rev_app_distr, drop_while_app.
    now rewrite (all_space_rev w Hw).
Qed.

Lemma strip_lstrip (s : pystr) : strip (lstrip s) = strip s.
Proof. unfold strip, lstrip. now rewrite drop_while_idem. Qed.

Lemma strip_chop_newline (s : pystr) : strip (chop_newline s) = strip s.
Proof.
  destruct (chop_newline_split s) as (t & E & [->| ->]).
  - rewrite app_nil_r in E. now rewrite <- E.
  - rewrite E at 2. symmetry. now apply strip_app_space.
Qed.

Lemma no_backtick_not_ending (s : pystr) :
  ~ In BACKTICK s -> not_ending_with BACKTICK s.
Proof.
  intros H. destruct (last_case s) as [->|(q & z & ->)]; [now left|].
  right. exists q, z. split; [reflexivity|].
  intros ->. apply H. apply in_or_app. right. now left.
Qed.

Lemma match_spaces_closing (s post : pystr) :
  ~ In BACKTICK s ->
  match_spaces (s ++ FENCE ++ post) = Some (chop_newline (lstrip s)).
Proof.
  intros Hs.
  rewrite <- (take_drop_while is_space s) at 1. rewrite <- app_assoc.
  fold (lstrip s).
  assert (Hl : ~ In BACKTICK (lstrip s)).
  { intros Hin. apply Hs. rewrite <- (take_drop_while is_space s).
    apply in_or_app. now right. }
  apply match_spaces_skip.
  - apply take_while_class.
  - destruct (lstrip s) as [|c u] eqn:E; [reflexivity|].
    pose proof (drop_while_starts is_space s) as H. fold (lstrip s) in H.
    now rewrite E in H.
  - apply match_group_closing.
    + now apply contains_fence_no_backtick.
    + now apply no_backtick_not_ending.
Qed.

Lemma starts_with_json_fence (body post : pystr) :
  starts_with (py "json") (body ++ FENCE ++ post) = starts_with (py "json") body.
Proof.
  rewrite FENCE_eq. change (py "json") with [106; 115; 111; 110]%N.
  destruct body as [|a [|b [|c [|d body]]]]; cbn [app starts_with];
    change ((106 =? BACKTICK)%N) with false;
    change ((115 =? BACKTICK)%N) with false;
    change ((111 =? BACKTICK)%N) with false;
    change ((110 =? BACKTICK)%N) with false;
    rewrite ?andb_false_r; reflexivity.
Qed.

Lemma starts_with_split (m s : pystr) :
  starts_with m s = true -> s = m ++ skipn (List.length m) s.
Proof.
  revert s. induction m as [|a m IH]; intros s; [reflexivity|].
  destruct s as [|b s]; [discriminate|]. cbn [starts_with].
  intros H. apply andb_prop in H. destruct H as [H1 H2].
  apply N.eqb_eq in H1. subst b. cbn [List.length skipn app]. f_equal.
  now apply IH.
Qed.

Lemma match_tag_closing (body post : pystr) :
  ~ In BACKTICK body ->
  match_tag (body ++ FENCE ++ post)
  = Some (chop_newline
            (lstrip (if starts_with (py "json") body
                     then skipn 4 body else body))).
Proof.
  intros Hb. unfold match_tag. rewrite starts_with_json_fence.
  destruct (starts_with (py "json") body) eqn:E.
  - apply starts_with_split in E. change (List.length (py "json")) with 4%nat in E.
    assert (Hs : ~ In BACKTICK (skipn 4 body)).
    { intros Hin. apply Hb. rewrite E. apply in_or_app. now right. }
    assert (Hskip : skipn 4 (body ++ FENCE ++ post)
                    = skipn 4 body ++ FENCE ++ post).
    { rewrite E at 1. rewrite <- app_assoc. reflexivity. }
    rewrite Hskip, match_spaces_closing by exact Hs. reflexivity.
  - now apply match_spaces_closing.
Qed.

Lemma fence_search_first (x rest g : pystr) :
  ~ In BACKTICK x -> match_tag rest = Some g ->
  fence_search (x ++ FENCE ++ rest) = Some g.
Proof.
  intros Hx Hg. induction x as [|c x IH].
  - now apply fence_search_fenced.
  - change ((c :: x) ++ FENCE ++ rest) with (c :: (x ++ FENCE ++ rest)).
    cbn [fence_search].
    rewrite starts_with_fence_cons by (intros ->; apply Hx; now left).
    apply IH. intros Hin. apply Hx. now right.
Qed.

(** X6.  A fenced block wins over everything around it.  When the response
    has a pair of triple backticks with no backtick before the first nor
    between the two, [_extract_json_block] returns the trimmed text between
    them, without a leading [json] tag: whatever stands before the block,
    a complete JSON object included, and whatever follows it, is ignored. *)
Theorem extract_json_block_fence_first (x body y : pystr) :
  ~ In BACKTICK x -> ~ In BACKTICK body ->
  _extract_json_block (x ++ FENCE ++ body ++ FENCE ++ y)
  = Ok (strip (if starts_with (py "json") body then skipn 4 body else body)).
Proof.
  intros Hx Hb. unfold _extract_json_block.
  assert (Es : strip (x ++ FENCE ++ body ++ FENCE ++ y)
               = lstrip x ++ FENCE ++ body ++ FENCE ++ rstrip y).
  { unfold strip. rewrite lstrip_keep by reflexivity.
    replace (lstrip x ++ FENCE ++ body ++ FENCE ++ y)
      with ((lstrip x ++ FENCE ++ body ++ FENCE) ++ y)
      by now rewrite <- !app_assoc.
    rewrite rstrip_keep.
    - now rewrite <- !app_assoc.
    - rewrite !app_assoc. now rewrite ends_in_app by discriminate. }
  rewrite Es.
  assert (Hx' : ~ In BACKTICK (lstrip x)).
  { intros Hin. apply Hx. rewrite <- (take_drop_while is_space x).
    apply in_or_app. now right. }
  rewrite (fence_search_first _ _ _ Hx' (match_tag_closing body _ Hb)).
  now rewrite strip_chop_newline, strip_lstrip.
Qed.

End ExtractBlock.

Lemma In_existsb c (s : pystr) : existsb (N.eqb c) s = true -> In c s.
Proof.
  intros H. apply existsb_exists in H. destruct H as (x & Hin & Hx).
  apply N.eqb_eq in Hx. now subst x.
Qed.

Lemma not_In_existsb c (s : pystr) : existsb (N.eqb c) s = false -> ~ In c s.
Proof.
  intros H Hin. assert (Ht : existsb (N.eqb c) s = true).
  { apply existsb_exists. exists c. split; [exact Hin | apply N.eqb_refl]. }
  congruence.
Qed.

(** A sentence around nested braces: the span is from the first brace to
    the brace that closes it. *)
Lemma extract_json_block_without_fence_witness :
  exists pre js post,
    strip (py "Here: {a: {b: 1}} and {c}.") = pre ++ js ++ post
    /\ ~ In LBRACE pre
    /\ _extract_json_block (py "Here: {a: {b: 1}} and {c}.") = Ok js
    /\ starts_in (N.eqb LBRACE) js = true
    /\ (forall p q, js = p ++ q -> p <> [] -> q <> [] -> 1 <= brace_depth p)
    /\ ((brace_depth js = 0 /\ ends_in (N.eqb RBRACE) js = true)
        \/ (post = [] /\ 1 <= brace_depth js)).
Proof.
  apply (proj2 (proj2 (extract_json_block_without_fence
                         (py "Here: {a: {b: 1}} and {c}.") eq_refl))).
  apply In_existsb. reflexivity.
Defined.

(** An object, then a fenced block tagged [json]: the block is taken. *)
Lemma extract_json_block_fence_first_witness :
  _extract_json_block
    (py "{a: 1} then " ++ FENCE
     ++ (py "json" ++ [NL] ++ py "{b: 2}" ++ [NL]) ++ FENCE ++ py " end")
  = Ok (strip (if starts_with (py "json")
                    (py "json" ++ [NL] ++ py "{b: 2}" ++ [NL])
               then skipn 4 (py "json" ++ [NL] ++ py "{b: 2}" ++ [NL])
               else py "json" ++ [NL] ++ py "{b: 2}" ++ [NL])).
Proof.
  apply (extract_json_block_fence_first (py "{a: 1} then ")
           (py "json" ++ [NL] ++ py "{b: 2}" ++ [NL]) (py " end"));
    apply not_In_existsb; reflexivity.
Defined.

(** ** [_to_float]: parentheses and values that are not finite *)

Section ToFloatMore.
Context {ucd : UnicodeData}.
Context {stack : Interpreter}.

Lemma existsb_newline_absent (s : pystr) :
  ~ In NL s -> existsb is_newline s = false.
Proof.
  intros H. destruct (existsb is_newline s) eqn:E; [|reflexivity].
  apply existsb_exists in E. destruct E as (c & Hin & Hc).
  apply is_newline_eq in Hc. now subst c.
Qed.

Lemma paren_match_wrapped (s : pystr) :
  s <> [] -> ~ In NL s -> paren_match (40%N :: s ++ [41%N]) = Some s.
Proof.
  intros Hs Hn. unfold paren_match.
  rewrite rev_app_distr. cbn [rev app]. rewrite rev_involutive.
  rewrite (existsb_newline_absent s Hn).
  destruct s as [|c s]; [congruence | reflexivity].
Qed.

(** X7.  A value in parentheses is the negated value of what stands inside
    them.  Around the parentheses whitespace is ignored, and the text
    inside, which is not empty and has no newline, is converted by a
    nested call, one level further down the stack, and its sign is
    flipped; when the inside converts to no value, so does the whole.
    What the nested call returns is what [_to_float] returns for the
    inside alone.  The nested call fails only with [RecursionError], and
    the whole call then fails with it: this takes parentheses nested
    deeper than the stack admits, and does not happen when the inside has
    no more characters than the stack admits calls. *)
Theorem to_float_parentheses (w0 s w1 : pystr) :
  all_space w0 -> all_space w1 -> s <> [] -> ~ In NL s ->
  _to_float (PStr (w0 ++ (40%N :: s ++ [41%N]) ++ w1))
  = (inner <- _to_float_str recursion_budget s ;;
     Ok (option_map float_neg inner))
  /\ (forall r, _to_float_str recursion_budget s = Ok r ->
                _to_float (PStr s) = Ok r)
  /\ (forall e, _to_float_str recursion_budget s = Raise e ->
                exists m, e = RecursionError m)
  /\ ((List.length s <= recursion_budget)%nat ->
      exists r, _to_float_str recursion_budget s = Ok r).
Proof.
  intros H0 H1 Hs Hn. split; [|split; [|split]].
  - unfold _to_float. rewrite _to_float_str_unfold. cbv zeta.
    rewrite strip_around; [ | exact H0 | exact H1 | reflexivity | ].
    2:{ change (40%N :: s ++ [41%N]) with ((40%N :: s) ++ [41%N]).
        now rewrite ends_in_last. }
    cbn [lower flat_map]. change ((65 <=? 40)%N && (40 <=? 90)%N) with false.
    change ((40 <? 128)%N) with true. cbv iota. cbn [app pystr_eqb].
    change (py "-") with [45%N]. change (py "null") with [110; 117; 108; 108]%N.
    change (py "none") with [110; 111; 110; 101]%N. cbn [pystr_eqb].
    change ((40 =? 45)%N) with false. change ((40 =? 110)%N) with false.
    cbn [andb orb].
    rewrite paren_match_wrapped by assumption.
    destruct (_to_float_str recursion_budget s) as [[x|]|e]; reflexivity.
  - intros r Hr. unfold _to_float. now apply _to_float_str_more.
  - intros e He. eexists. exact (_to_float_str_raises _ _ _ He).
  - apply _to_float_str_enough.
Qed.

End ToFloatMore.

(** The minus sign inside parentheses, after a space: the value is 5. *)
Lemma to_float_parentheses_witness :
  _to_float (ucd := ascii_only)
    (PStr ([SP] ++ (40%N :: py "-5" ++ [41%N]) ++ []))
  = Ok (Some (S754_finite false (5 * 2 ^ 50) (-50)))
  /\ _to_float (ucd := ascii_only) (PStr (py "-5"))
     = Ok (Some (S754_finite true (5 * 2 ^ 50) (-50))).
Proof.
  destruct (to_float_parentheses (ucd := ascii_only) [SP] (py "-5") [])
    as (Hwhole & Hinside & _).
  - reflexivity.
  - reflexivity.
  - discriminate.
  - apply not_In_existsb. reflexivity.
  - split.
    + etransitivity; [exact Hwhole|]. vm_compute. reflexivity.
    + apply Hinside. vm_compute. reflexivity.
Defined.

Section NonFinite.
Context {ucd : UnicodeData}.
Context {stack : Interpreter}.

Lemma ascii_lower_inv c l :
  ascii_lower c = l -> c = l \/ c = (l - 32)%N.
Proof.
  unfold ascii_lower. destruct (_ && _); intros <-; [right | left]; lia.
Qed.

Ltac word_cases word H :=
  repeat (destruct word as [|?c word]; [discriminate H|];
          injection H as ?Hc H);
  destruct word; [clear H | discriminate H];
  repeat match goal with
         | Hc : ascii_lower _ = _ |- _ =>
             apply ascii_lower_inv in Hc; destruct Hc; subst
         end.

Ltac run_to_float H0 H1 :=
  cbn [_to_float _to_float_str];
  rewrite strip_around by (exact H0 || exact H1 || reflexivity);
  vm_compute; reflexivity.

(** X8.  The words [nan] and [inf], in any letter case and between any
    whitespace, are numbers to [_to_float]: [nan] converts to the float
    that is not a number, [inf] to positive infinity and [-inf] to negative
    infinity.  A value of a section can therefore be a float that is not
    finite. *)
Theorem to_float_non_finite (w0 word w1 : pystr) :
  all_space w0 -> all_space w1 ->
  (List.map ascii_lower word = py "nan" ->
   _to_float (PStr (w0 ++ word ++ w1)) = Ok (Some S754_nan))
  /\ (List.map ascii_lower word = py "inf" ->
      _to_float (PStr (w0 ++ word ++ w1)) = Ok (Some (S754_infinity false))
      /\ _to_float (PStr (w0 ++ (45%N :: word) ++ w1))
         = Ok (Some (S754_infinity true))).
Proof.
  intros H0 H1. split.
  - intros H. change (py "nan") with [110; 97; 110]%N in H.
    word_cases word H; run_to_float H0 H1.
  - intros H. change (py "inf") with [105; 110; 102]%N in H.
    word_cases word H; split; run_to_float H0 H1.
Qed.

End NonFinite.

Lemma to_float_non_finite_witness :
  (List.map ascii_lower (py "NaN") = py "nan" ->
   _to_float (ucd := ascii_only) (PStr ([SP] ++ py "NaN" ++ [NL]))
   = Ok (Some S754_nan))
  /\ (List.map ascii_lower (py "NaN") = py "inf" ->
      _to_float (ucd := ascii_only) (PStr ([SP] ++ py "NaN" ++ [NL]))
      = Ok (Some (S754_infinity false))
      /\ _to_float (ucd := ascii_only) (PStr ([SP] ++ (45%N :: py "NaN") ++ [NL]))
         = Ok (Some (S754_infinity true))).
Proof.
  apply (to_float_non_finite (ucd := ascii_only) [SP] (py "NaN") [NL]);
    reflexivity.
Defined.

(** ** [_normalize_section] and [parse_llm_json]: what comes out *)

Section ParseResult.
Context {ucd : UnicodeData}.
Context {stack : Interpreter}.
Variable json_loads : pystr -> outcome pyval.

Lemma In_dict_set (V : Type) (d : list (pystr * V)) k v k' v' :
  In (k', v') (dict_set d k v) -> In (k', v') d \/ (k' = k /\ v' = v).
Proof.
  induction d as [|[k0 v0] d IH]; cbn [dict_set].
  - intros [[= <- <-]|[]]. now right.
  - destruct (pystr_eqb k0 k) eqn:E.
    + apply pystr_eqb_eq in E. subst k0.
      intros [[= <- <-]|H]; [now right | left; now right].
    + intros [H|H]; [left; now left|].
      destruct (IH H) as [H'|H']; [left; now right | now right].
Qed.

Lemma dict_set_length (V : Type) (d : list (pystr * V)) k v :
  (List.length (dict_set d k v) <= S (List.length d))%nat.
Proof.
  induction d as [|[k0 v0] d IH]; cbn [dict_set List.length]; [lia|].
  destruct (pystr_eqb k0 k); cbn [List.length]; lia.
Qed.

Lemma to_float_raises val e :
  _to_float val = Raise e ->
  (exists m, e = OverflowError m) \/ (exists m, e = RecursionError m).
Proof.
  unfold _to_float, float_of_int.
  destruct val as [|b|n|x|s|l|d]; try discriminate.
  - destruct (binary_normalize _ _ _ _ _); cbn; intros [= <-]; eauto.
  - destruct (binary_normalize _ _ _ _ _); cbn; intros [= <-]; eauto.
  - intros H. right. eexists. exact (_to_float_str_raises _ _ _ H).
Qed.

(** The loop of [_normalize_section] keeps its result a dict of digit codes,
    each with a value converted from an entry of that code. *)
Lemma normalize_loop_entries items : forall r0 r,
  _normalize_section_loop items r0 = Ok r ->
  (NoDup (dict_keys r0) -> NoDup (dict_keys r))
  /\ (List.length r <= List.length r0 + List.length items)%nat
  /\ (forall code x, In (code, x) r ->
        In (code, x) r0
        \/ (isdigit code = true
            /\ exists key val, In (key, val) items /\ code_of key = code
                               /\ _to_float val = Ok (Some x))).
Proof.
  induction items as [|[key val] rest IH]; intros r0 r.
  - intros [= <-]. repeat split; [trivial | cbn; lia | now left].
  - rewrite normalize_loop_cons.
    assert (Hskip : _normalize_section_loop rest r0 = Ok r ->
      (NoDup (dict_keys r0) -> NoDup (dict_keys r))
      /\ (List.length r <= List.length r0 + List.length ((key, val) :: rest))%nat
      /\ (forall code x, In (code, x) r ->
            In (code, x) r0
            \/ (isdigit code = true
                /\ exists key' val', In (key', val') ((key, val) :: rest)
                     /\ code_of key' = code /\ _to_float val' = Ok (Some x)))).
    { intros H. destruct (IH _ _ H) as (H1 & H2 & H3).
      repeat split; [exact H1 | cbn [List.length]; lia |].
      intros code x Hin. destruct (H3 code x Hin) as [Hl|(Hd & k' & v' & Hk & Hc & Hf)];
        [now left | right].
      split; [exact Hd|]. exists k', v'. repeat split; trivial. now right. }
    destruct (negb (isdigit (code_of key))) eqn:Ed; [exact Hskip|].
    apply negb_false_iff in Ed.
    destruct (_to_float val) as [[x0|]|e] eqn:Ef; [|exact Hskip|discriminate].
    intros H. destruct (IH _ _ H) as (H1 & H2 & H3).
    repeat split.
    + intros Hn. apply H1. now apply dict_set_keys_NoDup.
    + pose proof (dict_set_length _ r0 (code_of key) x0). cbn [List.length]. lia.
    + intros code x Hin.
      destruct (H3 code x Hin) as [Hl|(Hd & k' & v' & Hk & Hc & Hf)].
      * apply In_dict_set in Hl. destruct Hl as [Hl|[-> ->]]; [now left | right].
        split; [exact Ed|]. exists key, val. repeat split; trivial. now left.
      * right. split; [exact Hd|]. exists k', v'. repeat split; trivial. now right.
Qed.

Lemma normalize_loop_raises items : forall r0 e,
  _normalize_section_loop items r0 = Raise e ->
  (exists m, e = OverflowError m) \/ (exists m, e = RecursionError m).
Proof.
  induction items as [|[key val] rest IH]; intros r0 e; [discriminate|].
  rewrite normalize_loop_cons.
  destruct (negb (isdigit (code_of key))); [apply IH|].
  destruct (_to_float val) as [[x0|]|e'] eqn:Ef; [apply IH | apply IH |].
  intros [= <-]. now apply (to_float_raises val).
Qed.

(** X9.  The section [_normalize_section] returns has pairwise distinct
    keys, no more entries than the section it was given, and each of its
    entries comes from an entry of that section: its key is a string of
    digits, the code that entry's key stands for, and its value is the
    float that entry's value converts to. *)
Theorem normalize_section_entries (section : list (pystr * pyval))
    (result : list (pystr * float)) :
  _normalize_section section = Ok result ->
  NoDup (dict_keys result)
  /\ (List.length result <= List.length section)%nat
  /\ (forall code x, In (code, x) result ->
        isdigit code = true
        /\ exists key val, In (key, val) section /\ code_of key = code
                           /\ _to_float val = Ok (Some x)).
Proof.
  intros H. destruct (normalize_loop_entries _ _ _ H) as (H1 & H2 & H3).
  repeat split.
  - apply H1. constructor.
  - exact H2.
  - destruct (H3 code x H0) as [[]|[Hd _]]. exact Hd.
  - destruct (H3 code x H0) as [[]|[_ He]]. exact He.
Qed.

Lemma normalize_key_ok data key data' :
  dict_has data key = true ->
  normalize_key data key = Ok data' ->
  exists items section,
    dict_get data key = Some (PDict items)
    /\ _normalize_section items = Ok section
    /\ data' = dict_set data key (float_section section).
Proof.
  unfold normalize_key, dict_has.
  destruct (dict_get data key) as [[| | | | | |items]|] eqn:Eg; try discriminate.
  intros _.
  destruct (_normalize_section items) as [section|e] eqn:En; [|discriminate].
  cbn [bind outcome_monad]. intros [= <-]. eauto.
Qed.

Lemma normalize_key_raises data key e :
  normalize_key data key = Raise e ->
  (exists m, e = ExtractionError m)
  \/ (exists m, e = OverflowError m) \/ (exists m, e = RecursionError m).
Proof.
  unfold normalize_key.
  destruct (match dict_get data key with Some v => v | None => PDict [] end)
    as [| | | | | |items]; try (intros [= <-]; left; eauto).
  destruct (_normalize_section items) as [section|e'] eqn:En; [discriminate|].
  cbn [bind outcome_monad]. intros [= <-]. right.
  now apply (normalize_loop_raises items []).
Qed.

Lemma dict_get_setdefault (V : Type) (d : list (pystr * V)) k v k' :
  dict_get (dict_setdefault d k v) k' =
  if pystr_eqb k k'
  then match dict_get d k with Some x => Some x | None => Some v end
  else dict_get d k'.
Proof.
  unfold dict_setdefault, dict_has.
  destruct (dict_get d k) as [x|] eqn:E.
  - destruct (pystr_eqb k k') eqn:Ek; [|reflexivity].
    apply pystr_eqb_eq in Ek. now subst k'.
  - apply dict_get_set.
Qed.

Lemma dict_has_set (V : Type) (d : list (pystr * V)) k v k' :
  dict_has d k' = true -> dict_has (dict_set d k v) k' = true.
Proof.
  unfold dict_has. rewrite dict_get_set.
  destruct (pystr_eqb k k'); [reflexivity | trivial].
Qed.

Lemma missing_keys_nil obj :
  missing_keys obj = [] -> forall key, In key REQUIRED_KEYS -> dict_has obj key = true.
Proof.
  intros H key Hin. destruct (dict_has obj key) eqn:E; [reflexivity|].
  assert (Hm : In key (missing_keys obj)).
  { unfold missing_keys. apply filter_In. now rewrite E. }
  rewrite H in Hm. destruct Hm.
Qed.

(** The steps of a successful run of [parse_llm_json] *)
Lemma parse_llm_json_ok_inv raw data :
  parse_llm_json json_loads raw = Ok data ->
  exists js obj d1 d2 d3,
    _extract_json_block raw = Ok js
    /\ json_loads js = Ok (PDict obj)
    /\ missing_keys obj = []
    /\ normalize_key obj (py "balance_start") = Ok d1
    /\ normalize_key d1 (py "balance_end") = Ok d2
    /\ normalize_key d2 (py "income_current") = Ok d3
    /\ data = dict_setdefault
                (dict_setdefault d3 (py "company_name")
                   (PStr (py "Невідома компанія")))
                (py "period") (PStr (py "—")).
Proof.
  unfold parse_llm_json.
  destruct (_ || _); [discriminate|].
  destruct (_extract_json_block raw) as [js|e]; [|discriminate].
  cbn [bind outcome_monad].
  destruct (json_loads js) as [v|e] eqn:El; [|destruct e; discriminate].
  destruct v as [| | | | | |obj]; try discriminate.
  fold (missing_keys obj).
  destruct (missing_keys obj) eqn:Em; [|discriminate].
  destruct (normalize_key obj _) as [d1|] eqn:E1;
    cbn [bind outcome_monad]; [|discriminate].
  destruct (normalize_key d1 _) as [d2|] eqn:E2;
    cbn [bind outcome_monad]; [|discriminate].
  destruct (normalize_key d2 _) as [d3|] eqn:E3;
    cbn [bind outcome_monad]; [|discriminate].
  intros [= <-]. exists js, obj, d1, d2, d3. repeat split; trivial.
Qed.

Lemma required_cases key :
  In key REQUIRED_KEYS ->
  key = py "balance_start" \/ key = py "balance_end" \/ key = py "income_current".
Proof. intros [H|[H|[H|[]]]]; auto. Qed.

(** X10.  When [parse_llm_json] returns a dict, the text it took from the
    response decoded to an object, and the dict is that object with two
    changes.  Under each of the three required keys stands the normalized
    form of the section the object had there.  Under [company_name] and
    [period] stands what the object had, whatever its type, [null]
    included, and the default only when the object had no such key.  Every
    other key keeps its value, and no key is added. *)
Theorem parse_llm_json_result (raw : pystr) (data : list (pystr * pyval)) :
  parse_llm_json json_loads raw = Ok data ->
  exists js obj,
    _extract_json_block raw = Ok js
    /\ json_loads js = Ok (PDict obj)
    /\ (forall key, In key REQUIRED_KEYS ->
          exists items section,
            dict_get obj key = Some (PDict items)
            /\ _normalize_section items = Ok section
            /\ dict_get data key = Some (float_section section))
    /\ (forall key, ~ In key REQUIRED_KEYS ->
          dict_get data key =
          match dict_get obj key with
          | Some v => Some v
          | None =>
              if pystr_eqb key (py "company_name")
              then Some (PStr (py "Невідома компанія"))
              else if pystr_eqb key (py "period") then Some (PStr (py "—"))
              else None
          end).
Proof.
  intros H.
  destruct (parse_llm_json_ok_inv raw data H)
    as (js & obj & d1 & d2 & d3 & Hx & Hl & Hm & H1 & H2 & H3 & ->).
  pose proof (missing_keys_nil obj Hm) as Hhas.
  assert (Hbs : dict_has obj (py "balance_start") = true)
    by (apply Hhas; cbn; auto).
  assert (Hbe : dict_has obj (py "balance_end") = true)
    by (apply Hhas; cbn; auto).
  assert (Hic : dict_has obj (py "income_current") = true)
    by (apply Hhas; cbn; auto).
  destruct (normalize_key_ok _ _ _ Hbs H1) as (i1 & s1 & G1 & N1 & ->).
  destruct (normalize_key_ok _ _ _ (dict_has_set _ _ _ _ _ Hbe) H2)
    as (i2 & s2 & G2 & N2 & ->).
  destruct (normalize_key_ok _ _ _
              (dict_has_set _ _ _ _ _ (dict_has_set _ _ _ _ _ Hic)) H3)
    as (i3 & s3 & G3 & N3 & ->).
  rewrite dict_get_set in G2. change (pystr_eqb (py "balance_start") (py "balance_end")) with false in G2.
  rewrite !dict_get_set in G3.
  change (pystr_eqb (py "balance_end") (py "income_current")) with false in G3.
  change (pystr_eqb (py "balance_start") (py "income_current")) with false in G3.
  exists js, obj. split; [exact Hx|]. split; [exact Hl|]. split.
  - intros key Hin.
    destruct (required_cases key Hin) as [->|[->| ->]].
    + exists i1, s1. repeat split; trivial.
      rewrite !dict_get_setdefault, !dict_get_set. reflexivity.
    + exists i2, s2. repeat split; trivial.
      rewrite !dict_get_setdefault, !dict_get_set. reflexivity.
    + exists i3, s3. repeat split; trivial.
      rewrite !dict_get_setdefault, !dict_get_set. reflexivity.
  - intros key Hn.
    assert (K1 : pystr_eqb (py "balance_start") key = false)
      by (apply pystr_eqb_neq; intros <-; apply Hn; cbn; auto).
    assert (K2 : pystr_eqb (py "balance_end") key = false)
      by (apply pystr_eqb_neq; intros <-; apply Hn; cbn; auto).
    assert (K3 : pystr_eqb (py "income_current") key = false)
      by (apply pystr_eqb_neq; intros <-; apply Hn; cbn; auto).
    rewrite !dict_get_setdefault, !dict_get_set.
    change (pystr_eqb (py "company_name") (py "period")) with false.
    change (pystr_eqb (py "income_current") (py "period")) with false.
    change (pystr_eqb (py "balance_end") (py "period")) with false.
    change (pystr_eqb (py "balance_start") (py "period")) with false.
    change (pystr_eqb (py "income_current") (py "company_name")) with false.
    change (pystr_eqb (py "balance_end") (py "company_name")) with false.
    change (pystr_eqb (py "balance_start") (py "company_name")) with false.
    rewrite K1, K2, K3.
    rewrite (pystr_eqb_sym key (py "company_name")), (pystr_eqb_sym key (py "period")).
    destruct (pystr_eqb (py "period") key) eqn:Ep.
    + apply pystr_eqb_eq in Ep. subst key.
      change (pystr_eqb (py "company_name") (py "period")) with false.
      destruct (dict_get obj (py "period")); reflexivity.
    + destruct (pystr_eqb (py "company_name") key) eqn:Ec.
      * apply pystr_eqb_eq in Ec. subst key.
        destruct (dict_get obj (py "company_name")); reflexivity.
      * destruct (dict_get obj key); reflexivity.
Qed.

(** X11.  The exceptions of [parse_llm_json].  Whatever the response, an
    exception it raises is an [ExtractionError], or an [OverflowError] (of
    an integer too large for a float), or a [RecursionError] (of a value
    in parentheses nested deeper than the stack admits), or an exception
    of the decoder that is no [JSONDecodeError], passed on unchanged. *)
Theorem parse_llm_json_raises (raw : pystr) (e : exn) :
  parse_llm_json json_loads raw = Raise e ->
  (exists m, e = ExtractionError m)
  \/ (exists m, e = OverflowError m)
  \/ (exists m, e = RecursionError m)
  \/ (exists js, _extract_json_block raw = Ok js /\ json_loads js = Raise e
                 /\ forall m, e <> JSONDecodeError m).
Proof.
  unfold parse_llm_json.
  destruct (_ || _); [intros [= <-]; left; eauto|].
  destruct (_extract_json_block raw) as [js|e0] eqn:Ex.
  2:{ cbn [bind outcome_monad]. intros [= <-]. left.
      destruct (extract_json_block_error raw e0 Ex) as [-> _]. eauto. }
  cbn [bind outcome_monad].
  destruct (json_loads js) as [v|e0] eqn:El.
  2:{ destruct e0; intros [= <-];
        try (right; right; right; exists js; repeat split; trivial;
             discriminate).
      left; eauto. }
  destruct v as [| | | | | |obj]; try (intros [= <-]; left; eauto).
  destruct (filter _ _); [|intros [= <-]; left; eauto].
  destruct (normalize_key obj _) as [d1|e1] eqn:E1; cbn [bind outcome_monad];
    [|intros [= <-]; destruct (normalize_key_raises _ _ _ E1) as [?|[?|?]];
      auto].
  destruct (normalize_key d1 _) as [d2|e2] eqn:E2; cbn [bind outcome_monad];
    [|intros [= <-]; destruct (normalize_key_raises _ _ _ E2) as [?|[?|?]];
      auto].
  destruct (normalize_key d2 _) as [d3|e3] eqn:E3; cbn [bind outcome_monad];
    [|intros [= <-]; destruct (normalize_key_raises _ _ _ E3) as [?|[?|?]];
      auto].
  discriminate.
Qed.

End ParseResult.

Lemma normalize_section_entries_witness :
  NoDup (dict_keys [(py "1000", float_of_decimal false 7328 (-1))])
  /\ (List.length [(py "1000", float_of_decimal false 7328 (-1))]
      <= List.length [(py "р.1000", PStr (py "732,8"));
                      (py "total", PInt 5); (py " 1000 ", PNone)])%nat
  /\ (forall code x,
        In (code, x) [(py "1000", float_of_decimal false 7328 (-1))] ->
        isdigit (ucd := ascii_only) code = true
        /\ exists key val,
             In (key, val) [(py "р.1000", PStr (py "732,8"));
                            (py "total", PInt 5); (py " 1000 ", PNone)]
             /\ code_of key = code
             /\ _to_float (ucd := ascii_only) val = Ok (Some x)).
Proof.
  apply (normalize_section_entries (ucd := ascii_only)).
  vm_compute. reflexivity.
Defined.

Lemma parse_llm_json_result_witness :
  exists js obj,
    _extract_json_block sample_answer = Ok js
    /\ json.loads (ucd := ascii_only) js = Ok (PDict obj)
    /\ (forall key, In key REQUIRED_KEYS ->
          exists items section,
            dict_get obj key = Some (PDict items)
            /\ _normalize_section (ucd := ascii_only) items = Ok section
            /\ dict_get sample_parsed key = Some (float_section section))
    /\ (forall key, ~ In key REQUIRED_KEYS ->
          dict_get sample_parsed key =
          match dict_get obj key with
          | Some v => Some v
          | None =>
              if pystr_eqb key (py "company_name")
              then Some (PStr (py "Невідома компанія"))
              else if pystr_eqb key (py "period") then Some (PStr (py "—"))
              else None
          end).
Proof.
  apply (parse_llm_json_result (ucd := ascii_only) json.loads sample_answer
           sample_parsed).
  vm_compute. reflexivity.
Defined.

(** An integer of 310 digits under a code: the [OverflowError] of [float]
    leaves [parse_llm_json] as it is. *)
Lemma parse_llm_json_raises_witness :
  (exists m, OverflowError (py "int too large to convert to float")
             = ExtractionError m)
  \/ (exists m, OverflowError (py "int too large to convert to float")
                = OverflowError m)
  \/ (exists m, OverflowError (py "int too large to convert to float")
                = RecursionError m)
  \/ (exists js, _extract_json_block sample_huge_answer = Ok js
                 /\ json.loads (ucd := ascii_only) js
                    = Raise (OverflowError (py "int too large to convert to float"))
                 /\ forall m, OverflowError (py "int too large to convert to float")
                              <> JSONDecodeError m).
Proof.
  apply (parse_llm_json_raises (ucd := ascii_only) json.loads sample_huge_answer).
  vm_compute. reflexivity.
Defined.

(** A value in three pairs of parentheses, on a stack that admits two
    nested calls and on a roomy one. *)
Lemma parse_llm_json_recursion_error :
  parse_llm_json (ucd := ascii_only) (stack := tight_stack)
    (json.loads (ucd := ascii_only))
    sample_nested_answer
  = Raise (RecursionError (py "maximum recursion depth exceeded"))
  /\ exists data,
       parse_llm_json (ucd := ascii_only) (stack := roomy_stack)
         (json.loads (ucd := ascii_only))
         sample_nested_answer
       = Ok data
       /\ dict_get data (py "balance_start")
          = Some (PDict [(py "1000",
                          PFloat (S754_finite true (5 * 2 ^ 50) (-50)))]).
Proof. split; [|eexists; split]; vm_compute; reflexivity. Qed.

(** ** [is_allowed_extension] and [extract_text]: the dispatch *)

Section ExtensionFacts.
Import extractor.
Context {ucd : UnicodeData}.
Context {stack : Interpreter}.

Lemma rfind_char_last x (a b : pystr) :
  ~ In x b -> rfind_char x (a ++ x :: b) = len a.
Proof.
  intros Hb. induction a as [|c a IH].
  - cbn [app rfind_char]. rewrite (rfind_char_absent x b Hb).
    cbn [Z.leb Z.compare]. now rewrite N.eqb_refl.
  - cbn [app rfind_char]. rewrite IH. pose proof (len_nonneg a).
    destruct (Z.leb_spec 0 (len a)); [|lia]. rewrite len_cons. lia.
Qed.

Lemma get_extension_last (stem ext : pystr) :
  ~ In 46%N ext -> _get_extension (stem ++ 46%N :: ext) = lower (46%N :: ext).
Proof.
  intros H. unfold _get_extension. rewrite rfind_char_last by exact H.
  pose proof (len_nonneg stem).
  destruct (Z.eqb_spec (len stem) (-1)); [lia|].
  now rewrite slice_from_app.
Qed.

Lemma get_extension_none (filename : pystr) :
  ~ In 46%N filename -> _get_extension filename = [].
Proof.
  intros H. unfold _get_extension. now rewrite rfind_char_absent.
Qed.

(** X12.  Only what follows the last dot of a filename counts: a filename
    is allowed exactly when it has a dot and the text from its last dot on,
    in lower case, is one of the six allowed extensions.  A name without a
    dot is refused, and so is a name whose allowed extension is followed by
    another one. *)
Theorem is_allowed_extension_last_dot (filename : pystr) :
  is_allowed_extension filename = true
  <-> exists stem ext,
        filename = stem ++ 46%N :: ext /\ ~ In 46%N ext
        /\ mem (lower (46%N :: ext)) ALLOWED_EXTENSIONS = true.
Proof.
  unfold is_allowed_extension. split.
  - intros H.
    destruct (rfind_char_spec 46%N filename) as [[_ Hn]|(a & b & E & Hn & _)].
    + rewrite get_extension_none in H by exact Hn. discriminate H.
    + exists a, b. rewrite E, get_extension_last in H by exact Hn. auto.
  - intros (stem & ext & -> & Hn & H). now rewrite get_extension_last.
Qed.

(** X13.  The dispatcher and the validation agree.  For a filename that
    [is_allowed_extension] refuses, [extract_text] calls no collaborator and
    raises the [ValueError] that names the extension.  For a filename it
    accepts, [extract_text] runs one of the four extractors, on the bytes it
    was given, and returns the cleaned text of what that extractor returns;
    an exception is then the extractor's. *)
Theorem extract_text_dispatch (b : backends) (filename : pystr)
    (file_bytes : bytes) :
  (is_allowed_extension filename = false ->
   extract_text b filename file_bytes
   = ([], Raise (ValueError (py "Unsupported file extension: "
                             ++ _get_extension filename))))
  /\ (is_allowed_extension filename = true ->
      exists backend : M pystr,
        extract_text b filename file_bytes
        = (raw_text <- backend ;; ret (clean_text raw_text))
        /\ (backend = pdf_extractor.extract_text_from_pdf (fitz_open b)
                        file_bytes
                        (image_extractor.get_ocr_func (ocr_engine b))
            \/ backend = image_extractor.extract_text_from_image
                           (ocr_engine b) file_bytes
            \/ backend = ([], extract_text_from_excel b file_bytes)
            \/ backend = ([], extract_text_from_docx b file_bytes))).
Proof.
  unfold is_allowed_extension, extract_text, ALLOWED_EXTENSIONS,
    IMAGE_EXTENSIONS, mem.
  set (ext := _get_extension filename). cbn [existsb].
  destruct (pystr_eqb ext (py ".pdf")); cbn [orb].
  { split; [discriminate|]. intros _. eexists. split; [reflexivity|]. auto. }
  destruct (pystr_eqb ext (py ".png")); cbn [orb].
  { split; [discriminate|]. intros _. eexists. split; [reflexivity|]. auto. }
  destruct (pystr_eqb ext (py ".jpg")); cbn [orb].
  { split; [discriminate|]. intros _. eexists. split; [reflexivity|]. auto. }
  destruct (pystr_eqb ext (py ".jpeg")); cbn [orb].
  { split; [discriminate|]. intros _. eexists. split; [reflexivity|]. auto. }
  destruct (pystr_eqb ext (py ".xlsx")); cbn [orb].
  { split; [discriminate|]. intros _. eexists. split; [reflexivity|]. auto 6. }
  destruct (pystr_eqb ext (py ".docx")); cbn [orb].
  { split; [discriminate|]. intros _. eexists. split; [reflexivity|]. auto 6. }
  split; [reflexivity | discriminate].
Qed.

End ExtensionFacts.

(** ** [extract_text]: cleaned texts, and the OCR engine *)

Section ExtractClean.
Import extractor.
Context {ucd : UnicodeData}.
Context {stack : Interpreter}.

Lemma clean_text_no_tab (t : pystr) : ~ In TAB (clean_text t).
Proof.
  intros Hin. destruct (clean_text_normal t) as (Hh & _ & _).
  pose proof (hspace_normal_chars _ Hh TAB Hin eq_refl) as H. discriminate H.
Qed.

(** X14.  Every text [extract_text] returns is a cleaned text: it is its
    own trimmed form, it has no tab, so the tabs that separate the cells
    of a spreadsheet row or of a table row are gone, no two spaces in a row
    and no three newlines in a row. *)
Theorem extract_text_clean (b : backends) (filename : pystr)
    (file_bytes : bytes) (t : pystr) :
  result (extract_text b filename file_bytes) = Ok t ->
  (exists raw_text, t = clean_text raw_text)
  /\ strip t = t
  /\ ~ In TAB t
  /\ contains [SP; SP] t = false
  /\ contains [NL; NL; NL] t = false.
Proof.
  unfold extract_text. intros H. apply bind_ok in H.
  destruct H as (raw & _ & H). cbn in H. injection H as <-.
  destruct (clean_text_normal raw) as (Hh & Hn & Hs).
  split; [eauto|]. split; [exact Hs|]. split; [apply clean_text_no_tab|].
  split; [now apply hspace_normal_no_pair | now apply newlines_normal_no_triple].
Qed.

End ExtractClean.

Section OcrMissing.
Import pdf_extractor extractor.
Context {ucd : UnicodeData}.
Context {stack : Interpreter}.

Lemma pages_loop_failing ocr_func e doc :
  (forall img, ocr_func img = Raise e) ->
  forall page_num full_text ocr_pages,
  match find is_scan doc with
  | Some p =>
      pages_loop ocr_func doc page_num full_text ocr_pages
      = ([EvOcr (get_pixmap_png p 300)], Raise e)
  | None =>
      pages_loop ocr_func doc page_num full_text ocr_pages
      = ([], Ok (full_text ++ page_blocks ocr_func page_num doc, ocr_pages))
  end.
Proof.
  intros Hocr. induction doc as [|p rest IH]; intros n ft k.
  - cbn. now rewrite app_nil_r.
  - rewrite pages_loop_cons. cbn [find page_blocks]. unfold page_text.
    destruct (is_scan p) eqn:Es.
    + now rewrite Hocr.
    + cbv zeta. specialize (IH (n + 1)
        (ft ++ [py "--- Page " ++ str_of_int (n + 1) ++ py " ---" ++ [NL]
                ++ get_text p]) k).
      destruct (find is_scan rest) as [q|]; [exact IH|].
      rewrite IH. now rewrite <- app_assoc.
Qed.

Lemma extract_text_without_ocr_engine_lemma (b : backends) (filename : pystr)
    (file_bytes : bytes) :
  ocr_engine b = None ->
  (mem (_get_extension filename) IMAGE_EXTENSIONS = true ->
   extract_text b filename file_bytes
   = ([EvOcr file_bytes], Raise not_initialized))
  /\ (_get_extension filename = py ".pdf" ->
      forall doc, fitz_open b file_bytes = Ok doc ->
        match find is_scan doc with
        | Some p =>
            extract_text b filename file_bytes
            = ([EvOcr (get_pixmap_png p 300)], Raise not_initialized)
        | None =>
            extract_text b filename file_bytes
            = ([], Ok (clean_text
                         (join [NL; NL]
                            (page_blocks (image_extractor.get_ocr_func None)
                               0 doc))))
        end).
Proof.
  intros Hb. unfold extract_text. rewrite Hb. split.
  - intros Hm.
    assert (Hp : pystr_eqb (_get_extension filename) (py ".pdf") = false).
    { unfold mem, IMAGE_EXTENSIONS in Hm. cbn [existsb] in Hm.
      destruct (pystr_eqb (_get_extension filename) (py ".png")) eqn:E1;
        [apply pystr_eqb_eq in E1; now rewrite E1|].
      destruct (pystr_eqb (_get_extension filename) (py ".jpg")) eqn:E2;
        [apply pystr_eqb_eq in E2; now rewrite E2|].
      destruct (pystr_eqb (_get_extension filename) (py ".jpeg")) eqn:E3;
        [apply pystr_eqb_eq in E3; now rewrite E3|].
      discriminate Hm. }
    rewrite Hp, Hm. reflexivity.
  - intros He doc Hdoc. rewrite He.
    change (pystr_eqb (py ".pdf") (py ".pdf")) with true. cbv iota.
    unfold pdf_extractor.extract_text_from_pdf. rewrite Hdoc.
    pose proof (pages_loop_failing (image_extractor.get_ocr_func None)
                  not_initialized doc (fun _ => eq_refl) 0 [] 0) as H.
    destruct (find is_scan doc) as [p|]; rewrite H; reflexivity.
Qed.

(** X15.  Without an initialized OCR engine, the extraction of an image
    asks for the OCR once and fails with the [RuntimeError] of
    [get_ocr_engine].  The extraction of a PDF fails in the same way at its
    first scanned page, after one OCR call, and the pages after it are not
    looked at; a PDF without scanned page needs no engine, and extracts to
    its native text. *)
Theorem extract_text_without_ocr_engine (b : backends) (filename : pystr)
    (file_bytes : bytes) :
  ocr_engine b = None ->
  (mem (_get_extension filename) IMAGE_EXTENSIONS = true ->
   extract_text b filename file_bytes
   = ([EvOcr file_bytes], Raise not_initialized))
  /\ (_get_extension filename = py ".pdf" ->
      forall doc, fitz_open b file_bytes = Ok doc ->
        match find is_scan doc with
        | Some p =>
            extract_text b filename file_bytes
            = ([EvOcr (get_pixmap_png p 300)], Raise not_initialized)
        | None =>
            extract_text b filename file_bytes
            = ([], Ok (clean_text
                         (join [NL; NL]
                            (page_blocks (image_extractor.get_ocr_func None)
                               0 doc))))
        end).
Proof. exact (extract_text_without_ocr_engine_lemma b filename file_bytes). Qed.

End OcrMissing.

Section Startup.
Import extractor.
Context {ucd : UnicodeData}.
Context {stack : Interpreter}.

(** X16.  A failure of the OCR engine at startup does not stop the
    application: when the configuration loads and the constructor of the
    engine raises, [lifespan] completes, with no engine and with the Ollama
    status.  With the engine it leaves, every extraction of an image fails
    with the [RuntimeError] of [get_ocr_engine]. *)
Theorem lifespan_without_ocr
    (parser_read : option (outcome app_config.ConfigParser))
    (PaddleOCR : bool -> pystr -> pystr
                 -> outcome (bytes -> outcome (list (list pystr))))
    (get : pystr -> llm_client.get_result) :
  (forall lang device, exists e, PaddleOCR true lang device = Raise e) ->
  (forall config, app_config.get_config parser_read = Ok config ->
     main.lifespan parser_read PaddleOCR get
     = Ok (None, llm_client.check_ollama_health get config))
  /\ (forall _ocr_engine ollama_status (b : backends) filename file_bytes,
        main.lifespan parser_read PaddleOCR get
        = Ok (_ocr_engine, ollama_status) ->
        ocr_engine b = _ocr_engine ->
        mem (_get_extension filename) IMAGE_EXTENSIONS = true ->
        extract_text b filename file_bytes
        = ([EvOcr file_bytes], Raise not_initialized)).
Proof.
  intros Hfail.
  assert (Hstart : forall config,
            app_config.get_config parser_read = Ok config ->
            main.lifespan parser_read PaddleOCR get
            = Ok (None, llm_client.check_ollama_health get config)).
  { intros config Hc. unfold main.lifespan. rewrite Hc.
    cbn [bind outcome_monad]. unfold image_extractor.init_ocr_engine.
    destruct (Hfail (match app_config.ocr_languages config with
                     | first :: _ => first
                     | [] => py "uk"
                     end)
                    (if app_config.ocr_use_gpu config then py "gpu" else py "cpu"))
      as [e He].
    rewrite He. reflexivity. }
  split; [exact Hstart|].
  intros eng status b filename file_bytes Hl Hb Hm.
  assert (Hn : eng = None).
  { destruct (app_config.get_config parser_read) as [config|e] eqn:Hc.
    - rewrite (Hstart config eq_refl) in Hl. now injection Hl.
    - unfold main.lifespan in Hl. rewrite Hc in Hl. discriminate Hl. }
  rewrite Hn in Hb.
  exact (proj1 (extract_text_without_ocr_engine_lemma b filename file_bytes Hb) Hm).
Qed.
End Startup.

Lemma extract_text_clean_witness :
  (exists raw_text, py "Sheet: balance" = clean_text raw_text)
  /\ strip (py "Sheet: balance") = py "Sheet: balance"
  /\ ~ In TAB (py "Sheet: balance")
  /\ contains [SP; SP] (py "Sheet: balance") = false
  /\ contains [NL; NL; NL] (py "Sheet: balance") = false.
Proof.
  apply (extract_text_clean (ucd := ascii_only) sample_backends
           (py "balance.xlsx") []).
  vm_compute. reflexivity.
Defined.

(** An image, and a PDF whose second page is scanned *)
Lemma extract_text_without_ocr_engine_witness :
  extractor.extract_text (ucd := ascii_only) sample_backends_no_ocr
    (py "scan.PNG") [x01%byte]
  = ([EvOcr [x01%byte]], Raise not_initialized)
  /\ extractor.extract_text (ucd := ascii_only) sample_backends_no_ocr
       (py "report.pdf") []
     = ([EvOcr [x2a%byte]], Raise not_initialized).
Proof.
  split.
  - apply (proj1 (extract_text_without_ocr_engine (ucd := ascii_only)
                    sample_backends_no_ocr (py "scan.PNG") [x01%byte] eq_refl)).
    reflexivity.
  - exact (proj2 (extract_text_without_ocr_engine (ucd := ascii_only)
                    sample_backends_no_ocr (py "report.pdf") [] eq_refl)
             eq_refl [sample_native_page; sample_scanned_page] eq_refl).
Defined.

Lemma lifespan_without_ocr_witness :
  main.lifespan None sample_failing_PaddleOCR (fun _ => llm_client.ConnectError)
  = Ok (None,
        llm_client.check_ollama_health (fun _ => llm_client.ConnectError)
          app_config.default_config).
Proof.
  apply (proj1 (lifespan_without_ocr (ucd := ascii_only) None
                  sample_failing_PaddleOCR (fun _ => llm_client.ConnectError)
                  (fun _ _ => ex_intro _ _ eq_refl))).
  reflexivity.
Defined.

(** ** [extract_text_from_excel] and [extract_text_from_docx] *)

Section Spreadsheets.
Import excel_extractor.

Lemma forallb_join (sep : pystr) (parts : list pystr) :
  forallb is_space sep = true ->
  forallb is_space (join sep parts) = forallb (forallb is_space) parts.
Proof.
  intros Hsep. induction parts as [|p rest IH]; [reflexivity|].
  destruct rest as [|q rest].
  - cbn [join forallb]. now rewrite andb_true_r.
  - change (join sep (p :: q :: rest)) with (p ++ sep ++ join sep (q :: rest)).
    rewrite !forallb_app, Hsep, IH. reflexivity.
Qed.

Lemma blank_row_line (row : list (option pystr)) :
  forallb is_space (row_line row) = forallb blank_cell row.
Proof.
  unfold row_line. rewrite forallb_join by reflexivity.
  induction row as [|cell row IH]; [reflexivity|].
  cbn [List.map forallb]. rewrite IH. destruct cell; reflexivity.
Qed.

Lemma strip_nil_forallb (s : pystr) :
  match strip s with [] => true | _ => false end = forallb is_space s.
Proof.
  destruct (forallb is_space s) eqn:E.
  - now rewrite (proj2 (strip_nil_all_space s) E).
  - destruct (strip s) eqn:Es; [|reflexivity].
    apply strip_nil_all_space in Es. unfold all_space in Es. congruence.
Qed.

Lemma rows_loop_eq rows : forall sheet_lines,
  rows_loop rows sheet_lines
  = sheet_lines
    ++ List.map row_line (filter (fun row => negb (forallb blank_cell row)) rows).
Proof.
  induction rows as [|row rest IH]; intros sheet_lines.
  - cbn. now rewrite app_nil_r.
  - cbn [rows_loop filter]. fold (row_line row).
    rewrite <- blank_row_line.
    pose proof (strip_nil_forallb (row_line row)) as H.
    destruct (strip (row_line row)); rewrite <- H; cbn [negb].
    + apply IH.
    + rewrite IH. cbn [List.map]. now rewrite <- app_assoc.
Qed.

Lemma sheets_loop_eq sheets : forall parts,
  sheets_loop sheets parts = parts ++ List.map sheet_block sheets.
Proof.
  induction sheets as [|ws rest IH]; intros parts.
  - cbn. now rewrite app_nil_r.
  - cbn [sheets_loop List.map]. rewrite IH, rows_loop_eq.
    now rewrite <- app_assoc.
Qed.

Lemma join_starts cls sep (p : pystr) (rest : list pystr) :
  p <> [] -> starts_in cls (join sep (p :: rest)) = starts_in cls p.
Proof.
  intros Hp. destruct rest; [reflexivity|].
  change (join sep (p :: p0 :: rest)) with (p ++ sep ++ join sep (p0 :: rest)).
  now apply starts_in_app_nonempty.
Qed.

(** X17.  The text of a workbook is one block for each sheet, in the order
    of the sheets, the blocks joined by a blank line.  A block is the header
    of the sheet followed by one line for each row that has a cell that is
    neither empty nor blank, its cells tab-separated and an empty cell
    standing for nothing; a row whose cells are all empty or blank is left
    out.  Since every sheet has its header, the cleaned text of a workbook
    with a sheet is never empty. *)
Theorem extract_text_from_excel_rows
    (load_workbook : bytes -> outcome (list worksheet))
    (file_bytes : bytes) (wb : list worksheet) :
  load_workbook file_bytes = Ok wb ->
  extract_text_from_excel load_workbook file_bytes
  = Ok (join [NL; NL] (List.map sheet_block wb))
  /\ (wb <> [] -> clean_text (join [NL; NL] (List.map sheet_block wb)) <> []).
Proof.
  intros H. unfold extract_text_from_excel. rewrite H.
  cbn [bind outcome_monad]. rewrite sheets_loop_eq. split; [reflexivity|].
  intros Hwb Hc. apply clean_text_blank in Hc.
  destruct wb as [|ws rest]; [congruence|]. cbn [List.map] in Hc.
  assert (Hb : starts_in (N.eqb 45) (sheet_block ws) = true).
  { unfold sheet_block. rewrite join_starts by discriminate. reflexivity. }
  assert (Hs : starts_in (N.eqb 45)
                 (join [NL; NL] (sheet_block ws :: List.map sheet_block rest))
               = true).
  { rewrite join_starts; [exact Hb|]. intros E. now rewrite E in Hb. }
  destruct (join [NL; NL] _) as [|c t]; [discriminate Hs|].
  cbn [starts_in] in Hs. apply N.eqb_eq in Hs. subst c.
  discriminate Hc.
Qed.

End Spreadsheets.

Section WordDocuments.
Import docx_extractor.

Lemma paragraphs_loop_eq paras : forall parts,
  paragraphs_loop paras parts
  = parts ++ filter (fun text => negb (pystr_eqb text []))
                    (List.map strip paras).
Proof.
  induction paras as [|para rest IH]; intros parts.
  - cbn. now rewrite app_nil_r.
  - cbn [paragraphs_loop List.map filter].
    destruct (strip para) as [|c t] eqn:E.
    + cbn [pystr_eqb negb]. apply IH.
    + cbn [pystr_eqb negb]. rewrite IH. now rewrite <- app_assoc.
Qed.

Lemma table_rows_loop_eq rows : forall table_lines,
  table_rows_loop rows table_lines
  = table_lines
    ++ List.map (fun row => join [TAB] (List.map strip row)) rows.
Proof.
  induction rows as [|row rest IH]; intros table_lines.
  - cbn. now rewrite app_nil_r.
  - cbn [table_rows_loop List.map]. rewrite IH. now rewrite <- app_assoc.
Qed.

Lemma tables_loop_eq tbls : forall table_idx parts,
  tables_loop tbls table_idx parts = parts ++ table_blocks table_idx tbls.
Proof.
  induction tbls as [|table rest IH]; intros table_idx parts.
  - cbn. now rewrite app_nil_r.
  - cbn [tables_loop table_blocks]. rewrite IH, table_rows_loop_eq.
    now rewrite <- app_assoc.
Qed.

Lemma join_nil sep (parts : list pystr) :
  (forall p, In p parts -> p <> []) -> join sep parts = [] -> parts = [].
Proof.
  intros Hne H. destruct parts as [|p rest]; [reflexivity|].
  exfalso. apply (Hne p (or_introl eq_refl)).
  destruct rest as [|q rest]; [exact H|].
  change (join sep (p :: q :: rest)) with (p ++ sep ++ join sep (q :: rest)) in H.
  now apply app_eq_nil in H.
Qed.

Lemma table_blocks_nonempty tbls : forall table_idx p,
  In p (table_blocks table_idx tbls) -> p <> [].
Proof.
  induction tbls as [|table rest IH]; intros table_idx p; [intros []|].
  cbn [table_blocks]. intros [<-|H]; [|now apply (IH (table_idx + 1))].
  destruct (List.map _ table) as [|l ls].
  - cbn [join]. discriminate.
  - change (join [NL] (?h :: l :: ls)) with (h ++ [NL] ++ join [NL] (l :: ls)).
    discriminate.
Qed.

(** X18.  The text of a Word document is, line by line, its paragraphs
    that are not blank, each trimmed, followed by the blocks of its tables,
    wherever the tables stand in the document.  A table block is the header
    with the number of the table, counted from 1, and one line for every
    row, blank rows included.  The text is empty exactly when the document
    has no table and no paragraph that is not blank. *)
Theorem extract_text_from_docx_parts
    (Document : bytes -> outcome document) (file_bytes : bytes)
    (doc : document) :
  Document file_bytes = Ok doc ->
  extract_text_from_docx Document file_bytes
  = Ok (join [NL]
          (filter (fun text => negb (pystr_eqb text []))
                  (List.map strip (paragraphs doc))
           ++ table_blocks 0 (tables doc)))
  /\ (extract_text_from_docx Document file_bytes = Ok []
      <-> tables doc = []
          /\ forall para, In para (paragraphs doc) -> all_space para).
Proof.
  intros H.
  assert (E : extract_text_from_docx Document file_bytes
              = Ok (join [NL]
                      (filter (fun text => negb (pystr_eqb text []))
                              (List.map strip (paragraphs doc))
                       ++ table_blocks 0 (tables doc)))).
  { unfold extract_text_from_docx. rewrite H. cbn [bind outcome_monad].
    now rewrite tables_loop_eq, paragraphs_loop_eq. }
  split; [exact E|]. rewrite E. split.
  - intros [= Hj]. apply join_nil in Hj.
    + apply app_eq_nil in Hj. destruct Hj as [Hp Ht]. split.
      * destruct (tables doc); [reflexivity | discriminate Ht].
      * intros para Hin. apply strip_nil_all_space.
        destruct (strip para) as [|c t] eqn:Es; [reflexivity|].
        assert (Hf : In (c :: t) (filter (fun text => negb (pystr_eqb text []))
                                    (List.map strip (paragraphs doc)))).
        { apply filter_In. split; [|reflexivity].
          rewrite <- Es. now apply in_map. }
        rewrite Hp in Hf. destruct Hf.
    + intros p Hin. apply in_app_or in Hin. destruct Hin as [Hin|Hin].
      * apply filter_In in Hin. destruct Hin as [_ Hin].
        intros ->. discriminate Hin.
      * now apply (table_blocks_nonempty _ _ _ Hin).
  - intros [Ht Hp]. rewrite Ht. cbn [table_blocks]. rewrite app_nil_r.
    replace (filter _ _) with (@nil pystr); [reflexivity|].
    symmetry. revert Hp. generalize (paragraphs doc). intros paras.
    induction paras as [|para rest IH]; intros Hp; [reflexivity|].
    cbn [List.map filter].
    rewrite (proj2 (strip_nil_all_space para) (Hp para (or_introl eq_refl))).
    cbn [pystr_eqb negb]. apply IH. intros q Hq. apply Hp. now right.
Qed.

End WordDocuments.

Lemma extract_text_from_excel_rows_witness :
  excel_extractor.extract_text_from_excel (fun _ => Ok sample_workbook) []
  = Ok (join [NL; NL] (List.map sheet_block sample_workbook))
  /\ (sample_workbook <> [] ->
      clean_text (join [NL; NL] (List.map sheet_block sample_workbook)) <> []).
Proof.
  apply (extract_text_from_excel_rows (fun _ => Ok sample_workbook) []
           sample_workbook).
  reflexivity.
Defined.

(** The sheet of the sample: the row of empty and blank cells is gone. *)
Lemma sample_workbook_text :
  excel_extractor.extract_text_from_excel (fun _ => Ok sample_workbook) []
  = Ok (py "--- Sheet: Balance ---" ++ [NL]
        ++ py "1000" ++ [TAB] ++ [TAB] ++ py "732,8" ++ [NL]
        ++ py "1005" ++ [TAB] ++ py "12").
Proof. vm_compute. reflexivity. Qed.

Lemma extract_text_from_docx_parts_witness :
  docx_extractor.extract_text_from_docx (fun _ => Ok sample_document) []
  = Ok (join [NL]
          (filter (fun text => negb (pystr_eqb text []))
                  (List.map strip (docx_extractor.paragraphs sample_document))
           ++ table_blocks 0 (docx_extractor.tables sample_document)))
  /\ (docx_extractor.extract_text_from_docx (fun _ => Ok sample_document) []
      = Ok []
      <-> docx_extractor.tables sample_document = []
          /\ forall para, In para (docx_extractor.paragraphs sample_document)
                          -> all_space para).
Proof.
  apply (extract_text_from_docx_parts (fun _ => Ok sample_document) []
           sample_document).
  reflexivity.
Defined.

(** ** [analyze_documents]: reading the files *)

Section Reading.
Import extractor analyze.
Context {ucd : UnicodeData}.
Context {stack : Interpreter}.
Variable sv : services.
Variable config : AppConfig.

Lemma read_files_cons f rest index max file_data total :
  read_files config (f :: rest) index max file_data total =
  let total' := total + Z.of_nat (List.length (content f)) in
  if max <? total' then ([EvRead index], Raise (too_large config))
  else
    let '(t, r) :=
      read_files config rest (S index) max
        (file_data ++ [(filename_or f (py "unknown"), content f)]) total' in
    (EvRead index :: t, r).
Proof.
  cbn [read_files]. unfold call. cbn [bind M_monad].
  destruct (max <? _); [reflexivity|].
  destruct (read_files _ _ _ _ _ _) as [t r]. reflexivity.
Qed.

Lemma upload_size_nonneg files : 0 <= upload_size files.
Proof. induction files as [|f rest IH]; cbn [upload_size fold_right]; [lia|]. fold (upload_size rest). lia. Qed.

Lemma upload_size_cons f rest :
  upload_size (f :: rest) = Z.of_nat (List.length (content f)) + upload_size rest.
Proof. reflexivity. Qed.

Lemma read_files_all files : forall index max file_data total,
  total + upload_size files <= max ->
  read_files config files index max file_data total
  = (List.map EvRead (seq index (List.length files)),
     Ok (file_data
         ++ List.map (fun f => (filename_or f (py "unknown"), content f)) files)).
Proof.
  induction files as [|f rest IH]; intros index max fd total H.
  - cbn. now rewrite app_nil_r.
  - rewrite read_files_cons. cbv zeta. rewrite upload_size_cons in H.
    pose proof (upload_size_nonneg rest).
    destruct (Z.ltb_spec max (total + Z.of_nat (List.length (content f)))); [lia|].
    rewrite IH by lia. cbn [List.length seq List.map].
    now rewrite <- app_assoc.
Qed.

Lemma read_files_stops files : forall k index max file_data total,
  (k < List.length files)%nat ->
  total + upload_size (firstn k files) <= max ->
  max < total + upload_size (firstn (S k) files) ->
  read_files config files index max file_data total
  = (List.map EvRead (seq index (S k)), Raise (too_large config)).
Proof.
  induction files as [|f rest IH]; intros k index max fd total Hk Hle Hgt.
  - cbn in Hk. lia.
  - rewrite read_files_cons. cbv zeta.
    destruct k as [|k].
    + rewrite firstn_cons, firstn_O, upload_size_cons in Hgt.
      change (upload_size []) with 0 in Hgt.
      destruct (Z.ltb_spec max (total + Z.of_nat (List.length (content f))));
        [reflexivity | lia].
    + rewrite firstn_cons, upload_size_cons in Hle, Hgt.
      pose proof (upload_size_nonneg (firstn k rest)).
      destruct (Z.ltb_spec max (total + Z.of_nat (List.length (content f))));
        [lia|].
      cbn [List.length] in Hk.
      rewrite (IH k); [reflexivity | lia | lia | lia].
Qed.

Lemma allowed_file_named f :
  allowed_file f = true ->
  exists c name, filename f = Some (c :: name)
                 /\ filename_or f (py "unknown") = c :: name
                 /\ filename_repr f = c :: name.
Proof.
  unfold allowed_file, filename_or, filename_repr.
  destruct (filename f) as [[|c name]|]; try discriminate; eauto.
Qed.

Lemma read_files_named files :
  forallb allowed_file files = true ->
  List.map (fun f => (filename_or f (py "unknown"), content f)) files
  = List.map (fun f => (filename_repr f, content f)) files.
Proof.
  induction files as [|f rest IH]; [reflexivity|].
  cbn [forallb List.map]. intros H. apply andb_prop in H. destruct H as [Hf H].
  destruct (allowed_file_named f Hf) as (c & name & _ & -> & ->).
  now rewrite IH.
Qed.

Lemma len_files_range files :
  1 <= len_files files <= MAX_FILES ->
  (len_files files <? 1) || (MAX_FILES <? len_files files) = false.
Proof. intros H. apply orb_false_iff. lia. Qed.

Lemma read_files_within_limit (files : list UploadFile) :
  forallb allowed_file files = true ->
  upload_size files <= max_size config ->
  read_files config files 0 (max_size config) [] 0
  = (List.map EvRead (seq 0 (List.length files)),
     Ok (List.map (fun f => (filename_repr f, content f)) files)).
Proof.
  intros Hok Hle. rewrite read_files_all by lia. now rewrite read_files_named.
Qed.

(** X19.  The size limit.  Take a request that passes the validation.  When
    its files together are within [max_upload_size_mb] megabytes, every
    file is read, once and in upload order, and each is kept under the name
    it was declared with: a file that passed the validation has a name, so
    the placeholder [unknown] is not used.  When they are not, the request
    fails with status 413 at the first file with which the bytes read so
    far exceed the limit: the files up to that one have been read, the
    ones after it have not, and nothing else has been called. *)
Theorem analyze_documents_size_limit (files : list UploadFile)
    (user_instructions : pystr) :
  1 <= len_files files <= MAX_FILES ->
  forallb allowed_file files = true ->
  (upload_size files <= max_size config ->
   read_files config files 0 (max_size config) [] 0
   = (List.map EvRead (seq 0 (List.length files)),
      Ok (List.map (fun f => (filename_repr f, content f)) files))
   /\ forall f, In f files -> filename f = Some (filename_repr f)
                              /\ filename_repr f <> [])
  /\ (forall k, (k < List.length files)%nat ->
        upload_size (firstn k files) <= max_size config ->
        max_size config < upload_size (firstn (S k) files) ->
        analyze_documents sv config files user_instructions
        = (List.map EvRead (seq 0 (S k)), Raise (too_large config))).
Proof.
  intros Hn Hok. split.
  - intros Hle. split; [now apply read_files_within_limit|].
    intros f Hin. rewrite forallb_forall in Hok.
    destruct (allowed_file_named f (Hok f Hin)) as (c & name & E & _ & R).
    rewrite R. split; [exact E | discriminate].
  - intros k Hk Hle Hgt. unfold analyze_documents.
    rewrite (len_files_range files Hn), (validate_extensions_accepts files Hok).
    cbn [bind M_monad]. fold (max_size config).
    rewrite (read_files_stops files k) by (assumption || lia).
    reflexivity.
Qed.

End Reading.

(** Two spreadsheets at a limit of no byte: the second, of one byte, is
    the first to exceed it. *)
Lemma analyze_documents_size_limit_witness :
  analyze.analyze_documents (ucd := ascii_only) sample_services sample_config_tiny
    [upload "a.xlsx" []; upload "b.xlsx" [x00%byte]; upload "c.xlsx" []] []
  = ([EvRead 0; EvRead 1], Raise (too_large sample_config_tiny)).
Proof.
  apply (proj2 (analyze_documents_size_limit (ucd := ascii_only)
                  sample_services sample_config_tiny
                  [upload "a.xlsx" []; upload "b.xlsx" [x00%byte];
                   upload "c.xlsx" []] []
                  ltac:(split; discriminate) eq_refl) 1%nat).
  - cbn. lia.
  - vm_compute. discriminate.
  - vm_compute. reflexivity.
Defined.

(** ** [analyze_documents]: collecting texts and failures *)

Section Collecting.
Import extractor analyze.
Context {ucd : UnicodeData}.
Context {stack : Interpreter}.
Variable sv : services.
Variable config : AppConfig.

Lemma flat_map_map {A B C} (f : A -> B) (g : B -> list C) (l : list A) :
  flat_map g (List.map f l) = flat_map (fun x => g (f x)) l.
Proof.
  induction l as [|x l IH]; [reflexivity|]. cbn [List.map flat_map].
  now rewrite IH.
Qed.

Lemma collected_texts_cons filename content rest d0 :
  collected_texts sv ((filename, content) :: rest) d0
  = collected_texts sv rest
      match result (extract_text (extraction sv) filename content) with
      | Ok text => dict_set d0 filename text
      | Raise _ => d0
      end.
Proof. reflexivity. Qed.

Lemma extract_files_eq file_data : forall file_texts failed,
  extract_files sv file_data file_texts failed
  = (flat_map (fun '(filename, content) =>
                 EvExtract filename
                 :: trace (extract_text (extraction sv) filename content))
              file_data,
     Ok (collected_texts sv file_data file_texts,
         failed ++ flat_map (fun '(filename, content) =>
                               extraction_failure sv filename content)
                            file_data)).
Proof.
  induction file_data as [|[filename content] rest IH]; intros file_texts failed.
  - cbn. now rewrite app_nil_r.
  - cbn [extract_files flat_map]. unfold try_except, call, extraction_failure.
    rewrite collected_texts_cons. cbn [bind ret M_monad].
    destruct (extract_text (extraction sv) filename content) as [tr [t|e]];
      cbn [trace result fst snd]; rewrite IH; cbn [app].
    + now rewrite app_nil_r.
    + now rewrite app_nil_r, <- app_assoc.
Qed.

Lemma collected_texts_keys file_data : forall d0 name,
  In name (dict_keys (collected_texts sv file_data d0))
  <-> In name (dict_keys d0)
      \/ exists content t,
           In (name, content) file_data
           /\ result (extract_text (extraction sv) name content) = Ok t.
Proof.
  induction file_data as [|[f c] rest IH]; intros d0 name.
  - cbn. split; [auto | intros [H|(? & ? & [] & _)]; exact H].
  - rewrite collected_texts_cons, IH.
    destruct (result (extract_text (extraction sv) f c)) as [t|e] eqn:E.
    + rewrite dict_keys_set.
      split.
      * intros [H|(c' & t' & Hin & Hr)].
        -- destruct (dict_has d0 f) eqn:Eh; [now left|].
           apply in_app_or in H. destruct H as [H|[<-|[]]]; [now left|].
           right. exists c, t. split; [now left | exact E].
        -- right. exists c', t'. split; [now right | exact Hr].
      * intros [H|(c' & t' & [[= <- <-]|Hin] & Hr)].
        -- left. destruct (dict_has d0 f); [exact H | apply in_or_app; now left].
        -- left. destruct (dict_has d0 f) eqn:Eh;
             [now apply dict_has_In | apply in_or_app; right; now left].
        -- right. eauto.
    + split.
      * intros [H|(c' & t' & Hin & Hr)]; [now left|].
        right. exists c', t'. split; [now right | exact Hr].
      * intros [H|(c' & t' & [[= <- <-]|Hin] & Hr)]; [now left | congruence |].
        right. eauto.
Qed.

Lemma collected_texts_NoDup file_data : forall d0,
  NoDup (dict_keys d0) -> NoDup (dict_keys (collected_texts sv file_data d0)).
Proof.
  induction file_data as [|[f c] rest IH]; intros d0 H; [exact H|].
  rewrite collected_texts_cons.
  apply IH. destruct (result _); [now apply dict_set_keys_NoDup | exact H].
Qed.

(** X20.  The loop over the files never fails: an exception of
    [extract_text] is caught and recorded.  After the loop, [failed_files]
    has one entry for each file whose extraction raised, in upload order,
    with the filename and the text of the exception; [file_texts] has a
    filename as key, once, exactly when some file of that name extracted.
    A filename borne by one file that extracts and one that does not is in
    both. *)
Theorem extract_files_collects (file_data : list (pystr * bytes)) :
  exists file_texts,
    result (extract_files sv file_data [] [])
    = Ok (file_texts,
          flat_map (fun '(filename, content) =>
                      extraction_failure sv filename content) file_data)
    /\ NoDup (dict_keys file_texts)
    /\ (forall name,
          In name (dict_keys file_texts)
          <-> exists content text,
                In (name, content) file_data
                /\ result (extract_text (extraction sv) name content) = Ok text).
Proof.
  exists (collected_texts sv file_data []). split; [|split].
  - now rewrite extract_files_eq.
  - apply collected_texts_NoDup. constructor.
  - intros name. rewrite collected_texts_keys. cbn. tauto.
Qed.

Lemma extract_text_trace_ocr (b : backends) filename content :
  existsb pipeline_event (trace (extract_text b filename content)) = false.
Proof.
  unfold extract_text. rewrite trace_bind_eq.
  assert (H : forall (m : M pystr),
            existsb pipeline_event (trace m) = false ->
            existsb pipeline_event
              (trace m ++ match result m with
                          | Ok a => trace (ret (clean_text a) : M pystr)
                          | Raise _ => []
                          end) = false).
  { intros m Hm. rewrite existsb_app, Hm. destruct (result m); reflexivity. }
  apply H.
  destruct (pystr_eqb _ _).
  { unfold pdf_extractor.extract_text_from_pdf.
    destruct (fitz_open b content) as [doc|e]; [|reflexivity].
    rewrite trace_bind_eq.
    destruct (pages_loop_trace_prefix
                (image_extractor.get_ocr_func (ocr_engine b)) doc 0 [] 0)
      as [later Hl].
    assert (Hoc : existsb pipeline_event (ocr_calls doc) = false).
    { unfold ocr_calls. induction (filter is_scan doc); [reflexivity | exact IHl]. }
    rewrite Hl, existsb_app in Hoc. apply orb_false_elim in Hoc.
    destruct Hoc as [Hoc _]. rewrite existsb_app, Hoc.
    destruct (result _) as [[ft n]|]; reflexivity. }
  destruct (mem _ _); [reflexivity|].
  destruct (pystr_eqb _ _); [reflexivity|].
  destruct (pystr_eqb _ _); reflexivity.
Qed.

Lemma extract_files_trace_quiet file_data : forall file_texts failed,
  existsb pipeline_event (trace (extract_files sv file_data file_texts failed))
  = false.
Proof.
  intros file_texts failed. rewrite extract_files_eq. cbn [trace fst].
  induction file_data as [|[f c] rest IH]; [reflexivity|].
  cbn [flat_map]. cbn [app existsb pipeline_event]. rewrite existsb_app, IH.
  now rewrite extract_text_trace_ocr.
Qed.

(** X21.  When the extraction of every file of a valid request raises,
    the request fails with status 422, and the detail lists every file, in
    upload order, with the text of its exception.  No prompt has been
    loaded, no LLM queried and no calculation made. *)
Theorem analyze_documents_all_failed (files : list UploadFile)
    (user_instructions : pystr) :
  1 <= len_files files <= MAX_FILES ->
  forallb allowed_file files = true ->
  upload_size files <= max_size config ->
  (forall f, In f files ->
     exists e, result (extract_text (extraction sv) (filename_repr f) (content f))
               = Raise e) ->
  result (analyze_documents sv config files user_instructions)
  = Raise (HTTPException 422
             (DetailFailedFiles
                (py "Failed to extract text from all uploaded files")
                (flat_map (fun f => extraction_failure sv (filename_repr f)
                                      (content f)) files)))
  /\ List.length (flat_map (fun f => extraction_failure sv (filename_repr f)
                                        (content f)) files)
     = List.length files
  /\ existsb pipeline_event
       (trace (analyze_documents sv config files user_instructions)) = false.
Proof.
  intros Hn Hok Hle Hfail.
  assert (Hrun : analyze_documents sv config files user_instructions
                 = (List.map EvRead (seq 0 (List.length files))
                    ++ trace (extract_files sv
                                (List.map (fun f => (filename_repr f, content f)) files)
                                [] []),
                    Raise (HTTPException 422
                      (DetailFailedFiles
                         (py "Failed to extract text from all uploaded files")
                         (flat_map (fun f => extraction_failure sv (filename_repr f)
                                               (content f)) files))))).
  { unfold analyze_documents.
    rewrite (len_files_range files Hn), (validate_extensions_accepts files Hok).
    cbn [bind M_monad]. fold (max_size config).
    rewrite (read_files_within_limit config files Hok Hle).
    rewrite extract_files_eq. cbn [trace fst].
    assert (Hc : collected_texts sv
                   (List.map (fun f => (filename_repr f, content f)) files) [] = []).
    { assert (G : forall d0, collected_texts sv
                    (List.map (fun f => (filename_repr f, content f)) files) d0 = d0).
      { clear Hn Hok Hle. induction files as [|f rest IH]; intros d0; [reflexivity|].
        cbn [List.map]. rewrite collected_texts_cons.
        destruct (Hfail f (or_introl eq_refl)) as [e He]. rewrite He.
        apply IH. intros g Hg. apply Hfail. now right. }
      apply G. }
    rewrite Hc. cbn [app raise]. rewrite !flat_map_map, app_nil_r.
    reflexivity. }
  rewrite Hrun. cbn [result trace fst snd]. split; [reflexivity|]. split.
  - clear Hrun Hn Hok Hle. induction files as [|f rest IH]; [reflexivity|].
    cbn [flat_map]. rewrite length_app, IH by (intros g Hg; apply Hfail; now right).
    unfold extraction_failure.
    destruct (Hfail f (or_introl eq_refl)) as [e He]. now rewrite He.
  - rewrite existsb_app, extract_files_trace_quiet, orb_false_r.
    clear. generalize 0%nat.
    induction (List.length files) as [|n IH]; intros i; [reflexivity|].
    cbn [seq List.map existsb pipeline_event]. apply IH.
Qed.

End Collecting.

(** Two images and no OCR engine. *)
Lemma analyze_documents_all_failed_witness :
  result (analyze.analyze_documents (ucd := ascii_only) sample_services_no_ocr
            sample_config [upload "scan.png" [x01%byte]; upload "photo.jpg" []] [])
  = Raise (HTTPException 422
             (DetailFailedFiles
                (py "Failed to extract text from all uploaded files")
                [(py "scan.png", exn_str not_initialized);
                 (py "photo.jpg", exn_str not_initialized)])).
Proof.
  apply (analyze_documents_all_failed (ucd := ascii_only) sample_services_no_ocr
           sample_config [upload "scan.png" [x01%byte]; upload "photo.jpg" []] []).
  - split; discriminate.
  - reflexivity.
  - vm_compute. discriminate.
  - intros f [<-|[<-|[]]]; eexists; reflexivity.
Defined.

(** ** [analyze_documents]: the three steps *)

Section Pipeline.
Import extractor analyze.
Context {ucd : UnicodeData}.
Context {stack : Interpreter}.
Variable sv : services.
Variable config : AppConfig.

Lemma try_call {A} (ev : event) (ans : outcome A) (h : exn -> exn) :
  try_except (call ev ans) (fun e => raise (h e))
  = ([ev], match ans with Ok a => Ok a | Raise e => Raise (h e) end).
Proof. destruct ans; reflexivity. Qed.

Lemma bind_call {A B} (ev : event) (ans : outcome A) (k : A -> M B) :
  bind ([ev], ans) k
  = match ans with
    | Ok a => (ev :: trace (k a), result (k a))
    | Raise e => ([ev], Raise e)
    end.
Proof.
  cbn [bind M_monad]. destruct ans as [a|e]; [|reflexivity].
  destruct (k a); reflexivity.
Qed.

Lemma bounded_text_eq file_texts :
  (if max_total_tokens_estimate config
      <? estimate_tokens (combine_extracted_texts file_texts)
   then
     let '(t, w) :=
       truncate_text (combine_extracted_texts file_texts)
         (max_total_tokens_estimate config) in
     (t, w, estimate_tokens t)
   else (combine_extracted_texts file_texts, false,
         estimate_tokens (combine_extracted_texts file_texts)))
  = (fst (bounded_text config file_texts), snd (bounded_text config file_texts),
     estimate_tokens (fst (bounded_text config file_texts))).
Proof.
  unfold bounded_text.
  destruct (Z.ltb_spec (max_total_tokens_estimate config)
              (estimate_tokens (combine_extracted_texts file_texts))) as [H|H].
  - now destruct (truncate_text _ _).
  - rewrite truncate_text_unfold.
    destruct (Z.leb_spec (estimate_tokens (combine_extracted_texts file_texts))
                (max_total_tokens_estimate config)); [reflexivity | lia].
Qed.

(** [run_steps], stage by stage *)
Lemma run_steps_tree file_texts failed user_instructions :
  run_steps sv config file_texts failed user_instructions =
  let combined_text := fst (bounded_text config file_texts) in
  let ep := EvLoadPrompt (extraction_prompt_file config) in
  let rp := EvLoadPrompt (report_prompt_file config) in
  match prompt_answer sv (extraction_prompt_file config) with
  | Raise e => ([ep], Raise (prompt_error "Extraction prompt error: " e))
  | Ok extraction_prompt =>
    let '(es, eu) := extraction_request extraction_prompt combined_text in
    let qj := EvQueryJson es eu in
    match query_ollama_json sv es eu with
    | Raise e => ([ep; qj], Raise (http_500 "Data extraction failed: " e))
    | Ok raw =>
      match parse_llm_json (json_loads sv) raw with
      | Raise (ExtractionError m) =>
          ([ep; qj],
           Raise (HTTPException 500
                    (DetailParse (py "Failed to parse extracted data: " ++ m)
                                 (slice_to raw 1000))))
      | Raise e => ([ep; qj], Raise e)
      | Ok data =>
        match calculations_text sv data with
        | Raise e => ([ep; qj; EvCalculate], Raise e)
        | Ok calc =>
          match prompt_answer sv (report_prompt_file config) with
          | Raise e =>
              ([ep; qj; EvCalculate; rp],
               Raise (prompt_error "Report prompt error: " e))
          | Ok report_prompt =>
            let '(rs, ru) :=
              report_request report_prompt calc user_instructions in
            let qr := EvQueryReport rs ru in
            match query_ollama_report sv rs ru with
            | Raise e =>
                ([ep; qj; EvCalculate; rp; qr],
                 Raise (http_500 "Report generation failed: " e))
            | Ok report_html =>
                ([ep; qj; EvCalculate; rp; qr],
                 Ok {| status := py "success";
                       report := replace_char NL (py "<br>" ++ [NL]) report_html;
                       extracted_data := data;
                       files_processed := dict_keys file_texts;
                       tokens_estimated := estimate_tokens combined_text;
                       failed_files :=
                         match failed with [] => None | _ => Some failed end;
                       warning :=
                         if snd (bounded_text config file_texts)
                         then Some (py "Document text was truncated due to token limit")
                         else None |})
            end
          end
        end
      end
    end
  end.
Proof.
  unfold run_steps. rewrite bounded_text_eq. cbv zeta.
  unfold _load_prompt, prompt_answer, prompt_error, extraction_request,
    report_request, http_500, try_except, call, raise.
  cbn [bind ret M_monad app].
  destruct (prompt_text sv (extraction_prompt_file config)) as [[prompt|e]|];
    [ | destruct (is_RuntimeError e); reflexivity | reflexivity].
  destruct (contains DOCUMENTS_MARKER prompt); cbn [bind ret M_monad app];
    (destruct (query_ollama_json sv _ _) as [raw|e]; [|reflexivity]);
    (destruct (parse_llm_json (json_loads sv) raw) as [data|e];
     [|destruct e; reflexivity]);
    cbn [bind ret M_monad app];
    (destruct (calculations_text sv data) as [calc|e]; [|reflexivity]);
    cbn [bind ret M_monad app];
    (destruct (prompt_text sv (report_prompt_file config)) as [[rprompt|e]|];
     [ | destruct (is_RuntimeError e); reflexivity | reflexivity]);
    cbn [bind ret M_monad app];
    destruct (contains CALCULATIONS_MARKER rprompt); cbn [bind ret M_monad app];
    destruct (query_ollama_report sv _ _) as [html|e]; reflexivity.
Qed.

(** X22.  The order of the calls of the three steps.  Whatever the
    collaborators answer, the calls made after the text extraction are an
    initial part of: load the extraction prompt, query the LLM for JSON,
    calculate, load the report prompt, query the LLM for the report.  Each
    is made at most once, none is made before the one before it has
    answered, and when the steps return a response all five were made. *)
Theorem run_steps_call_order (file_texts failed : list (pystr * pystr))
    (user_instructions : pystr) :
  exists es eu rs ru later,
    [EvLoadPrompt (extraction_prompt_file config); EvQueryJson es eu;
     EvCalculate; EvLoadPrompt (report_prompt_file config);
     EvQueryReport rs ru]
    = trace (run_steps sv config file_texts failed user_instructions) ++ later
    /\ (forall resp,
          result (run_steps sv config file_texts failed user_instructions)
          = Ok resp -> later = []).
Proof.
  rewrite run_steps_tree. cbv zeta.
  destruct (prompt_answer sv (extraction_prompt_file config)) as [prompt|e].
  2:{ exists [], [], [], []. eexists. split; [reflexivity | discriminate]. }
  destruct (extraction_request prompt _) as [es eu]. exists es, eu.
  destruct (query_ollama_json sv es eu) as [raw|e].
  2:{ exists [], []. eexists. split; [reflexivity | discriminate]. }
  destruct (parse_llm_json (json_loads sv) raw) as [data|e].
  2:{ exists [], []. eexists.
      destruct e; (split; [reflexivity | discriminate]). }
  destruct (calculations_text sv data) as [calc|e].
  2:{ exists [], []. eexists. split; [reflexivity | discriminate]. }
  destruct (prompt_answer sv (report_prompt_file config)) as [rprompt|e].
  2:{ exists [], []. eexists. split; [reflexivity | discriminate]. }
  destruct (report_request rprompt calc user_instructions) as [rs ru].
  exists rs, ru, [].
  destruct (query_ollama_report sv rs ru); split; reflexivity || discriminate.
Qed.

Lemma parse_llm_json_blank (raw : pystr) :
  all_space raw ->
  parse_llm_json (json_loads sv) raw
  = Raise (ExtractionError (py "LLM повернув порожню відповідь")).
Proof.
  intros H. unfold parse_llm_json.
  rewrite (proj2 (strip_nil_all_space raw) H).
  cbn [pystr_eqb]. now rewrite orb_true_r.
Qed.

(** X23.  An empty answer of the structuring call.  When the extraction
    prompt loads and the LLM answers the structuring call with nothing but
    whitespace, the request fails with status 500; the detail carries the
    message of the parser for an empty response and the first 1000
    characters of the answer.  Nothing is calculated, and the report prompt
    and the report call are not reached. *)
Theorem run_steps_blank_answer (file_texts failed : list (pystr * pystr))
    (user_instructions prompt : pystr) :
  prompt_text sv (extraction_prompt_file config) = Some (Ok prompt) ->
  (forall es eu, exists raw, query_ollama_json sv es eu = Ok raw
                             /\ all_space raw) ->
  exists es eu raw,
    all_space raw
    /\ run_steps sv config file_texts failed user_instructions
       = ([EvLoadPrompt (extraction_prompt_file config); EvQueryJson es eu],
          Raise (HTTPException 500
                   (DetailParse
                      (py "Failed to parse extracted data: "
                       ++ py "LLM повернув порожню відповідь")
                      (slice_to raw 1000)))).
Proof.
  intros Hp Hq. rewrite run_steps_tree. cbv zeta.
  unfold prompt_answer. rewrite Hp.
  destruct (extraction_request prompt _) as [es eu].
  destruct (Hq es eu) as (raw & Hr & Hs). exists es, eu, raw.
  split; [exact Hs|]. rewrite Hr, (parse_llm_json_blank raw Hs). reflexivity.
Qed.

(** X24.  Of the user's instructions only the trimmed text matters: two
    requests that differ only in whitespace around the instructions make
    the same calls and have the same result.  Instructions of whitespace
    only are the same as none. *)
Theorem analyze_documents_instructions (files : list UploadFile)
    (ui ui' : pystr) :
  strip ui = strip ui' ->
  analyze_documents sv config files ui = analyze_documents sv config files ui'.
Proof.
  intros H. unfold analyze_documents, run_steps. now rewrite H.
Qed.

Lemma truncate_text_flag (text : pystr) (max_tokens : Z) :
  snd (truncate_text text max_tokens) = false
  <-> estimate_tokens text <= max_tokens.
Proof.
  rewrite truncate_text_unfold.
  destruct (Z.leb_spec (estimate_tokens text) max_tokens); cbn [snd];
    split; trivial; try discriminate; lia.
Qed.

(** X25.  The response of a successful request.  The status is
    [success]; [tokens_estimated] is the estimate of the text sent to the
    LLM, which is the combined text as [truncate_text] returns it at the
    configured budget, so the guard around the call changes nothing;
    [warning] is absent exactly when the estimate of the combined text is
    within the budget, and [failed_files] exactly when no extraction
    failed; [extracted_data] is what [parse_llm_json] returned for the
    answer of the structuring call; and [report] is the answer of the
    report call with [<br>] put before every newline. *)
Theorem run_steps_response (file_texts failed : list (pystr * pystr))
    (user_instructions : pystr) (resp : response) :
  result (run_steps sv config file_texts failed user_instructions) = Ok resp ->
  let combined := combine_extracted_texts file_texts in
  let limit := max_total_tokens_estimate config in
  status resp = py "success"
  /\ tokens_estimated resp = estimate_tokens (fst (truncate_text combined limit))
  /\ (analyze.warning resp = None <-> estimate_tokens combined <= limit)
  /\ (failed_files resp = None <-> failed = [])
  /\ (exists raw, parse_llm_json (json_loads sv) raw = Ok (extracted_data resp))
  /\ (exists report_html,
        report resp = replace_char NL (py "<br>" ++ [NL]) report_html).
Proof.
  rewrite run_steps_tree. cbv zeta.
  destruct (prompt_answer sv (extraction_prompt_file config)) as [prompt|e];
    [|discriminate].
  destruct (extraction_request prompt _) as [es eu].
  destruct (query_ollama_json sv es eu) as [raw|e]; [|discriminate].
  destruct (parse_llm_json (json_loads sv) raw) as [data|e] eqn:Ep;
    [|destruct e; discriminate].
  destruct (calculations_text sv data) as [calc|e]; [|discriminate].
  destruct (prompt_answer sv (report_prompt_file config)) as [rprompt|e];
    [|discriminate].
  destruct (report_request rprompt calc user_instructions) as [rs ru].
  destruct (query_ollama_report sv rs ru) as [html|e]; [|discriminate].
  cbn [result snd]. intros [= <-]. cbn [status tokens_estimated analyze.warning
    failed_files extracted_data report].
  split; [reflexivity|]. split; [reflexivity|]. split.
  - rewrite <- truncate_text_flag. unfold bounded_text.
    destruct (snd (truncate_text _ _)); split; trivial; discriminate.
  - split; [|split; eauto].
    destruct failed; split; trivial; discriminate.
Qed.

(** X26.  The errors of the extraction prompt.  When the prompt file does
    not exist, the request fails with status 500 and a detail that names
    the resolved path.  When the file exists and reading it raises, only a
    [RuntimeError] becomes the status 500: any other exception of the
    read, a [UnicodeDecodeError] or a [PermissionError] say, is passed on
    as it is and is no [HTTPException] of the endpoint.  In each case the
    prompt load is the only call made: the LLM is not queried. *)
Theorem run_steps_prompt_errors (file_texts failed : list (pystr * pystr))
    (user_instructions : pystr) :
  let path_str := extraction_prompt_file config in
  (prompt_text sv path_str = None ->
   run_steps sv config file_texts failed user_instructions
   = ([EvLoadPrompt path_str],
      Raise (HTTPException 500
               (DetailText
                  (py "Extraction prompt error: "
                   ++ py "Prompt template not found: "
                   ++ prompt_path sv path_str)))))
  /\ (forall e, prompt_text sv path_str = Some (Raise e) ->
        run_steps sv config file_texts failed user_instructions
        = ([EvLoadPrompt path_str],
           Raise (if is_RuntimeError e
                  then HTTPException 500
                         (DetailText (py "Extraction prompt error: "
                                      ++ exn_str e))
                  else e))).
Proof.
  intros path_str. split.
  - intros H. rewrite run_steps_tree. cbv zeta. unfold prompt_answer.
    fold path_str. rewrite H. reflexivity.
  - intros e H. rewrite run_steps_tree. cbv zeta. unfold prompt_answer.
    fold path_str. rewrite H. reflexivity.
Qed.

End Pipeline.

Lemma run_steps_blank_answer_witness :
  exists es eu raw,
    all_space raw
    /\ analyze.run_steps (ucd := ascii_only) sample_services_blank sample_config
         [(py "balance.xlsx", py "Sheet: balance")] [] []
       = ([EvLoadPrompt (analyze.extraction_prompt_file sample_config);
           EvQueryJson es eu],
          Raise (HTTPException 500
                   (DetailParse
                      (py "Failed to parse extracted data: "
                       ++ py "LLM повернув порожню відповідь")
                      (slice_to raw 1000)))).
Proof.
  apply (run_steps_blank_answer (ucd := ascii_only) sample_services_blank
           sample_config [(py "balance.xlsx", py "Sheet: balance")] [] []
           (py "Extract the rows. {documents}")).
  - reflexivity.
  - intros es eu. exists (py "  "). split; reflexivity.
Defined.

Lemma analyze_documents_instructions_witness :
  analyze.analyze_documents (ucd := ascii_only) sample_services sample_config
    [upload "balance.xlsx" []] ([SP] ++ py "Be brief." ++ [NL])
  = analyze.analyze_documents (ucd := ascii_only) sample_services sample_config
      [upload "balance.xlsx" []] (py "Be brief.").
Proof.
  apply (analyze_documents_instructions (ucd := ascii_only)).
  reflexivity.
Defined.

(** A request that runs through. *)
Lemma run_steps_response_witness :
  analyze.status sample_response = py "success"
  /\ analyze.tokens_estimated sample_response
     = estimate_tokens
         (fst (truncate_text
                 (combine_extracted_texts
                    [(py "balance.xlsx", py "Sheet: balance")])
                 (analyze.max_total_tokens_estimate sample_config)))
  /\ (analyze.warning sample_response = None
      <-> estimate_tokens
            (combine_extracted_texts [(py "balance.xlsx", py "Sheet: balance")])
          <= analyze.max_total_tokens_estimate sample_config)
  /\ (analyze.failed_files sample_response = None
      <-> [(py "notes.docx", py "damaged")] = [])
  /\ (exists raw,
        parse_llm_json (ucd := ascii_only)
          (analyze.json_loads sample_services_complete) raw
        = Ok (analyze.extracted_data sample_response))
  /\ (exists report_html,
        analyze.report sample_response
        = replace_char NL (py "<br>" ++ [NL]) report_html).
Proof.
  apply (run_steps_response (ucd := ascii_only) sample_services_complete
           sample_config [(py "balance.xlsx", py "Sheet: balance")]
           [(py "notes.docx", py "damaged")] [] sample_response).
  vm_compute. reflexivity.
Defined.

(** A prompt file that is no UTF-8 text: the [UnicodeDecodeError] of the
    read leaves the endpoint as it is. *)
Lemma run_steps_prompt_errors_witness :
  analyze.run_steps (ucd := ascii_only) sample_services_unreadable sample_config
    [(py "balance.xlsx", py "Sheet: balance")] [] []
  = ([EvLoadPrompt (analyze.extraction_prompt_file sample_config)],
     Raise (OtherException
              (py "'utf-8' codec can't decode byte 0xff in position 0: invalid start byte"))).
Proof.
  destruct (run_steps_prompt_errors (ucd := ascii_only)
              sample_services_unreadable sample_config
              [(py "balance.xlsx", py "Sheet: balance")] [] [])
    as [_ Hread].
  apply (Hread (OtherException
                  (py "'utf-8' codec can't decode byte 0xff in position 0: invalid start byte"))).
  reflexivity.
Defined.

(** ** [llm_client] *)

Section OllamaClient.
Import app_config llm_client.

Variable post : pystr -> float -> chat_payload -> outcome pyval.

Lemma send_ollama_request_eq system_prompt user_content config np_override
    t_override json_format step_name :
  _send_ollama_request post system_prompt user_content config
    np_override t_override json_format step_name
  = (timeout <- float_of_int (ollama_timeout config) ;;
     data <- post (ollama_base_url config ++ py "/api/chat") timeout
               {| model := ollama_model config;
                  messages := [(py "system", system_prompt);
                               (py "user", user_content)];
                  stream := false;
                  options :=
                    {| num_ctx := ollama_num_ctx config;
                       temperature :=
                         match t_override with
                         | Some t => t
                         | None => ollama_temperature config
                         end;
                       num_predict :=
                         match np_override with
                         | Some n => n
                         | None => ollama_num_predict config
                         end;
                       repeat_penalty := ollama_repeat_penalty config;
                       repeat_last_n := ollama_repeat_last_n config |};
                  format := if json_format then Some (py "json") else None |} ;;
     message <- get_method data (py "message") (PDict []) ;;
     content <- get_method message (py "content") (PStr []) ;;
     thinking <- get_method message (py "thinking") (PStr []) ;;
     _ <- (if truthy thinking then len_of thinking else Ok 0) ;;
     _ <- len_of content ;;
     Ok content).
Proof.
  unfold _send_ollama_request.
  destruct (float_of_int (ollama_timeout config)) as [timeout|e]; [|reflexivity].
  cbn [bind outcome_monad].
  destruct (post _ _ _) as [data|e]; [|reflexivity].
  destruct data as [| | | | | |d]; try reflexivity.
  cbn [get_method bind outcome_monad].
  destruct (match dict_get d (py "message") with Some x => x | None => PDict [] end)
    as [| | | | | |m]; try reflexivity.
  cbn [get_method bind outcome_monad].
  set (content := match dict_get m (py "content") with Some x => x | None => PStr [] end).
  set (thinking := match dict_get m (py "thinking") with Some x => x | None => PStr [] end).
  destruct (truthy thinking) eqn:Et.
  - destruct (len_of thinking); cbn [bind outcome_monad]; [|reflexivity].
    destruct (negb (truthy content) && true); reflexivity.
  - rewrite andb_false_r. reflexivity.
Qed.

(** X27.  The structuring call fixes its own sampling.  Whatever the
    configuration, [query_ollama_json] posts a payload that is not
    streamed and asks for JSON format, at most 4096 tokens and temperature
    0.1: its result depends on the server only through the answers to such
    payloads, and the configured [num_predict] and [temperature] have no
    effect on it.  Two configurations that agree on the URL, the model,
    the context size, the timeout and the repeat settings give the same
    result. *)
Theorem query_ollama_json_request (system_prompt user_content : pystr)
    (config config' : AppConfig)
    (post' : pystr -> float -> chat_payload -> outcome pyval) :
  ollama_base_url config' = ollama_base_url config ->
  ollama_model config' = ollama_model config ->
  ollama_num_ctx config' = ollama_num_ctx config ->
  ollama_timeout config' = ollama_timeout config ->
  ollama_repeat_penalty config' = ollama_repeat_penalty config ->
  ollama_repeat_last_n config' = ollama_repeat_last_n config ->
  (forall url timeout payload,
     stream payload = false ->
     format payload = Some (py "json") ->
     num_predict (options payload) = 4096 ->
     temperature (options payload) = float_of_decimal false 1 (-1) ->
     post' url timeout payload = post url timeout payload) ->
  query_ollama_json post' system_prompt user_content config'
  = query_ollama_json post system_prompt user_content config.
Proof.
  intros H1 H2 H3 H4 H5 H6 Hpost. unfold query_ollama_json.
  unfold _send_ollama_request at 1. rewrite send_ollama_request_eq.
  rewrite H1, H2, H3, H4, H5, H6.
  destruct (float_of_int (ollama_timeout config)) as [timeout|e];
    [|reflexivity].
  cbn [bind outcome_monad]. rewrite Hpost by reflexivity.
  destruct (post _ _ _) as [data|e]; [|reflexivity].
  destruct data as [| | | | | |d]; try reflexivity.
  cbn [get_method bind outcome_monad].
  destruct (match dict_get d (py "message") with Some x => x | None => PDict [] end)
    as [| | | | | |m]; try reflexivity.
  cbn [get_method bind outcome_monad].
  destruct (truthy _) eqn:Et.
  - destruct (len_of _); cbn [bind outcome_monad]; [|reflexivity].
    destruct (negb (truthy _) && true); reflexivity.
  - rewrite andb_false_r. reflexivity.
Qed.

(** X28.  What a chat request returns.  When the server answers with a
    JSON object whose [message] is an object, the result is the [content]
    of the message, a string, as it is; an answer without [message], or a
    message without [content], gives the empty string and no exception.
    This holds for every override, format and step name, the [thinking] of
    the message being absent or a string. *)
Theorem send_ollama_request_content (system_prompt user_content : pystr)
    (config : AppConfig) (np_override : option Z) (t_override : option float)
    (json_format : bool) (step_name : pystr) (timeout : float)
    (data : list (pystr * pyval)) :
  float_of_int (ollama_timeout config) = Ok timeout ->
  (forall url payload, post url timeout payload = Ok (PDict data)) ->
  let answer :=
    _send_ollama_request post system_prompt user_content config
      np_override t_override json_format step_name in
  (dict_get data (py "message") = None -> answer = Ok (PStr []))
  /\ (forall message,
        dict_get data (py "message") = Some (PDict message) ->
        (dict_get message (py "thinking") = None
         \/ exists t, dict_get message (py "thinking") = Some (PStr t)) ->
        (dict_get message (py "content") = None -> answer = Ok (PStr []))
        /\ (forall c, dict_get message (py "content") = Some (PStr c) ->
                      answer = Ok (PStr c))).
Proof.
  intros Ht Hpost answer. unfold answer. rewrite send_ollama_request_eq, Ht.
  cbn [bind outcome_monad]. rewrite Hpost. cbn [bind outcome_monad get_method].
  split.
  - intros ->. reflexivity.
  - intros message -> Hth. cbn [bind outcome_monad get_method].
    split.
    + intros ->. destruct Hth as [->|[t ->]]; [reflexivity|].
      destruct (truthy (PStr t)); reflexivity.
    + intros c ->. destruct Hth as [->|[t ->]]; [reflexivity|].
      destruct (truthy (PStr t)); reflexivity.
Qed.

End OllamaClient.

Section OllamaHealth.
Import app_config llm_client.

Lemma model_names_named models names :
  Forall2 named models names ->
  model_names models = Ok (List.map PStr names).
Proof.
  induction 1 as [|m n ms ns (d & -> & Hd) _ IH]; [reflexivity|].
  cbn [model_names getitem]. rewrite Hd. cbn [bind outcome_monad].
  now rewrite IH.
Qed.

Lemma any_contains_names ollama_model names :
  any_contains ollama_model (List.map PStr names)
  = Ok (existsb (contains ollama_model) names).
Proof.
  induction names as [|n ns IH]; [reflexivity|].
  cbn [List.map any_contains contains_op bind outcome_monad existsb].
  destruct (contains ollama_model n); [reflexivity | exact IH].
Qed.

Lemma model_names_unnamed models d :
  In (PDict d) models -> dict_get d (py "name") = None ->
  exists e, model_names models = Raise e.
Proof.
  induction models as [|m ms IH]; [intros []|].
  intros [->|Hin] Hd; cbn [model_names].
  - cbn [getitem]. rewrite Hd. cbn [bind outcome_monad]. eauto.
  - destruct (getitem m (py "name")) as [name|e]; cbn [bind outcome_monad];
      [|eauto].
    destruct (IH Hin Hd) as [e ->]. cbn [bind outcome_monad]. eauto.
Qed.

(** X29.  The health check always reports the configured model.  An
    unreachable report has no model list, says the model is not available
    and carries an error text; a reachable one carries no error.  A
    refused connection is reported with the URL of the server.  When the
    server lists models that all have a name, the report is reachable,
    lists the names in the order of the server, and the model counts as
    available exactly when its configured name occurs inside one of the
    listed names.  A listed model without a name makes the whole report
    unreachable, although the server answered. *)
Theorem check_ollama_health_status (get : pystr -> get_result)
    (config : AppConfig) :
  let h := check_ollama_health get config in
  let url := ollama_base_url config ++ py "/api/tags" in
  configured_model h = ollama_model config
  /\ (ollama_reachable h = false
      -> model_available h = false /\ available_models h = None
         /\ error h <> None)
  /\ (ollama_reachable h = true -> error h = None)
  /\ (get url = ConnectError ->
      ollama_reachable h = false
      /\ error h = Some (py "Cannot connect to Ollama at "
                         ++ ollama_base_url config))
  /\ (forall tags models names,
        get url = Response (PDict tags) ->
        dict_get tags (py "models") = Some (PList models) ->
        Forall2 named models names ->
        h = {| ollama_reachable := true;
               model_available :=
                 existsb (contains (ollama_model config)) names;
               configured_model := ollama_model config;
               available_models := Some (List.map PStr names);
               error := None |})
  /\ (forall tags models d,
        get url = Response (PDict tags) ->
        dict_get tags (py "models") = Some (PList models) ->
        In (PDict d) models -> dict_get d (py "name") = None ->
        ollama_reachable h = false).
Proof.
  intros h url. unfold h, check_ollama_health. fold url.
  split; [|split; [|split; [|split; [|split]]]].
  - destruct (get url) as [tags| |e]; try reflexivity.
    destruct (_ : outcome _) as [[names b]|e]; reflexivity.
  - destruct (get url) as [tags| |e];
      try (intros _; repeat split; discriminate).
    destruct (_ : outcome _) as [[names b]|e];
      [discriminate | intros _; repeat split; discriminate].
  - destruct (get url) as [tags| |e]; try discriminate.
    destruct (_ : outcome _) as [[names b]|e]; [reflexivity | discriminate].
  - intros ->. split; reflexivity.
  - intros tags models names -> Hm Hn.
    cbn [get_method bind outcome_monad]. rewrite Hm.
    cbn [iterate bind outcome_monad].
    rewrite (model_names_named _ _ Hn). cbn [bind outcome_monad].
    rewrite any_contains_names. reflexivity.
  - intros tags models d -> Hm Hin Hd.
    cbn [get_method bind outcome_monad]. rewrite Hm.
    cbn [iterate bind outcome_monad].
    destruct (model_names_unnamed models d Hin Hd) as [e ->]. reflexivity.
Qed.

End OllamaHealth.

(** A server that answers only requests for JSON, under the loaded and
    the default configuration. *)
Lemma query_ollama_json_request_witness :
  llm_client.query_ollama_json sample_post_json (py "Extract.")
    (py "Sheet: balance") sample_app_config
  = llm_client.query_ollama_json sample_post (py "Extract.") (py "Sheet: balance")
      app_config.default_config.
Proof.
  apply (query_ollama_json_request sample_post (py "Extract.")
           (py "Sheet: balance") app_config.default_config sample_app_config
           sample_post_json); try reflexivity.
  intros url timeout payload _ Hf _ _. unfold sample_post_json.
  now rewrite Hf.
Defined.

Lemma send_ollama_request_content_witness :
  llm_client._send_ollama_request sample_post (py "Report.") (py "Sheet: balance")
    sample_app_config None None false (py "report")
  = Ok (PStr (py "<p>ok</p>")).
Proof.
  refine (proj2 (proj2 (send_ollama_request_content sample_post (py "Report.")
                          (py "Sheet: balance") sample_app_config None None false
                          (py "report") _ sample_reply _ _)
                   sample_message _ _) _ _).
  - vm_compute. reflexivity.
  - reflexivity.
  - reflexivity.
  - left. reflexivity.
  - reflexivity.
Defined.

(** ** [config] and the OCR engine *)

Section Configuration.
Import app_config.

Lemma split_char_nonempty sep (s : pystr) : split_char sep s <> [].
Proof.
  induction s as [|c r IH]; cbn [split_char]; [discriminate|].
  destruct (c =? sep)%N; [discriminate|].
  destruct (split_char sep r); [congruence | discriminate].
Qed.

Ltac invert_binds H :=
  repeat match type of H with
         | match ?m with Ok _ => _ | Raise _ => _ end = Ok _ =>
             destruct m eqn:?; [|discriminate H]
         end.

Lemma load_config_languages_raw parser_read config :
  _load_config parser_read = Ok config ->
  exists languages_raw,
    ocr_languages config = List.map strip (split_char 44%N languages_raw).
Proof.
  unfold _load_config. destruct parser_read as [read|].
  - intros H. cbn [bind outcome_monad] in H. invert_binds H.
    injection H as <-. cbn [ocr_languages]. eauto.
  - intros [= <-]. exists (py "uk,en"). reflexivity.
Qed.

(** X30.  A configuration that [_load_config] returns has at least one
    OCR language, and no language has whitespace around it.  So the
    fallback language of [init_ocr_engine] is never used: the engine is
    made for the first configured language, which can be the empty
    string. *)
Theorem load_config_languages
    (parser_read : option (outcome ConfigParser)) (config : AppConfig) :
  _load_config parser_read = Ok config ->
  exists first rest,
    ocr_languages config = first :: rest
    /\ Forall (fun lang => strip lang = lang) (first :: rest)
    /\ forall (engine : Type)
              (PaddleOCR : bool -> pystr -> pystr -> outcome engine),
         image_extractor.init_ocr_engine PaddleOCR config
         = (e <- PaddleOCR true first
                   (if ocr_use_gpu config then py "gpu" else py "cpu") ;;
            Ok (Some e)).
Proof.
  intros H. destruct (load_config_languages_raw _ _ H) as [raw Hl].
  pose proof (split_char_nonempty 44%N raw) as Hne.
  destruct (ocr_languages config) as [|first rest] eqn:E.
  - destruct (split_char 44%N raw); [congruence | discriminate Hl].
  - exists first, rest. split; [reflexivity|]. split.
    + rewrite Hl. apply Forall_forall. intros lang Hin.
      apply in_map_iff in Hin. destruct Hin as (piece & <- & _).
      apply strip_idem.
    + intros engine PaddleOCR. unfold image_extractor.init_ocr_engine.
      now rewrite E.
Qed.

End Configuration.

Lemma load_config_languages_witness :
  exists first rest,
    app_config.ocr_languages sample_app_config = first :: rest
    /\ Forall (fun lang => strip lang = lang) (first :: rest)
    /\ forall (engine : Type)
              (PaddleOCR : bool -> pystr -> pystr -> outcome engine),
         image_extractor.init_ocr_engine PaddleOCR sample_app_config
         = (e <- PaddleOCR true first
                   (if app_config.ocr_use_gpu sample_app_config
                    then py "gpu" else py "cpu") ;;
            Ok (Some e)).
Proof.
  apply (load_config_languages (Some (Ok sample_parser)) sample_app_config).
  vm_compute. reflexivity.
Defined.
